(** * Quality-culture barometer: the scoring and validation engine

    A shallow embedding of the numeric core of the repository
    ([src/core/scoring_system.py], [src/core/validation_framework.py],
    [src/analytics/statistical_pipeline.py]) and the properties of it that
    the specification states.

    Numbers.  Python and numpy floats are modelled by exact rationals
    ([Q]) extended with the IEEE special values NaN and the two infinities,
    so every finite computation is carried out without representation
    error.  Rounding to a number of decimals is rounding half to even of the
    exact value.  A pandas cell is [option Q]: [None] is the missing value
    (NaN). *)

From Stdlib Require Import ZArith QArith Qround Qabs Lia Lqa.
From stdpp Require Import base strings pretty list gmap.

Local Open Scope Q_scope.

(** ** Floats *)

Inductive pyfloat : Type :=
| Fin (q : Q)
| NaN
| PInf
| NInf.

Definition fopp (x : pyfloat) : pyfloat :=
  match x with
  | Fin q => Fin (- q)
  | NaN => NaN
  | PInf => NInf
  | NInf => PInf
  end.

Definition fadd (x y : pyfloat) : pyfloat :=
  match x, y with
  | Fin a, Fin b => Fin (a + b)
  | NaN, _ | _, NaN => NaN
  | PInf, NInf | NInf, PInf => NaN
  | PInf, _ | _, PInf => PInf
  | NInf, _ | _, NInf => NInf
  end.

Definition fsub (x y : pyfloat) : pyfloat := fadd x (fopp y).

(** The product of a finite value [a] with an infinity of sign [pos]. *)
Definition inf_times (pos : bool) (a : Q) : pyfloat :=
  match a ?= 0 with
  | Gt => if pos then PInf else NInf
  | Lt => if pos then NInf else PInf
  | Eq => NaN
  end.

Definition fmul (x y : pyfloat) : pyfloat :=
  match x, y with
  | Fin a, Fin b => Fin (a * b)
  | NaN, _ | _, NaN => NaN
  | Fin a, PInf | PInf, Fin a => inf_times true a
  | Fin a, NInf | NInf, Fin a => inf_times false a
  | PInf, PInf | NInf, NInf => PInf
  | PInf, NInf | NInf, PInf => NInf
  end.

(** Division of numpy floats: a zero divisor gives an infinity or NaN (and
    a warning), never an exception.  Every zero divisor of the modelled code
    is a variance or a sum started at [0], hence a positive zero. *)
Definition fdiv (x y : pyfloat) : pyfloat :=
  match x, y with
  | NaN, _ | _, NaN => NaN
  | Fin a, Fin b => if Qeq_bool b 0 then inf_times true a else Fin (a / b)
  | Fin _, _ => Fin 0
  | PInf, Fin b => if Qle_bool 0 b then PInf else NInf
  | NInf, Fin b => if Qle_bool 0 b then NInf else PInf
  | _, _ => NaN
  end.

(** Comparison; [None] when an operand is NaN, so that every comparison
    with NaN is false. *)
Definition fcmp (x y : pyfloat) : option comparison :=
  match x, y with
  | NaN, _ | _, NaN => None
  | Fin a, Fin b => Some (a ?= b)
  | PInf, PInf | NInf, NInf => Some Eq
  | NInf, _ | _, PInf => Some Lt
  | PInf, _ | _, NInf => Some Gt
  end.

Definition fge (x y : pyfloat) : bool :=
  match fcmp x y with Some Gt | Some Eq => true | _ => false end.
Definition fgt (x y : pyfloat) : bool :=
  match fcmp x y with Some Gt => true | _ => false end.
Definition fle (x y : pyfloat) : bool :=
  match fcmp x y with Some Lt | Some Eq => true | _ => false end.
Definition flt (x y : pyfloat) : bool :=
  match fcmp x y with Some Lt => true | _ => false end.
Definition feq (x y : pyfloat) : bool :=
  match fcmp x y with Some Eq => true | _ => false end.


(** ** Rounding *)

(** The nearest integer, ties to the even one. *)
Definition round_half_even (q : Q) : Z :=
  let f := Qfloor q in
  match Qcompare (q - inject_Z f) (1 # 2) with
  | Lt => f
  | Gt => (f + 1)%Z
  | Eq => if Z.even f then f else (f + 1)%Z
  end.

Definition pow10 (d : nat) : Q := inject_Z (10 ^ Z.of_nat d).

(** [round(q, d)] on a finite float; the result is kept in lowest terms. *)
Definition round_nd (d : nat) (q : Q) : Q :=
  Qred (inject_Z (round_half_even (q * pow10 d)) / pow10 d).

Definition fround (d : nat) (x : pyfloat) : pyfloat :=
  match x with
  | Fin q => Fin (round_nd d q)
  | s => s
  end.

(** The nearest integer to the square root of [t] (for [0 <= t]), ties to
    even.  [Z.sqrt (Qfloor (4 * t))] is the floor of twice the root. *)
Definition round_sqrt (t : Q) : Z :=
  let s := Z.sqrt (Qfloor (4 * t)) in
  let m := (s / 2)%Z in
  if Z.even s then m
  else if Qeq_bool (4 * t) (inject_Z (s * s))
       then (if Z.even m then m else (m + 1)%Z)
       else (m + 1)%Z.

(** [round(sqrt(v), d)]: a standard deviation is only ever reported
    rounded, and the rounded value of a square root of a rational is
    computed exactly. *)
Definition round_sqrt_nd (d : nat) (v : Q) : Q :=
  Qred (inject_Z (round_sqrt (v * pow10 d * pow10 d)) / pow10 d).

(** ** Python values, dictionaries and exceptions *)

#[warnings="-register-all"]
Inductive value : Type :=
| VInt (z : Z)
| VFloat (x : pyfloat)
| VBool (b : bool)
| VStr (s : string)
| VList (l : list value)
| VDict (d : list (string * value)).

(** A dictionary literal, in insertion order. *)
Definition dict : Type := list (string * value).

Fixpoint dict_get (k : string) (d : dict) : option value :=
  match d with
  | [] => None
  | (k', v) :: d' => if String.eqb k k' then Some v else dict_get k d'
  end.

Definition dict_keys (d : dict) : list string := map fst d.

(** The number a value stands for, when it is a finite number. *)
Definition value_num (v : value) : option Q :=
  match v with
  | VInt z => Some (inject_Z z)
  | VFloat (Fin q) => Some q
  | _ => None
  end.

(** The builtin [round(v, d)]: an [int] is returned as it is. *)
Definition py_round (d : nat) (v : value) : value :=
  match v with
  | VFloat x => VFloat (fround d x)
  | other => other
  end.

Inductive exn : Type :=
| ZeroDivisionError
| IndexError
| KeyError
| ValueError.

Inductive result (A : Type) : Type :=
| Ok (a : A)
| Raise (e : exn).
Arguments Ok {A} a.
Arguments Raise {A} e.

#[global] Instance result_ret : MRet result := fun A a => Ok a.
#[global] Instance result_bind : MBind result := fun A B k r =>
  match r with
  | Ok a => k a
  | Raise e => Raise e
  end.

(** True division of two Python [int]s. *)
Definition int_truediv (a b : Z) : result pyfloat :=
  if (b =? 0)%Z then Raise ZeroDivisionError
  else Ok (Fin (inject_Z a / inject_Z b)).

(** ** pandas: series and data frames *)

Definition cell : Type := option Q.
Definition Series : Type := list cell.

Definition len {A : Type} (l : list A) : Z := Z.of_nat (length l).

Definition dropna (s : Series) : list Q := omap id s.

Definition to_cell (x : pyfloat) : cell :=
  match x with
  | Fin q => Some q
  | _ => None
  end.

Definition of_cell (c : cell) : pyfloat :=
  match c with
  | Some q => Fin q
  | None => NaN
  end.

(** Elementwise comparisons of a series with a scalar; a missing entry
    compares false. *)
Definition ser_ge (s : Series) (t : Q) : list bool :=
  map (fun c => match c with Some v => Qle_bool t v | None => false end) s.
Definition ser_le (s : Series) (t : Q) : list bool :=
  map (fun c => match c with Some v => Qle_bool v t | None => false end) s.
Definition ser_and (a b : list bool) : list bool := zip_with andb a b.

(** [.sum()] of a boolean series. *)
Definition bsum (l : list bool) : Z := len (List.filter (fun b => b) l).

Definition qsum (l : list Q) : Q := foldr Qplus 0 l.

Definition mean_of (l : list Q) : pyfloat :=
  match l with
  | [] => NaN
  | _ => Fin (qsum l / inject_Z (len l))
  end.

Definition sum_sq_dev (l : list Q) : Q :=
  let m := qsum l / inject_Z (len l) in
  qsum (map (fun x => (x - m) * (x - m)) l).

(** Unbiased sample variance ([ddof = 1]); NaN below two observations. *)
Definition var_of (l : list Q) : pyfloat :=
  if (len l <=? 1)%Z then NaN
  else Fin (sum_sq_dev l / inject_Z (len l - 1)).

(** The reductions of a series skip missing entries. *)
Definition ser_mean (s : Series) : pyfloat := mean_of (dropna s).
Definition ser_var (s : Series) : pyfloat := var_of (dropna s).
Definition ser_sum (s : Series) : Q := qsum (dropna s).

(** [round(s.std(), d)]. *)
Definition ser_std_round (d : nat) (s : Series) : pyfloat :=
  match ser_var s with
  | Fin v => Fin (round_sqrt_nd d v)
  | x => x
  end.

Fixpoint insert_sorted (x : Q) (l : list Q) : list Q :=
  match l with
  | [] => [x]
  | y :: l' => if Qle_bool x y then x :: l else y :: insert_sorted x l'
  end.

Definition sort_Q (l : list Q) : list Q := foldr insert_sorted [] l.

(** [s.quantile(p)], linear interpolation between order statistics. *)
Definition ser_quantile (p : Q) (s : Series) : pyfloat :=
  match sort_Q (dropna s) with
  | [] => NaN
  | x0 :: rest =>
      let xs := x0 :: rest in
      let pos := p * inject_Z (len xs - 1) in
      let lo := Qfloor pos in
      let x_lo := nth (Z.to_nat lo) xs x0 in
      let x_hi := nth (Z.to_nat (lo + 1)) xs x_lo in
      Fin (x_lo + (x_hi - x_lo) * (pos - inject_Z lo))
  end.

Definition ser_median (s : Series) : pyfloat := ser_quantile (1 # 2) s.

(** [s * c]. *)
Definition ser_scale (s : Series) (c : Q) : Series :=
  map (fun x => to_cell (fmul (of_cell x) (Fin c))) s.

(** A data frame: the column labels and the respondent rows, each row
    holding one cell per column. *)
Record DataFrame : Type := {
  columns : list string;
  rows : list (list cell)
}.

Definition df_len (d : DataFrame) : Z := len (rows d).

(** [d.empty]: an axis of length zero. *)
Definition df_empty (d : DataFrame) : bool :=
  match columns d, rows d with
  | [], _ | _, [] => true
  | _, _ => false
  end.

Definition has_column (d : DataFrame) (c : string) : bool :=
  bool_decide (c ∈ columns d).

(** [all(item in d.columns for item in items)] *)
Definition all_in_columns (d : DataFrame) (items : list string) : bool :=
  forallb (has_column d) items.

Fixpoint index_of (c : string) (cs : list string) : option nat :=
  match cs with
  | [] => None
  | c' :: cs' => if String.eqb c c' then Some O else S <$> index_of c cs'
  end.

(** The cell of a row under a label.  Selection by a label that is not a
    column raises [KeyError] in pandas; every modelled call site is behind the
    [all_in_columns] guard or iterates over [d.columns]. *)
Definition row_get (cs : list string) (r : list cell) (c : string) : cell :=
  match index_of c cs with
  | Some i => default None (r !! i)
  | None => None
  end.

(** [d[items]] *)
Definition df_select (d : DataFrame) (items : list string) : DataFrame :=
  {| columns := items;
     rows := map (fun r => map (row_get (columns d) r) items) (rows d) |}.

(** [d[c]] *)
Definition df_column (d : DataFrame) (c : string) : Series :=
  map (fun r => row_get (columns d) r c) (rows d).

(** [d.mean(axis=1)]: the mean of the present cells of each row. *)
Definition row_means (d : DataFrame) : Series :=
  map (fun r => to_cell (mean_of (dropna r))) (rows d).

(** [d.sum(axis=1)]: missing cells count for nothing. *)
Definition row_sums (d : DataFrame) : Series :=
  map (fun r => Some (qsum (dropna r))) (rows d).

(** [d.var()]: one variance per column. *)
Definition col_vars (d : DataFrame) : list pyfloat :=
  map (fun c => ser_var (df_column d c)) (columns d).

(** [.sum()] of a series of floats skips the NaN entries. *)
Definition nansum (l : list pyfloat) : pyfloat :=
  Fin (qsum (omap to_cell l)).

(** A Pearson correlation is the real number [sxy / sqrt d] for rationals
    [sxy] and [0 < d]; it is kept in that form, which decides every
    comparison and rounding of it exactly. *)
Inductive corr_value : Type :=
| CorrNaN
| Corr (sxy : Q) (d : Q).

Definition complete_pairs (a b : Series) : list (Q * Q) :=
  omap (fun p => match p with
                 | (Some x, Some y) => Some (x, y)
                 | _ => None
                 end) (zip a b).

(** [a.corr(b)]: Pearson, over the rows where both are present. *)
Definition ser_corr (a b : Series) : corr_value :=
  let ps := complete_pairs a b in
  let xs := map fst ps in
  let ys := map snd ps in
  let n := inject_Z (len ps) in
  if (len ps <? 2)%Z then CorrNaN
  else
    let mx := qsum xs / n in
    let my := qsum ys / n in
    let sxy := qsum (map (fun p => (fst p - mx) * (snd p - my)) ps) in
    let d := sum_sq_dev xs * sum_sq_dev ys in
    if Qeq_bool d 0 then CorrNaN else Corr sxy d.

(** [round(c, d)] of a correlation. *)
Definition corr_round (d : nat) (c : corr_value) : pyfloat :=
  match c with
  | CorrNaN => NaN
  | Corr sxy v =>
      let k := round_sqrt (sxy * sxy / v * pow10 d * pow10 d) in
      Fin (Qred (inject_Z (if Qle_bool 0 sxy then k else (- k)%Z) / pow10 d))
  end.

(** [d[items]] as pandas evaluates it: a label that is not a column raises
    [KeyError]. *)
Definition df_getitem (d : DataFrame) (items : list string) : result DataFrame :=
  if all_in_columns d items then Ok (df_select d items) else Raise KeyError.

(** [d.dropna()]: the rows without a missing cell. *)
Definition df_dropna (d : DataFrame) : DataFrame :=
  {| columns := columns d;
     rows := List.filter (forallb (fun c : cell => bool_decide (is_Some c))) (rows d) |}.

(** [np.mean] of a non-empty list of floats; NaN propagates. *)
Definition np_mean (l : list pyfloat) : pyfloat :=
  fdiv (foldl fadd (Fin 0) l) (Fin (inject_Z (len l))).

(** [abs(r) ** 2] of a correlation: a rational. *)
Definition corr_square (c : corr_value) : pyfloat :=
  match c with
  | CorrNaN => NaN
  | Corr sxy d => Fin (sxy * sxy / d)
  end.

(** [abs(r) > t] for a correlation and [0 <= t], decided on the squares;
    false on NaN. *)
Definition corr_abs_gt (c : corr_value) (t : Q) : bool :=
  match c with
  | CorrNaN => false
  | Corr sxy d => negb (Qle_bool (sxy * sxy) (t * t * d))
  end.

(** The dimension structure: dimension name to item identifiers, in
    insertion order. *)
Definition Structure : Type := list (string * list string).

(** ** [src/core/scoring_system.py] *)

Module NPQSScorer.

Definition promoter_threshold : Q := 9.
Definition passive_range : Q * Q := (7, 8).
Definition detractor_max : Q := 6.

(** The dictionary of the two early returns. *)
Definition no_response : dict :=
  [("npqs", VFloat (Fin 0)); ("promoters", VInt 0);
   ("passives", VInt 0); ("detractors", VInt 0)]%string.

Definition pct (count total : Z) : value :=
  VFloat (fround 2 (fmul (fdiv (Fin (inject_Z count)) (Fin (inject_Z total)))
                         (Fin 100))).

Definition calculate_npqs (responses : Series) : dict :=
  match responses with
  | [] => no_response
  | _ =>
      let promoters := bsum (ser_ge responses promoter_threshold) in
      let passives :=
        bsum (ser_and (ser_ge responses (fst passive_range))
                      (ser_le responses (snd passive_range))) in
      let detractors := bsum (ser_le responses detractor_max) in
      let total := len responses in
      if (total =? 0)%Z then no_response
      else
        [("npqs", pct (promoters - detractors) total);
         ("promoters", VInt promoters);
         ("passives", VInt passives);
         ("detractors", VInt detractors);
         ("promoter_pct", pct promoters total);
         ("passive_pct", pct passives total);
         ("detractor_pct", pct detractors total)]%string
  end.

End NPQSScorer.

Module MaturityScorer.

Definition levels : list (Z * string) :=
  [(1, "Initial/Ad-hoc"); (2, "Managed"); (3, "Defined");
   (4, "Quantitatively Managed"); (5, "Optimizing")]%Z%string.

Definition _get_maturity_level (score : pyfloat) : string :=
  if fge score (Fin (45 # 10)) then "Optimizing"
  else if fge score (Fin (35 # 10)) then "Quantitatively Managed"
  else if fge score (Fin (25 # 10)) then "Defined"
  else if fge score (Fin (15 # 10)) then "Managed"
  else "Initial/Ad-hoc".

(** [levels.value_counts().to_dict()] of one column: how many cells fall
    in each level.  The entries are listed from the highest level down and
    not by decreasing count. *)
Definition level_counts (s : Series) : dict :=
  let ls := map (fun c => _get_maturity_level (of_cell c)) s in
  omap (fun l =>
          let n := len (List.filter (String.eqb l) ls) in
          if (0 <? n)%Z then Some (l, VInt n) else None)
       (rev (map snd levels)).

Definition _get_maturity_distribution (responses : DataFrame) : dict :=
  map (fun col => (col, VDict (level_counts (df_column responses col))))
      (columns responses).

(** One turn of the loop over [responses.columns]: the entry of the
    dimension and its weight, when the dimension has a weight. *)
Definition score_dimension (responses : DataFrame) (weights : gmap string Q)
    (dimension : string) : option (string * value * pyfloat * Q) :=
  w ← weights !! dimension;
  let col := df_column responses dimension in
  let weighted_score := fround 2 (fmul (ser_mean col) (Fin w)) in
  Some (dimension,
        VDict [("score", VFloat (fround 2 (ser_mean col)));
               ("weighted_score", VFloat weighted_score);
               ("level", VStr (_get_maturity_level (ser_mean col)));
               ("std", VFloat (ser_std_round 2 col))]%string,
        weighted_score, w).

(** The loop over [responses.columns]. *)
Definition score_columns (responses : DataFrame) (weights : gmap string Q)
    : list (string * value * pyfloat * Q) :=
  omap (score_dimension responses weights) (columns responses).

Definition calculate_maturity (responses : DataFrame)
    (weights : option (gmap string Q)) : result dict :=
  if df_empty responses then
    Ok [("overall_maturity", VInt 0); ("dimension_scores", VDict []);
        ("level", VStr "Initial/Ad-hoc")]%string
  else
    let weights :=
      match weights with
      | Some w => w
      | None => list_to_map (map (fun col => (col, 1)) (columns responses))
      end in
    let scored := score_columns responses weights in
    let dimension_scores := map (fun e => (e.1.1.1, e.1.1.2)) scored in
    let total_weight := qsum (map snd scored) in
    (* [sum(...) / total_weight]: with no scored dimension both operands
       are the [int] zero and the division raises; otherwise the
       numerator is a numpy float and a zero divisor gives NaN or an
       infinity. *)
    overall_score ←
      match scored with
      | [] => int_truediv 0 0
      | _ => Ok (fdiv (foldl fadd (Fin 0) (map (fun e => e.1.2) scored))
                      (Fin total_weight))
      end;
    let overall_level := _get_maturity_level overall_score in
    Ok [("overall_maturity", VFloat (fround 2 overall_score));
        ("overall_level", VStr overall_level);
        ("dimension_scores", VDict dimension_scores);
        ("maturity_distribution",
         VDict (_get_maturity_distribution responses))]%string.

End MaturityScorer.

Module EFQMRADARScorer.

Definition radar_weights : list (string * Q) :=
  [("results", 25 # 100); ("approach", 25 # 100);
   ("deployment", 25 # 100); ("assessment", 25 # 100)]%string.

(** One turn of the loop over [self.radar_weights.items()]: the entry of the
    criterion and its weighted score, when the criterion is a column. *)
Definition score_criterion (responses : DataFrame) (cw : string * Q)
    : option (string * value * pyfloat) :=
  if has_column responses cw.1 then
    let score := ser_mean (df_column responses cw.1) in
    let weighted := fround 2 (fmul score (Fin cw.2)) in
    Some (cw.1,
          VDict [("score", VFloat (fround 2 score));
                 ("weighted_score", VFloat weighted)]%string,
          weighted)
  else None.

Definition calculate_radar_score (responses : DataFrame) : dict :=
  if df_empty responses then
    [("total_score", VInt 0); ("radar_scores", VDict [])]%string
  else
    let scored := omap (score_criterion responses) radar_weights in
    (* [sum] of no score is the [int] zero *)
    let total_score :=
      match scored with
      | [] => VInt 0
      | _ => VFloat (foldl fadd (Fin 0) (map snd scored))
      end in
    [("total_score", py_round 2 total_score);
     ("radar_scores", VDict (map fst scored))]%string.

End EFQMRADARScorer.

Module BenchmarkAnalyzer.

Definition industry_averages : list (string * Q) :=
  [("npqs", 25); ("maturity", 32 # 10); ("leadership", 34 # 10);
   ("engagement", 31 # 10); ("process", 33 # 10)]%string.

Definition percentiles : list (Z * list (string * Q)) :=
  [(25%Z, [("npqs", 10); ("maturity", 25 # 10)]);
   (50%Z, [("npqs", 25); ("maturity", 32 # 10)]);
   (75%Z, [("npqs", 40); ("maturity", 38 # 10)]);
   (90%Z, [("npqs", 55); ("maturity", 43 # 10)])]%string.

Fixpoint lookup_metric (metric : string) (table : list (string * Q)) : option Q :=
  match table with
  | [] => None
  | (m, v) :: table' => if String.eqb metric m then Some v else lookup_metric metric table'
  end.

Definition _calculate_percentile (metric : string) (score : pyfloat) : Z :=
  if String.eqb metric "npqs" then
    if fge score (Fin 55) then 90
    else if fge score (Fin 40) then 75
    else if fge score (Fin 25) then 50
    else 25
  else if String.eqb metric "maturity" then
    if fge score (Fin (43 # 10)) then 90
    else if fge score (Fin (38 # 10)) then 75
    else if fge score (Fin (32 # 10)) then 50
    else 25
  else 50.

Definition _get_performance_level (percentile : Z) : string :=
  if (90 <=? percentile)%Z then "Excellent"
  else if (75 <=? percentile)%Z then "Good"
  else if (50 <=? percentile)%Z then "Average"
  else "Needs Improvement".

(** One turn of the loop over [scores.items()]. *)
Definition benchmark_entry (ms : string * pyfloat) : option (string * dict) :=
  avg ← lookup_metric ms.1 industry_averages;
  let percentile := _calculate_percentile ms.1 ms.2 in
  Some (ms.1,
        [("score", VFloat ms.2);
         ("industry_average", VFloat (Fin avg));
         ("difference", VFloat (fround 2 (fsub ms.2 (Fin avg))));
         ("percentile", VInt percentile);
         ("performance_level", VStr (_get_performance_level percentile))]%string).

Definition calculate_benchmark_position (scores : list (string * pyfloat))
    : list (string * dict) :=
  omap benchmark_entry scores.

End BenchmarkAnalyzer.

Module StatisticalValidator.

Record t : Type := {
  alpha_threshold : Q;
  ave_threshold : Q
}.

(** The constructor's defaults. *)
Definition default : t :=
  {| alpha_threshold := 7 # 10; ave_threshold := 5 # 10 |}.

Definition calculate_reliability (self : t) (responses : DataFrame) : dict :=
  if df_empty responses || (len (columns responses) <? 2)%Z then
    [("cronbach_alpha", VFloat (Fin 0)); ("reliable", VBool false)]%string
  else
    let item_variances := col_vars responses in
    let total_variance := ser_var (row_sums responses) in
    let n_items := len (columns responses) in
    let alpha :=
      fmul (Fin (inject_Z n_items / inject_Z (n_items - 1)))
           (fsub (Fin 1) (fdiv (nansum item_variances) total_variance)) in
    [("cronbach_alpha", VFloat (fround 3 alpha));
     ("reliable", VBool (fge alpha (Fin (alpha_threshold self))));
     ("n_items", VInt n_items);
     ("n_responses", VInt (df_len responses))]%string.

End StatisticalValidator.

(** ** [src/core/validation_framework.py] *)

Module PsychometricValidator.

Record t : Type := {
  alpha_threshold : Q;
  ave_threshold : Q
}.

Definition default : t :=
  {| alpha_threshold := 7 # 10; ave_threshold := 5 # 10 |}.

(** [max(0, alpha)]: the second argument is returned only when it compares
    greater, so NaN gives [0]. *)
Definition max0 (alpha : pyfloat) : pyfloat :=
  if fgt alpha (Fin 0) then alpha else Fin 0.

Definition _calculate_cronbach_alpha (data : DataFrame) : pyfloat :=
  if df_empty data || (len (columns data) <? 2)%Z then Fin 0
  else
    let item_vars := col_vars data in
    let total_var := ser_var (row_sums data) in
    let n_items := len (columns data) in
    if feq total_var (Fin 0) then Fin 0
    else
      let alpha :=
        fmul (Fin (inject_Z n_items / inject_Z (n_items - 1)))
             (fsub (Fin 1) (fdiv (nansum item_vars) total_var)) in
      max0 alpha.

(** The entry of one scored dimension in [assess_reliability]. *)
Definition cronbach_entry (self : t) (data : DataFrame) (items : list string)
    : dict :=
  let alpha := _calculate_cronbach_alpha (df_select data items) in
  [("value", VFloat (fround 3 alpha));
   ("acceptable", VBool (fge alpha (Fin (alpha_threshold self))));
   ("n_items", VInt (len items))]%string.

(** The Cronbach part of [assess_reliability]: one entry per dimension
    whose items are all columns of the data.  (The composite-reliability
    entries add several square roots and are not modelled.) *)
Definition assess_reliability_cronbach (self : t) (data : DataFrame)
    (theoretical_structure : Structure) : list (string * dict) :=
  omap (fun d =>
          if all_in_columns data d.2
          then Some (d.1, cronbach_entry self data d.2)
          else None)
       theoretical_structure.

(** [all_alphas], the reported (rounded) values, and the overall verdict
    of [assess_reliability]. *)
Definition all_alphas (self : t) (data : DataFrame)
    (theoretical_structure : Structure) : list pyfloat :=
  omap (fun e : string * dict =>
          match dict_get "value" e.2 with
          | Some (VFloat a) => Some a
          | _ => None
          end)
       (assess_reliability_cronbach self data theoretical_structure).

Definition overall_reliability (self : t) (data : DataFrame)
    (theoretical_structure : Structure) : bool :=
  forallb (fun a => fge a (Fin (alpha_threshold self)))
          (all_alphas self data theoretical_structure).

Definition _calculate_average_variance_extracted (data : DataFrame) : pyfloat :=
  if df_empty data then Fin 0
  else
    let total_score := row_means data in
    let loadings :=
      map (fun col => corr_square (ser_corr (df_column data col) total_score))
          (columns data) in
    np_mean loadings.

(** The entry of one scored dimension under [convergent_validity]. *)
Definition convergent_entry (self : t) (data : DataFrame) (items : list string)
    : dict :=
  let ave := _calculate_average_variance_extracted (df_select data items) in
  [("ave", VFloat (fround 3 ave));
   ("acceptable", VBool (fge ave (Fin (ave_threshold self))))]%string.

Definition _assess_content_validity (structure : Structure) : dict :=
  let total_items := foldr Z.add 0%Z (map (fun d => len d.2) structure) in
  [("n_dimensions", VInt (len structure));
   ("n_items", VInt total_items);
   ("items_per_dimension",
    VDict (map (fun d => (d.1, VInt (len d.2))) structure));
   ("adequate_coverage",
    VBool (forallb (fun d => (3 <=? len d.2)%Z) structure))]%string.

(** The three stand-ins of the factor analysis. *)
Definition _calculate_kmo (data : DataFrame) : pyfloat := Fin (8 # 10).
Definition _bartlett_sphericity_test (data : DataFrame) : dict :=
  [("chi_square", VFloat (Fin 100)); ("df", VInt 10);
   ("p_value", VFloat (Fin (1 # 1000))); ("significant", VBool true)]%string.
Definition _parallel_analysis (data : DataFrame) : Z := 4.
Definition _exploratory_factor_analysis (data : DataFrame) (n_factors : Z) : dict :=
  [("n_factors", VInt n_factors); ("loadings", VStr "factor_loadings")]%string.

Definition assess_dimensionality (data : DataFrame)
    (theoretical_structure : Structure) : result dict :=
  let all_items := concat (map snd theoretical_structure) in
  analysis_data ← df_getitem data all_items;
  let kmo := _calculate_kmo analysis_data in
  let bartlett := _bartlett_sphericity_test analysis_data in
  let n_factors := _parallel_analysis analysis_data in
  let efa_results := _exploratory_factor_analysis analysis_data n_factors in
  let significant :=
    match dict_get "significant" bartlett with
    | Some (VBool b) => b
    | _ => false
    end in
  Ok [("kmo", VFloat (fround 3 kmo));
      ("bartlett", VDict bartlett);
      ("recommended_factors", VInt n_factors);
      ("theoretical_factors", VInt (len theoretical_structure));
      ("factor_structure", VDict efa_results);
      ("dimensionality_adequate",
       VBool (fgt kmo (Fin (6 # 10)) && significant))]%string.

Definition assess_sample_adequacy (data : DataFrame) : result dict :=
  let n_responses := df_len data in
  let n_items := len (columns data) in
  let n_cases_rule := (5 * n_items <=? n_responses)%Z in
  let n_cases_rule_10 := (10 * n_items <=? n_responses)%Z in
  let kline_adequate := (20 * n_items <=? n_responses)%Z in
  ratio ← int_truediv n_responses n_items;
  Ok [("n_responses", VInt n_responses);
      ("n_items", VInt n_items);
      ("ratio", VFloat (fround 2 ratio));
      ("adequacy_5_1", VBool n_cases_rule);
      ("adequacy_10_1", VBool n_cases_rule_10);
      ("kline_adequate", VBool kline_adequate);
      ("recommended_minimum", VInt (Z.max 200 (10 * n_items)))]%string.











End PsychometricValidator.

(** ** [src/analytics/statistical_pipeline.py] *)

Module QualityCultureAnalyzer.

Definition maturity (level color description : string) : dict :=
  [("level", VStr level); ("color", VStr color);
   ("description", VStr description)]%string.

Definition _calculate_maturity_level (score : pyfloat) : dict :=
  if fge score (Fin 80) then
    maturity "Excellence" "#2E8B57" "Culture qualité mature"
  else if fge score (Fin 60) then
    maturity "Amélioration" "#FFD700" "Progrès significatifs"
  else if fge score (Fin 40) then
    maturity "Développement" "#FF8C00" "Besoin d'attention"
  else
    maturity "Initial" "#DC143C" "Priorité critique".

(** [dimension_data.mean(axis=1) * 20], the individual scores of a
    dimension on the 0-100 scale. *)
Definition individual_scores (data : DataFrame) (items : list string)
    : Series :=
  ser_scale (row_means (df_select data items)) 20.

Definition dimension_entry (data : DataFrame) (items : list string) : dict :=
  let scores := individual_scores data items in
  [("individual_scores", VList (map (fun c => VFloat (of_cell c)) scores));
   ("mean_score", VFloat (fround 2 (ser_mean scores)));
   ("std_score", VFloat (ser_std_round 2 scores));
   ("median_score", VFloat (fround 2 (ser_median scores)));
   ("percentile_25", VFloat (fround 2 (ser_quantile (25 # 100) scores)));
   ("percentile_75", VFloat (fround 2 (ser_quantile (75 # 100) scores)));
   ("maturity_level", VDict (_calculate_maturity_level (ser_mean scores)))
  ]%string.

Definition calculate_dimension_scores (data : DataFrame)
    (theoretical_structure : Structure) : list (string * dict) :=
  omap (fun d =>
          if all_in_columns data d.2
          then Some (d.1, dimension_entry data d.2)
          else None)
       theoretical_structure.

(** [sub in s] on strings. *)
Fixpoint contains (sub s : string) : bool :=
  String.prefix sub s ||
  match s with
  | EmptyString => false
  | String _ s' => contains sub s'
  end.

(** The body of [calculate_npqs_score], from the recommendation column
    on. *)
Definition npqs_of_recommendations (recommendations : Series) : dict :=
  let promoters := bsum (ser_ge recommendations 9) in
  let detractors := bsum (ser_le recommendations 6) in
  let total := len (dropna recommendations) in
  let pct (count : Z) : value :=
    if (0 <? total)%Z then
      VFloat (fround 2 (fmul (fdiv (Fin (inject_Z count))
                                   (Fin (inject_Z total))) (Fin 100)))
    else VInt 0 in
  [("npqs_score", pct (promoters - detractors)%Z);
   ("promoters_pct", pct promoters);
   ("detractors_pct", pct detractors);
   ("passives_pct", pct (total - promoters - detractors)%Z);
   ("n_responses", VInt total)]%string.

(** [data.filter(like='recommend').columns[-1]] raises [IndexError] when
    no column label contains the word. *)
Definition calculate_npqs_score (data : DataFrame) : result dict :=
  match last (List.filter (contains "recommend") (columns data)) with
  | None => Raise IndexError
  | Some recommendation_col =>
      Ok (npqs_of_recommendations (df_column data recommendation_col))
  end.

Definition _calculate_completion_rate (data : DataFrame) : value :=
  let completed_responses := df_len (df_dropna data) in
  if (0 <? df_len data)%Z then
    VFloat (fround 2 (fmul (fdiv (Fin (inject_Z completed_responses))
                                 (Fin (inject_Z (df_len data)))) (Fin 100)))
  else VInt 0.

(** The label of one column: the mean of its first half against the mean
    of the rest. *)
Definition trend_of (s : Series) : string :=
  let half := (length s / 2)%nat in
  let first_half := ser_mean (take half s) in
  let second_half := ser_mean (drop half s) in
  if fgt second_half first_half then "improving"
  else if flt second_half first_half then "declining"
  else "stable".

Definition _calculate_trend_direction (data : DataFrame) : list (string * string) :=
  omap (fun col =>
          let s := df_column data col in
          if (1 <? len s)%Z then Some (col, trend_of s) else None)
       (columns data).

(** [dimension_scores] of [perform_correlation_analysis]: the row means
    of every dimension whose items are all columns, under its name. *)
Definition scored_means (data : DataFrame) (theoretical_structure : Structure)
    : list (string * Series) :=
  omap (fun d =>
          if all_in_columns data d.2
          then Some (d.1, row_means (df_select data d.2))
          else None)
       theoretical_structure.

(** [scores_df.corr()]: one labelled row of pairwise correlations per
    dimension. *)
Definition corr_matrix (scores : list (string * Series))
    : list (string * list (string * corr_value)) :=
  map (fun a => (a.1, map (fun b => (b.1, ser_corr a.2 b.2)) scores)) scores.

Definition significant_entry (i j : string) (correlation : pyfloat)
    (strength : string) : dict :=
  [("variables", VList [VStr i; VStr j]);
   ("correlation", VFloat correlation);
   ("strength", VStr strength)]%string.

Definition _identify_significant_correlations
    (corr_matrix : list (string * list (string * corr_value))) : list dict :=
  corr_matrix ≫= (fun row =>
    omap (fun e : string * corr_value =>
            if negb (String.eqb row.1 e.1) && corr_abs_gt e.2 (1 # 2)
            then Some (significant_entry row.1 e.1 (corr_round 3 e.2)
                         (if corr_abs_gt e.2 (7 # 10)
                          then "strong" else "moderate"))
            else None)
         row.2).

(** The ["significant_correlations"] of [perform_correlation_analysis]. *)
Definition significant_correlations (data : DataFrame)
    (theoretical_structure : Structure) : list dict :=
  _identify_significant_correlations
    (corr_matrix (scored_means data theoretical_structure)).

Definition _determine_optimal_clusters : nat := 3.
Definition _calculate_silhouette_score : pyfloat := Fin (65 # 100).

(** [idxmax] / [idxmin] of a labelled series of means: the label of the
    first greatest (least) present value; ["nan"] when none is present. *)
Definition idx_best (better : Q -> Q -> bool) (means : list (string * pyfloat))
    : string :=
  match
    foldl (fun best e =>
             match to_cell e.2, best with
             | Some v, Some (_, b) => if better v b then Some (e.1, v) else best
             | Some v, None => Some (e.1, v)
             | None, _ => best
             end) None means
  with
  | Some (l, _) => l
  | None => "nan"
  end.

Definition _interpret_cluster_profile (cluster_means : list (string * pyfloat))
    : string :=
  let max_dim := idx_best (fun v b => negb (Qle_bool v b)) cluster_means in
  let min_dim := idx_best (fun v b => negb (Qle_bool b v)) cluster_means in
  "Fort en " +:+ max_dim +:+ ", à améliorer en " +:+ min_dim.

(** The rows of [np.array(series).T]. *)
Definition transpose (n : nat) (series : list Series) : list (list cell) :=
  map (fun i => map (fun s => default None (s !! i)) series) (seq 0 n).

(** The mean vectors of the dimensions whose items are all columns. *)
Definition dimension_means (data : DataFrame) (structure : Structure)
    : list Series :=
  omap (fun d =>
          if all_in_columns data d.2
          then Some (row_means (df_select data d.2))
          else None)
       structure.

(** [cluster_data], with the dimension names as labels; pandas refuses
    labels whose number differs from the number of columns. *)
Definition cluster_frame (data : DataFrame) (structure : Structure)
    : result DataFrame :=
  let means := dimension_means data structure in
  if bool_decide (length structure = length means) then
    Ok {| columns := map fst structure;
          rows := transpose (length (rows data)) means |}
  else Raise ValueError.

(** The analysis of cluster [i] given the labels of the respondents. *)
Definition cluster_entry (data : DataFrame) (cluster_data : DataFrame)
    (clusters : list nat) (i : nat) : string * value :=
  let cluster_mask := map (Nat.eqb i) clusters in
  let cluster_size := bsum cluster_mask in
  let members :=
    {| columns := columns cluster_data;
       rows := map snd (List.filter fst (zip cluster_mask (rows cluster_data))) |} in
  let cluster_means :=
    map (fun c => (c, ser_mean (df_column members c))) (columns members) in
  ("Cluster_" +:+ pretty (S i),
   VDict [("size", VInt cluster_size);
          ("percentage",
           VFloat (fround 2 (fmul (fdiv (Fin (inject_Z cluster_size))
                                        (Fin (inject_Z (df_len data))))
                                  (Fin 100))));
          ("characteristics",
           VDict (map (fun e => (e.1, VFloat e.2)) cluster_means));
          ("profile", VStr (_interpret_cluster_profile cluster_means))]%string).

(** scikit-learn and numpy's random generators are outside the
    repository: they are parameters of the clustering step.  A scaler is
    fitted (which replaces its state) and then transforms; k-means draws
    from the generator it is handed and returns one label per row. *)
Section Clustering.

Variable ndarray : Type.
Variable scaler_state : Type.
Variable scaler_fit : DataFrame -> result scaler_state.
Variable scaler_transform : scaler_state -> DataFrame -> ndarray.
Variable rng : Type.
Variable RandomState : Z -> rng.
Variable kmeans_fit_predict :
  nat -> rng -> ndarray -> result (list nat) * rng.

(** The analyzer object: [self.framework] and [self.scaler]. *)
Record t : Type := {
  framework : string;
  scaler : option scaler_state
}.

(** [check_random_state]: an integer seed makes a fresh generator and
    leaves the global one alone; [None] draws from the global one. *)
Definition seeded_fit_predict (n_clusters : nat) (random_state : option Z)
    (np_random : rng) (x : ndarray) : result (list nat) * rng :=
  match random_state with
  | Some seed => ((kmeans_fit_predict n_clusters (RandomState seed) x).1,
                  np_random)
  | None => kmeans_fit_predict n_clusters np_random x
  end.

(** [self.scaler.fit_transform(cluster_data)] *)
Definition fit_transform (self : t) (x : DataFrame) : result ndarray * t :=
  match scaler_fit x with
  | Ok st => (Ok (scaler_transform st x),
              {| framework := framework self; scaler := Some st |})
  | Raise e => (Raise e, self)
  end.

(** The labels [clusters] computed by [perform_clustering_analysis], with
    the frame they were computed from. *)
Definition fit_clusters (self : t) (np_random : rng) (data : DataFrame)
    (theoretical_structure : Structure)
    : result (DataFrame * list nat) * t * rng :=
  match cluster_frame data theoretical_structure with
  | Raise e => (Raise e, self, np_random)
  | Ok cluster_data =>
      match fit_transform self cluster_data with
      | (Raise e, self') => (Raise e, self', np_random)
      | (Ok scaled_data, self') =>
          let optimal_k := _determine_optimal_clusters in
          match seeded_fit_predict optimal_k (Some 42%Z) np_random scaled_data with
          | (Raise e, g) => (Raise e, self', g)
          | (Ok clusters, g) => (Ok (cluster_data, clusters), self', g)
          end
      end
  end.

Definition perform_clustering_analysis (self : t) (np_random : rng)
    (data : DataFrame) (theoretical_structure : Structure)
    : result dict * t * rng :=
  match dimension_means data theoretical_structure with
  | [] => (Ok [("n_clusters", VInt 0); ("clusters", VDict [])]%string,
           self, np_random)
  | _ =>
      match fit_clusters self np_random data theoretical_structure with
      | (Raise e, self', g) => (Raise e, self', g)
      | (Ok (cluster_data, clusters), self', g) =>
          let optimal_k := _determine_optimal_clusters in
          (Ok [("n_clusters", VInt (Z.of_nat optimal_k));
               ("clusters",
                VDict (map (cluster_entry data cluster_data clusters)
                           (seq 0 optimal_k)));
               ("silhouette_score", VFloat _calculate_silhouette_score)
              ]%string,
           self', g)
      end
  end.

End Clustering.

Arguments framework {scaler_state} _.
Arguments scaler {scaler_state} _.
Arguments fit_clusters {ndarray scaler_state} scaler_fit scaler_transform
  {rng} RandomState kmeans_fit_predict self np_random data
  theoretical_structure.
Arguments perform_clustering_analysis {ndarray scaler_state} scaler_fit
  scaler_transform {rng} RandomState kmeans_fit_predict self np_random data
  theoretical_structure.

End QualityCultureAnalyzer.

(** ** The vocabulary of the specification *)

(** NPQS: promoters answer 9 or more, detractors 6 or less; a statement
    about every valid response ranges over the entries that are present. *)
Definition promoter (v : Q) : Prop := 9 <= v.
Definition detractor (v : Q) : Prop := v <= 6.
Definition every_valid (P : Q -> Prop) (s : Series) : Prop := Forall P (dropna s).
Definition no_missing (s : Series) : Prop := Forall is_Some s.

(** The reported score of a result dictionary under a key, as a number. *)
Definition reported (key : string) (d : dict) (q : Q) : Prop :=
  exists v, dict_get key d = Some v /\ value_num v = Some q.

(** The NPQS sentence of the specification, read literally. *)
Definition npqs_as_specified (col : Series) (q : Q) : Prop :=
  (- (100) <= q /\ q <= 100)
  /\ (q == 100 <-> every_valid promoter col)
  /\ (q == - (100) <-> every_valid detractor col)
  /\ (dropna col = [] -> q == 0).

(** What the code guarantees: the two extreme scores need a valid response,
    and with 20000 valid responses or more the rounding to two decimals can
    reach them from nearby. *)
Definition npqs_law (col : Series) (q : Q) : Prop :=
  (- (100) <= q /\ q <= 100)
  /\ (dropna col = [] -> q == 0)
  /\ (dropna col <> [] -> every_valid promoter col -> q == 100)
  /\ (dropna col <> [] -> every_valid detractor col -> q == - (100))
  /\ ((len (dropna col) < 20000)%Z -> q == 100 ->
      dropna col <> [] /\ every_valid promoter col)
  /\ ((len (dropna col) < 20000)%Z -> q == - (100) ->
      dropna col <> [] /\ every_valid detractor col).

(** Every response that is present lies on the ordinal scale. *)
Definition on_scale (lo hi : Q) (c : cell) : Prop :=
  forall v, c = Some v -> lo <= v /\ v <= hi.
Definition in_scale (lo hi : Q) (data : DataFrame) : Prop :=
  Forall (Forall (on_scale lo hi)) (rows data).

(** Three respondents and two items on the 1-5 scale, one answer missing. *)
Definition three_respondents : DataFrame :=
  {| columns := ["a"; "b"]%string;
     rows := [[Some 1; Some 2]; [Some 5; Some 4]; [Some 2; None]] |}.

(** One dimension made of both items of [three_respondents]. *)
Definition both_items : Structure := [("D", ["a"; "b"])]%string.

(** Two respondents on the 1-5 scale, neither of whom answered item "b",
    and a structure with one dimension per item. *)
Definition unanswered_item : DataFrame :=
  {| columns := ["a"; "b"]%string;
     rows := [[Some 4; None]; [Some 5; None]] |}.
Definition item_per_dimension : Structure :=
  [("A", ["a"]); ("B", ["b"])]%string.

(** The dimension-score sentence of the specification, read literally:
    every score of every scored dimension, the respondents' and the
    dimension's, is a number of the report scale. *)
Definition on_report_scale (x : pyfloat) : Prop :=
  exists s, x = Fin s /\ 0 <= s /\ s <= 100.
Definition scores_as_specified (data : DataFrame) (structure : Structure)
    : Prop :=
  forall name e,
    (name, e) ∈ QualityCultureAnalyzer.calculate_dimension_scores data structure ->
    (exists x, dict_get "mean_score" e = Some (VFloat x) /\ on_report_scale x)
    /\ (exists l, dict_get "individual_scores" e = Some (VList l)
          /\ Forall (fun v => exists x, v = VFloat x /\ on_report_scale x) l).

(** The weighted aggregate in the words of the specification: the
    dimensions that are scored are the columns that have a weight; the
    weighted score of one is its mean times its weight, as reported (two
    decimals); the aggregate is their sum divided by the total weight. *)
Definition scored_dimensions (responses : DataFrame) (weights : gmap string Q)
    : list (string * Q) :=
  omap (fun c => w ← weights !! c; Some (c, w)) (columns responses).
Definition weighted_score (responses : DataFrame) (cw : string * Q) : pyfloat :=
  fround 2 (fmul (ser_mean (df_column responses cw.1)) (Fin cw.2)).
Definition total_weight (responses : DataFrame) (weights : gmap string Q) : Q :=
  qsum (map snd (scored_dimensions responses weights)).
Definition weighted_average (responses : DataFrame) (weights : gmap string Q)
    : pyfloat :=
  fdiv (foldl fadd (Fin 0)
          (map (weighted_score responses) (scored_dimensions responses weights)))
       (Fin (total_weight responses weights)).

Definition finite (x : pyfloat) : Prop := exists q, x = Fin q.

(** One respondent, one dimension, and a weight of zero for it. *)
Definition one_answer : DataFrame :=
  {| columns := ["a"]%string; rows := [[Some 3]] |}.
Definition zero_weight : gmap string Q := {[ "a"%string := 0 ]}.
Definition unit_weight : gmap string Q := {[ "a"%string := 1 ]}.



(** Five respondents and two one-item dimensions whose scores correlate at
    0.84984. *)
Definition two_dimensions : DataFrame :=
  {| columns := ["x"; "y"]%string;
     rows := [[Some 1; Some 1]; [Some 1; Some 2]; [Some 3; Some 2];
              [Some 3; Some 3]; [Some 4; Some 4]] |}.
Definition two_structure : Structure := [("A", ["x"]); ("B", ["y"])]%string.


(** A response that falls in one of the three NPQS categories: at most 6,
    from 7 to 8, or at least 9. *)
Definition categorised (v : Q) : Prop := v <= 6 \/ (7 <= v /\ v <= 8) \/ 9 <= v.

(** One respondent, two recommendation columns and another column. *)
Definition two_recommendations : DataFrame :=
  {| columns := ["recommend_a"; "recommend_b"; "age"]%string;
     rows := [[Some 3; Some 9; Some 40]] |}.

(** The total of the integer values of a dictionary of counts. *)
Definition counts_total (d : dict) : Z :=
  foldr (fun e acc => match e.2 with VInt z => (z + acc)%Z | _ => acc end) 0%Z d.

(** Two respondents on a 0-100 scale, two RADAR criteria and another
    column. *)
Definition radar_answers : DataFrame :=
  {| columns := ["results"; "other"; "approach"]%string;
     rows := [[Some 80; Some 1; Some 60]; [Some 100; None; None]] |}.

(** A frame in which no respondent left a cell empty. *)
Definition all_complete (data : DataFrame) : Prop :=
  Forall (Forall is_Some) (rows data).

(** A series without gaps whose values never decrease (never increase). *)
Definition nondecreasing (s : Series) : Prop :=
  no_missing s
  /\ forall (i j : nat) (x y : Q),
      (i <= j)%nat -> s !! i = Some (Some x) -> s !! j = Some (Some y) -> x <= y.
Definition nonincreasing (s : Series) : Prop :=
  no_missing s
  /\ forall (i j : nat) (x y : Q),
      (i <= j)%nat -> s !! i = Some (Some x) -> s !! j = Some (Some y) -> y <= x.

(** A series whose values are whole numbers. *)
Definition whole_numbers (s : Series) : Prop :=
  Forall (fun c : cell => forall x, c = Some x -> exists z, x == inject_Z z) s.

(** A column of 39999 promoters and one passive respondent. *)
Definition one_passive_in_40000 : Series :=
  repeat (Some 9) (Z.to_nat 39999) ++ [Some 7].

(** Scenario C of the specification: two items, both constant at 3. *)
Definition constant_items : DataFrame :=
  {| columns := ["i1"; "i2"]%string;
     rows := [[Some 3; Some 3]; [Some 3; Some 3]; [Some 3; Some 3]] |}.

(** Two items that vary against each other. *)
Definition opposed_items : DataFrame :=
  {| columns := ["i1"; "i2"]%string;
     rows := [[Some 1; Some 5]; [Some 5; Some 1]; [Some 3; Some 4]] |}.

(** * Properties *)

(** ** Rounding *)

Section Rounding.

Lemma round_half_even_comp (q q' : Q) :
  q == q' -> round_half_even q = round_half_even q'.
Proof.
  intros H. unfold round_half_even.
  rewrite (Qfloor_comp _ _ H).
  assert (E : q - inject_Z (Qfloor q') == q' - inject_Z (Qfloor q'))
    by (rewrite H; reflexivity).
  rewrite (Qcompare_comp _ _ E (1 # 2) (1 # 2) (Qeq_refl _)).
  reflexivity.
Qed.

(** The rounded value is within a half of the argument. *)
Lemma round_half_even_near (q : Q) :
  inject_Z (round_half_even q) - (1 # 2) <= q
  /\ q <= inject_Z (round_half_even q) + (1 # 2).
Proof.
  unfold round_half_even. cbv zeta.
  pose proof (Qfloor_le q) as Hlo.
  pose proof (Qlt_floor q) as Hhi.
  rewrite inject_Z_plus in Hhi. change (inject_Z 1) with 1 in Hhi.
  destruct (Qcompare_spec (q - inject_Z (Qfloor q)) (1 # 2)) as [E | L | G].
  - destruct (Z.even (Qfloor q)); rewrite ?inject_Z_plus;
      change (inject_Z 1) with 1; split; lra.
  - split; lra.
  - rewrite inject_Z_plus. change (inject_Z 1) with 1. split; lra.
Qed.

Lemma round_half_even_inject (k : Z) : round_half_even (inject_Z k) = k.
Proof.
  unfold round_half_even. rewrite Qfloor_Z.
  destruct (Qcompare_spec (inject_Z k - inject_Z k) (1 # 2)) as [E | L | G];
    try reflexivity; exfalso; lra.
Qed.

Lemma inject_Z_le_inv (a b : Z) : inject_Z a <= inject_Z b -> (a <= b)%Z.
Proof. rewrite <- Zle_Qle. trivial. Qed.


Lemma round_half_even_mono (q q' : Q) :
  q <= q' -> (round_half_even q <= round_half_even q')%Z.
Proof.
  intros H.
  destruct (Z_le_gt_dec (round_half_even q) (round_half_even q')) as [L | G];
    [exact L | exfalso].
  destruct (round_half_even_near q) as [Hq _].
  destruct (round_half_even_near q') as [_ Hq'].
  assert (Hk : inject_Z (round_half_even q') + 1 <= inject_Z (round_half_even q)).
  { rewrite <- (inject_Z_plus _ 1). rewrite <- Zle_Qle. lia. }
  assert (E : q == q') by lra.
  apply round_half_even_comp in E. lia.
Qed.

Lemma round_half_even_between (a b : Z) (q : Q) :
  inject_Z a <= q -> q <= inject_Z b ->
  (a <= round_half_even q <= b)%Z.
Proof.
  intros Ha Hb. split.
  - rewrite <- (round_half_even_inject a). now apply round_half_even_mono.
  - rewrite <- (round_half_even_inject b). now apply round_half_even_mono.
Qed.

Lemma pow10_pos (d : nat) : 0 < pow10 d.
Proof.
  unfold pow10. change 0 with (inject_Z 0). rewrite <- Zlt_Qlt.
  apply Z.pow_pos_nonneg; lia.
Qed.

Lemma round_nd_eq (d : nat) (q : Q) :
  round_nd d q == inject_Z (round_half_even (q * pow10 d)) / pow10 d.
Proof. unfold round_nd. apply Qred_correct. Qed.

Lemma round_nd_comp (d : nat) (q q' : Q) : q == q' -> round_nd d q = round_nd d q'.
Proof.
  intros H. unfold round_nd.
  rewrite (round_half_even_comp (q * pow10 d) (q' * pow10 d)); [reflexivity |].
  rewrite H. reflexivity.
Qed.

(** Rounding to decimals never leaves an interval with integer ends. *)
Lemma round_nd_between (d : nat) (a b : Z) (q : Q) :
  inject_Z a <= q -> q <= inject_Z b ->
  inject_Z a <= round_nd d q /\ round_nd d q <= inject_Z b.
Proof.
  intros Ha Hb. rewrite round_nd_eq.
  pose proof (pow10_pos d) as Hp.
  unfold pow10 in *. set (p := (10 ^ Z.of_nat d)%Z) in *.
  destruct (round_half_even_between (a * p) (b * p) (q * inject_Z p)) as [L U].
  - rewrite inject_Z_mult. apply Qmult_le_compat_r; lra.
  - rewrite inject_Z_mult. apply Qmult_le_compat_r; lra.
  - rewrite Zle_Qle, inject_Z_mult in L. rewrite Zle_Qle, inject_Z_mult in U.
    split.
    + apply Qle_shift_div_l; lra.
    + apply Qle_shift_div_r; lra.
Qed.

Lemma round_nd_inject (d : nat) (k : Z) : round_nd d (inject_Z k) == inject_Z k.
Proof.
  destruct (round_nd_between d k k (inject_Z k)) as [L U]; try lra.
Qed.

(** Rounding to two decimals moves a value by at most 0.005. *)
Lemma round_2_near (q : Q) :
  q - (5 # 1000) <= round_nd 2 q /\ round_nd 2 q <= q + (5 # 1000).
Proof.
  rewrite round_nd_eq. change (pow10 2) with 100.
  destruct (round_half_even_near (q * 100)) as [Hlo Hhi].
  unfold Qdiv. change (/ 100) with (1 # 100). split; lra.
Qed.

(** Two decimals: the rounded value is 100 exactly from 99.995 on, and
    -100 exactly up to -99.995. *)
Lemma round_2_is_100 (q : Q) :
  q <= 100 -> (round_nd 2 q == 100 <-> 99995 # 1000 <= q).
Proof.
  intros Hq. rewrite round_nd_eq. change (pow10 2) with 100.
  destruct (round_half_even_near (q * 100)) as [Hlo Hhi].
  assert (Hup : (round_half_even (q * 100) <= 10000)%Z).
  { rewrite <- (round_half_even_inject 10000).
    apply round_half_even_mono. change (inject_Z 10000) with 10000. lra. }
  split.
  - intros E. unfold Qdiv in E. change (/ 100) with (1 # 100) in E. lra.
  - intros H.
    assert (Hdn : (10000 <= round_half_even (q * 100))%Z).
    { change 10000%Z with (round_half_even (19999 # 2)).
      apply round_half_even_mono. lra. }
    replace (round_half_even (q * 100)) with 10000%Z by lia.
    reflexivity.
Qed.

Lemma round_2_is_m100 (q : Q) :
  - (100) <= q -> (round_nd 2 q == - (100) <-> q <= - (99995 # 1000)).
Proof.
  intros Hq. rewrite round_nd_eq. change (pow10 2) with 100.
  destruct (round_half_even_near (q * 100)) as [Hlo Hhi].
  assert (Hdn : (-10000 <= round_half_even (q * 100))%Z).
  { rewrite <- (round_half_even_inject (-10000)).
    apply round_half_even_mono. change (inject_Z (-10000)) with (- (10000)). lra. }
  split.
  - intros E. unfold Qdiv in E. change (/ 100) with (1 # 100) in E. lra.
  - intros H.
    assert (Hup : (round_half_even (q * 100) <= -10000)%Z).
    { change (-10000)%Z with (round_half_even (- (19999 # 2))).
      apply round_half_even_mono. lra. }
    replace (round_half_even (q * 100)) with (-10000)%Z by lia.
    reflexivity.
Qed.

End Rounding.

(** ** Counting promoters and detractors *)

Section Counting.

Lemma len_cons {A : Type} (x : A) (l : list A) : len (x :: l) = (1 + len l)%Z.
Proof. unfold len. cbn [length]. lia. Qed.

Lemma len_nonneg {A : Type} (l : list A) : (0 <= len l)%Z.
Proof. unfold len. lia. Qed.

Lemma len_nil_iff {A : Type} (l : list A) : len l = 0%Z <-> l = [].
Proof. destruct l; unfold len; cbn [length]; split; intros; try easy; lia. Qed.

Lemma bsum_cons (b : bool) (l : list bool) :
  bsum (b :: l) = ((if b then 1 else 0) + bsum l)%Z.
Proof. unfold bsum. cbn [List.filter]. destruct b; rewrite ?len_cons; lia. Qed.

Lemma bsum_nonneg (l : list bool) : (0 <= bsum l)%Z.
Proof. apply len_nonneg. Qed.

Lemma dropna_cons (c : cell) (s : Series) :
  dropna (c :: s) = match c with Some v => v :: dropna s | None => dropna s end.
Proof. destruct c; reflexivity. Qed.

(** Promoters and detractors are disjoint groups of valid responses. *)
Lemma promoters_detractors_le_valid (s : Series) :
  (bsum (ser_ge s 9) + bsum (ser_le s 6) <= len (dropna s))%Z.
Proof.
  induction s as [| [v |] s IH]; [easy | |].
  - cbn [ser_ge ser_le map]. rewrite !bsum_cons, dropna_cons, len_cons.
    fold (ser_ge s 9). fold (ser_le s 6).
    destruct (Qle_bool 9 v) eqn:E9, (Qle_bool v 6) eqn:E6; try lia.
    apply Qle_bool_iff in E9, E6. exfalso. lra.
  - cbn [ser_ge ser_le map]. rewrite !bsum_cons, dropna_cons.
    fold (ser_ge s 9). fold (ser_le s 6). lia.
Qed.

Lemma ge_count_le_valid (s : Series) (t : Q) :
  (bsum (ser_ge s t) <= len (dropna s))%Z.
Proof.
  induction s as [| [v |] s IH]; [easy | |];
    cbn [ser_ge map]; rewrite bsum_cons, dropna_cons, ?len_cons;
    fold (ser_ge s t); [destruct (Qle_bool t v) |]; lia.
Qed.

Lemma le_count_le_valid (s : Series) (t : Q) :
  (bsum (ser_le s t) <= len (dropna s))%Z.
Proof.
  induction s as [| [v |] s IH]; [easy | |];
    cbn [ser_le map]; rewrite bsum_cons, dropna_cons, ?len_cons;
    fold (ser_le s t); [destruct (Qle_bool v t) |]; lia.
Qed.

(** The count reaches the number of valid responses exactly when all of
    them pass the test. *)
Lemma ge_count_all (s : Series) (t : Q) :
  bsum (ser_ge s t) = len (dropna s) <-> every_valid (fun v => t <= v) s.
Proof.
  unfold every_valid.
  induction s as [| [v |] s IH]; [easy | |].
  - cbn [ser_ge map]. rewrite bsum_cons, dropna_cons, len_cons.
    fold (ser_ge s t). rewrite Forall_cons.
    pose proof (ge_count_le_valid s t).
    destruct (Qle_bool t v) eqn:E.
    + apply Qle_bool_iff in E. rewrite <- IH. split; [intros; split; [easy | lia] | lia].
    + split; [lia |]. intros [H' _]. apply Qle_bool_iff in H'. congruence.
  - cbn [ser_ge map]. rewrite bsum_cons, dropna_cons.
    fold (ser_ge s t). rewrite <- IH. lia.
Qed.

Lemma le_count_all (s : Series) (t : Q) :
  bsum (ser_le s t) = len (dropna s) <-> every_valid (fun v => v <= t) s.
Proof.
  unfold every_valid.
  induction s as [| [v |] s IH]; [easy | |].
  - cbn [ser_le map]. rewrite bsum_cons, dropna_cons, len_cons.
    fold (ser_le s t). rewrite Forall_cons.
    pose proof (le_count_le_valid s t).
    destruct (Qle_bool v t) eqn:E.
    + apply Qle_bool_iff in E. rewrite <- IH. split; [intros; split; [easy | lia] | lia].
    + split; [lia |]. intros [H' _]. apply Qle_bool_iff in H'. congruence.
  - cbn [ser_le map]. rewrite bsum_cons, dropna_cons.
    fold (ser_le s t). rewrite <- IH. lia.
Qed.

(** Missing entries do not count. *)
Lemma ser_ge_dropna (s : Series) (t : Q) :
  bsum (ser_ge (map Some (dropna s)) t) = bsum (ser_ge s t).
Proof.
  induction s as [| [v |] s IH]; [easy | |].
  - rewrite dropna_cons. cbn [ser_ge map]. rewrite !bsum_cons.
    fold (ser_ge s t). fold (ser_ge (map Some (dropna s)) t). lia.
  - rewrite dropna_cons. cbn [ser_ge map]. rewrite bsum_cons.
    fold (ser_ge s t). lia.
Qed.

Lemma ser_le_dropna (s : Series) (t : Q) :
  bsum (ser_le (map Some (dropna s)) t) = bsum (ser_le s t).
Proof.
  induction s as [| [v |] s IH]; [easy | |].
  - rewrite dropna_cons. cbn [ser_le map]. rewrite !bsum_cons.
    fold (ser_le s t). fold (ser_le (map Some (dropna s)) t). lia.
  - rewrite dropna_cons. cbn [ser_le map]. rewrite bsum_cons.
    fold (ser_le s t). lia.
Qed.

Lemma dropna_map_Some (l : list Q) : dropna (map Some l) = l.
Proof. induction l as [| x l IH]; [easy |]. cbn. f_equal. exact IH. Qed.

Lemma no_missing_dropna (s : Series) : no_missing s -> map Some (dropna s) = s.
Proof.
  induction 1 as [| c s [v ->] _ IH]; [easy |].
  rewrite dropna_cons. cbn [map]. f_equal. exact IH.
Qed.

End Counting.

(** ** Percentages of a positive total *)

Section Percentages.

Variables a n : Z.
Hypothesis n_pos : (0 < n)%Z.

Lemma inject_pos : 0 < inject_Z n.
Proof. change 0 with (inject_Z 0). now rewrite <- Zlt_Qlt. Qed.

Lemma percent_times_total :
  inject_Z a / inject_Z n * 100 * inject_Z n == inject_Z a * 100.
Proof. pose proof inject_pos. field. lra. Qed.

Lemma percent_float :
  fround 2 (fmul (fdiv (Fin (inject_Z a)) (Fin (inject_Z n))) (Fin 100))
  = Fin (round_nd 2 (inject_Z a / inject_Z n * 100)).
Proof.
  unfold fdiv.
  destruct (Qeq_bool (inject_Z n) 0) eqn:E; [| reflexivity].
  apply Qeq_bool_iff in E. pose proof inject_pos. lra.
Qed.

Lemma percent_ge (c : Q) : c <= inject_Z a / inject_Z n * 100
  <-> c * inject_Z n <= inject_Z a * 100.
Proof.
  rewrite <- percent_times_total. symmetry. apply Qmult_le_r, inject_pos.
Qed.

Lemma percent_le (c : Q) :
  inject_Z a / inject_Z n * 100 <= c
  <-> inject_Z a * 100 <= c * inject_Z n.
Proof.
  rewrite <- percent_times_total. symmetry. apply Qmult_le_r, inject_pos.
Qed.

Lemma percent_between : (- n <= a <= n)%Z -> 
  - (100) <= inject_Z a / inject_Z n * 100
  /\ inject_Z a / inject_Z n * 100 <= 100.
Proof.
  intros [L U]. rewrite percent_ge, percent_le.
  rewrite Zle_Qle in L, U. rewrite inject_Z_opp in L. split; lra.
Qed.

Lemma percent_high : 
  99995 # 1000 <= inject_Z a / inject_Z n * 100
  <-> (19999 * n <= 20000 * a)%Z.
Proof.
  rewrite percent_ge. rewrite Zle_Qle, !inject_Z_mult.
  change (inject_Z 19999) with 19999. change (inject_Z 20000) with 20000.
  split; lra.
Qed.

Lemma percent_low :
  inject_Z a / inject_Z n * 100 <= - (99995 # 1000)
  <-> (20000 * a <= - (19999 * n))%Z.
Proof.
  rewrite percent_le. rewrite Zle_Qle, inject_Z_opp, !inject_Z_mult.
  change (inject_Z 19999) with 19999. change (inject_Z 20000) with 20000.
  split; lra.
Qed.

Lemma percent_full : (a = n)%Z -> inject_Z a / inject_Z n * 100 == 100.
Proof. intros ->. pose proof inject_pos. field. lra. Qed.

Lemma percent_empty : 
  (a = - n)%Z -> inject_Z a / inject_Z n * 100 == - (100).
Proof.
  intros ->. pose proof inject_pos. rewrite inject_Z_opp. field. lra.
Qed.

End Percentages.

(** ** NPQS *)

Section NPQS.

Import QualityCultureAnalyzer.

Lemma npqs_law_no_valid (col : Series) : dropna col = [] -> npqs_law col 0.
Proof.
  intros E. unfold npqs_law. rewrite E.
  repeat split; try easy; lra.
Qed.

Lemma npqs_law_valid (col : Series) :
  let p := bsum (ser_ge col 9) in
  let d := bsum (ser_le col 6) in
  let n := len (dropna col) in
  (0 < n)%Z ->
  npqs_law col (round_nd 2 (inject_Z (p - d) / inject_Z n * 100)).
Proof.
  intros p d n Hn.
  pose proof (promoters_detractors_le_valid col) as Hsum.
  pose proof (bsum_nonneg (ser_ge col 9)) as Hp.
  pose proof (bsum_nonneg (ser_le col 6)) as Hd.
  pose proof (ge_count_all col 9) as Hall_p.
  pose proof (le_count_all col 6) as Hall_d.
  fold p in Hsum, Hp, Hall_p. fold d in Hsum, Hd, Hall_d.
  fold n in Hsum, Hall_p, Hall_d.
  assert (Hne : dropna col <> []).
  { intros E. unfold n in Hn. rewrite E in Hn. easy. }
  destruct (percent_between (p - d) n Hn) as [Hlo Hhi]; [lia |].
  set (x := inject_Z (p - d) / inject_Z n * 100) in *.
  unfold npqs_law. fold n. repeat split.
  - apply (round_nd_between 2 (-100) 100); assumption.
  - apply (round_nd_between 2 (-100) 100); assumption.
  - intros E. contradiction.
  - intros _ H. apply Hall_p in H.
    rewrite (round_nd_comp 2 x 100); [apply (round_nd_inject 2 100) |].
    apply percent_full; lia.
  - intros _ H. apply Hall_d in H.
    rewrite (round_nd_comp 2 x (- (100))); [apply (round_nd_inject 2 (-100)) |].
    apply percent_empty; lia.
  - exact Hne.
  - apply Hall_p. apply round_2_is_100 in H0; [| exact Hhi].
    apply (percent_high (p - d) n Hn) in H0. lia.
  - exact Hne.
  - apply Hall_d. apply round_2_is_m100 in H0; [| exact Hlo].
    apply (percent_low (p - d) n Hn) in H0. lia.
Qed.

(** The score of the pipeline obeys the law on every column. *)
Lemma pipeline_npqs_law (col : Series) :
  exists q, reported "npqs_score" (npqs_of_recommendations col) q /\ npqs_law col q.
Proof.
  unfold npqs_of_recommendations, reported. cbn [dict_get String.eqb Ascii.eqb Bool.eqb].
  destruct (0 <? len (dropna col))%Z eqn:E.
  - apply Z.ltb_lt in E. rewrite (percent_float _ _ E).
    eexists. split; [eexists; split; reflexivity |].
    apply npqs_law_valid. exact E.
  - apply Z.ltb_ge in E.
    exists 0. split; [eexists; split; reflexivity |].
    apply npqs_law_no_valid, len_nil_iff. pose proof (len_nonneg (dropna col)). lia.
Qed.

(** On a column without missing entries the scorer of
    [scoring_system.py] obeys it as well. *)
Lemma scorer_npqs_law (col : Series) :
  no_missing col ->
  exists q, reported "npqs" (NPQSScorer.calculate_npqs col) q /\ npqs_law col q.
Proof.
  intros Hcol. unfold reported.
  destruct col as [| c s].
  - exists 0. split; [eexists; split; reflexivity |].
    now apply npqs_law_no_valid.
  - assert (Hlen : len (c :: s) = len (dropna (c :: s))).
    { rewrite <- (no_missing_dropna _ Hcol) at 1. unfold len. now rewrite length_map. }
    assert (Hpos : (0 < len (dropna (c :: s)))%Z).
    { rewrite <- Hlen, len_cons. pose proof (len_nonneg s). lia. }
    unfold NPQSScorer.calculate_npqs. rewrite Hlen.
    destruct (Z.eqb_spec (len (dropna (c :: s))) 0) as [E | _]; [lia |].
    cbn [dict_get String.eqb Ascii.eqb Bool.eqb].
    unfold NPQSScorer.pct. rewrite (percent_float _ _ Hpos).
    eexists. split; [eexists; split; reflexivity |].
    apply npqs_law_valid. exact Hpos.
Qed.

Lemma pipeline_zero_valid (col : Series) :
  dropna col = [] ->
  npqs_of_recommendations col =
    [("npqs_score", VInt 0); ("promoters_pct", VInt 0);
     ("detractors_pct", VInt 0); ("passives_pct", VInt 0);
     ("n_responses", VInt 0)]%string.
Proof. intros E. unfold npqs_of_recommendations. now rewrite E. Qed.

(** The pipeline's result depends on the valid responses only. *)
Lemma pipeline_ignores_missing (col : Series) :
  npqs_of_recommendations col = npqs_of_recommendations (map Some (dropna col)).
Proof.
  unfold npqs_of_recommendations.
  now rewrite ser_ge_dropna, ser_le_dropna, dropna_map_Some.
Qed.

(** In the pipeline the denominator is the number of valid responses. *)
Lemma pipeline_denominator (col : Series) :
  (0 < len (dropna col))%Z ->
  reported "npqs_score" (npqs_of_recommendations col)
    (round_nd 2 (inject_Z (bsum (ser_ge col 9) - bsum (ser_le col 6))
                 / inject_Z (len (dropna col)) * 100)).
Proof.
  intros H. unfold npqs_of_recommendations, reported.
  cbn [dict_get String.eqb Ascii.eqb Bool.eqb].
  apply Z.ltb_lt in H as H'. rewrite H', (percent_float _ _ H).
  eexists. split; reflexivity.
Qed.

End NPQS.

(** C1.  The specification wants the NPQS denominator to be the number of
    valid (non-missing) responses.  [QualityCultureAnalyzer] does that;
    [NPQSScorer.calculate_npqs] divides by the length of the series, missing
    entries included: on the responses 9 and NaN it reports 50 where the
    pipeline, on the same column, reports 100; and on the empty series its
    result has no percentage field at all. *)
Theorem scorer_counts_missing_entries :
  reported "npqs" (NPQSScorer.calculate_npqs [Some 9; None]) 50
  /\ reported "promoter_pct" (NPQSScorer.calculate_npqs [Some 9; None]) 50
  /\ reported "npqs_score"
       (QualityCultureAnalyzer.npqs_of_recommendations [Some 9; None]) 100
  /\ dict_get "promoter_pct" (NPQSScorer.calculate_npqs []) = None.
Proof.
  unfold reported.
  repeat split; try (eexists; split; vm_compute; reflexivity).
Qed.

(** C3, as the specification words it, fails: a column without a valid
    response scores 0 although each of its (no) valid responses is a
    promoter, and 39999 promoters with one passive score 100 after
    rounding. *)
Lemma npqs_as_specified_fails :
  (exists q,
      reported "npqs_score" (QualityCultureAnalyzer.npqs_of_recommendations []) q
      /\ ~ npqs_as_specified [] q)
  /\ (exists q,
      reported "npqs_score"
        (QualityCultureAnalyzer.npqs_of_recommendations
           one_passive_in_40000) q
      /\ ~ npqs_as_specified one_passive_in_40000 q).
Proof.
  split.
  - exists 0. split.
    + eexists. split; reflexivity.
    + intros (_ & H & _). destruct H as [_ H].
      assert (E : 0 == 100) by (apply H; constructor).
      discriminate E.
  - exists 100. split.
    + eexists. split; vm_compute; reflexivity.
    + intros (_ & H & _). destruct H as [H _].
      specialize (H (Qeq_refl _)). unfold every_valid in H.
      rewrite Forall_forall in H.
      assert (Hin : In (7 : Q) (dropna one_passive_in_40000)).
      { unfold one_passive_in_40000, dropna. rewrite omap_app. apply in_or_app. right. left. reflexivity. }
      specialize (H 7). apply list_elem_of_In in Hin. specialize (H Hin).
      unfold promoter in H. lra.
Qed.

(** C3 (amended).  On every recommendation column the NPQS score that the
    pipeline reports lies in [-100, 100] and is 0 when no response is valid;
    with at least one valid response it is 100 when all of them are promoters
    and -100 when all of them are detractors; and with fewer than 20000
    valid responses a score of 100 (of -100) arises only when there is a
    valid response and all of them are promoters (detractors).  The scorer
    of [scoring_system.py] does the same on columns without missing
    entries. *)
Theorem npqs_score_law (col : Series) :
  (exists q,
      reported "npqs_score" (QualityCultureAnalyzer.npqs_of_recommendations col) q
      /\ npqs_law col q)
  /\ (no_missing col ->
      exists q, reported "npqs" (NPQSScorer.calculate_npqs col) q /\ npqs_law col q).
Proof.
  split.
  - apply pipeline_npqs_law.
  - apply scorer_npqs_law.
Qed.

Lemma npqs_score_law_witness :
  no_missing [Some 9; Some 10]
  /\ exists q,
      reported "npqs" (NPQSScorer.calculate_npqs [Some 9; Some 10]) q
      /\ npqs_law [Some 9; Some 10] q.
Proof.
  assert (H : no_missing [Some 9; Some 10]) by (repeat constructor; eexists; reflexivity).
  split; [exact H |].
  exact (proj2 (npqs_score_law [Some 9; Some 10]) H).
Defined.

(** C10.  On the empty series [NPQSScorer.calculate_npqs] returns the score
    0.0 and the three counts 0 and nothing else; on every non-empty series
    the result also has the three percentage fields. *)
Theorem scorer_empty_series_has_no_percentages :
  NPQSScorer.calculate_npqs [] =
    [("npqs", VFloat (Fin 0)); ("promoters", VInt 0);
     ("passives", VInt 0); ("detractors", VInt 0)]%string
  /\ forall (c : cell) (s : Series),
      dict_keys (NPQSScorer.calculate_npqs (c :: s)) =
        ["npqs"; "promoters"; "passives"; "detractors";
         "promoter_pct"; "passive_pct"; "detractor_pct"]%string.
Proof.
  split; [reflexivity |].
  intros c s. unfold NPQSScorer.calculate_npqs.
  destruct (Z.eqb_spec (len (c :: s)) 0) as [E | _]; [| reflexivity].
  rewrite len_cons in E. pose proof (len_nonneg s). lia.
Qed.

(** ** Maturity levels *)

Lemma fge_Fin (q c : Q) : fge (Fin q) (Fin c) = true <-> c <= q.
Proof.
  unfold fge, fcmp.
  destruct (Qcompare_spec q c) as [E | L | G]; split; intros H; try easy; lra.
Qed.

Lemma fge_Fin_false (q c : Q) : fge (Fin q) (Fin c) = false <-> q < c.
Proof.
  unfold fge, fcmp.
  destruct (Qcompare_spec q c) as [E | L | G]; split; intros H; try easy; lra.
Qed.

Ltac split_threshold c :=
  match goal with
  | |- context [fge (Fin ?q) (Fin c)] =>
      let E := fresh "E" in
      destruct (fge (Fin q) (Fin c)) eqn:E;
      [apply fge_Fin in E | apply fge_Fin_false in E]
  end.

(** C6.  Both maturity functions send every numeric score to the level of
    the highest threshold it reaches, a score on a threshold included:
    4.5 / 3.5 / 2.5 / 1.5 on the 1-5 scale, 80 / 60 / 40 on the 0-100
    scale. *)
Theorem maturity_thresholds_closed_above (q : Q) :
  let level5 := MaturityScorer._get_maturity_level (Fin q) in
  let level100 :=
    dict_get "level" (QualityCultureAnalyzer._calculate_maturity_level (Fin q)) in
  (level5 = "Optimizing"%string <-> 45 # 10 <= q)
  /\ (level5 = "Quantitatively Managed"%string <-> 35 # 10 <= q /\ q < 45 # 10)
  /\ (level5 = "Defined"%string <-> 25 # 10 <= q /\ q < 35 # 10)
  /\ (level5 = "Managed"%string <-> 15 # 10 <= q /\ q < 25 # 10)
  /\ (level5 = "Initial/Ad-hoc"%string <-> q < 15 # 10)
  /\ (level100 = Some (VStr "Excellence") <-> 80 <= q)
  /\ (level100 = Some (VStr "Amélioration") <-> 60 <= q /\ q < 80)
  /\ (level100 = Some (VStr "Développement") <-> 40 <= q /\ q < 60)
  /\ (level100 = Some (VStr "Initial") <-> q < 40).
Proof.
  cbv zeta.
  unfold MaturityScorer._get_maturity_level,
    QualityCultureAnalyzer._calculate_maturity_level.
  repeat split_threshold (45 # 10); repeat split_threshold (35 # 10);
    repeat split_threshold (25 # 10); repeat split_threshold (15 # 10);
    repeat split_threshold 80; repeat split_threshold 60;
    repeat split_threshold 40;
    cbn [dict_get QualityCultureAnalyzer.maturity String.eqb Ascii.eqb Bool.eqb];
    repeat split; intros; try reflexivity; try discriminate; try lra.
Qed.

(** ** Sample adequacy *)

(** With at least one item the check returns its seven fields. *)
Lemma sample_adequacy_with_items (data : DataFrame) :
  let n := df_len data in
  let p := len (columns data) in
  columns data <> [] ->
  PsychometricValidator.assess_sample_adequacy data =
    Ok [("n_responses", VInt n);
        ("n_items", VInt p);
        ("ratio", VFloat (Fin (round_nd 2 (inject_Z n / inject_Z p))));
        ("adequacy_5_1", VBool (5 * p <=? n)%Z);
        ("adequacy_10_1", VBool (10 * p <=? n)%Z);
        ("kline_adequate", VBool (20 * p <=? n)%Z);
        ("recommended_minimum", VInt (Z.max 200 (10 * p)))]%string.
Proof.
  intros n p Hne.
  unfold PsychometricValidator.assess_sample_adequacy, int_truediv.
  fold n. fold p.
  destruct (Z.eqb_spec p 0) as [E | _]; [| reflexivity].
  apply len_nil_iff in E. contradiction.
Qed.

(** C5.  The specification wants the check to be total, an item count of
    zero short-circuiting to "inadequate".  The code has no such guard: on
    a frame without columns the ratio [n_responses / n_items] divides two
    integers by zero and the call raises [ZeroDivisionError], whatever the
    number of rows. *)
Theorem sample_adequacy_without_items_raises (respondents : list (list cell)) :
  PsychometricValidator.assess_sample_adequacy
    {| columns := []; rows := respondents |} = Raise ZeroDivisionError.
Proof. reflexivity. Qed.

(** ** Cronbach's alpha *)

Section Cronbach.

Import PsychometricValidator.

Lemma var_of_cases (l : list Q) : var_of l = NaN \/ exists v, var_of l = Fin v.
Proof. unfold var_of. destruct (len l <=? 1)%Z; eauto. Qed.

Lemma max0_floor (x : pyfloat) :
  x = NaN \/ (exists q, x = Fin q) -> exists q, max0 x = Fin q /\ 0 <= q.
Proof.
  intros [-> | [q ->]].
  - exists 0. split; [reflexivity | lra].
  - unfold max0, fgt, fcmp.
    destruct (Qcompare_spec q 0) as [E | L | G].
    + exists 0. split; [reflexivity | lra].
    + exists 0. split; [reflexivity | lra].
    + exists q. split; [reflexivity | lra].
Qed.

(** The validator's alpha is a finite number, never below zero. *)
Lemma cronbach_alpha_floor (data : DataFrame) :
  exists q, _calculate_cronbach_alpha data = Fin q /\ 0 <= q.
Proof.
  unfold _calculate_cronbach_alpha.
  destruct (df_empty data || (len (columns data) <? 2)%Z).
  { exists 0. split; [reflexivity | lra]. }
  unfold ser_var.
  destruct (var_of_cases (dropna (row_sums data))) as [-> | [v ->]].
  - cbn [feq fcmp]. apply max0_floor. left. reflexivity.
  - destruct (feq (Fin v) (Fin 0)) eqn:E.
    { exists 0. split; [reflexivity | lra]. }
    apply max0_floor. right. unfold nansum, fdiv.
    destruct (Qeq_bool v 0) eqn:E0.
    + apply Qeq_bool_iff in E0. unfold feq, fcmp in E.
      destruct (Qcompare_spec v 0); try discriminate; lra.
    + eexists. reflexivity.
Qed.

Lemma cronbach_alpha_few_items (data : DataFrame) :
  (len (columns data) < 2)%Z -> _calculate_cronbach_alpha data = Fin 0.
Proof.
  intros H. unfold _calculate_cronbach_alpha.
  apply Z.ltb_lt in H. rewrite H, orb_true_r. reflexivity.
Qed.

Lemma cronbach_alpha_no_variance (data : DataFrame) :
  ser_var (row_sums data) = Fin 0 -> _calculate_cronbach_alpha data = Fin 0.
Proof.
  intros H. unfold _calculate_cronbach_alpha. rewrite H.
  destruct (df_empty data || (len (columns data) <? 2)%Z); reflexivity.
Qed.

(** An alpha of zero is reported as 0 and is not acceptable under a
    positive threshold. *)
Lemma cronbach_entry_degenerate (self : t) (data : DataFrame) (items : list string) :
  0 < alpha_threshold self ->
  _calculate_cronbach_alpha (df_select data items) = Fin 0 ->
  dict_get "value" (cronbach_entry self data items) = Some (VFloat (Fin 0))
  /\ dict_get "acceptable" (cronbach_entry self data items) = Some (VBool false).
Proof.
  intros Hthr H. unfold cronbach_entry. rewrite H.
  cbn [dict_get String.eqb Ascii.eqb Bool.eqb].
  split; [reflexivity |].
  do 2 f_equal. apply fge_Fin_false. exact Hthr.
Qed.

End Cronbach.

(** C2.  The specification wants Cronbach's alpha floored at zero and a
    zero total variance answered by alpha = 0.  [PsychometricValidator]
    does both; [StatisticalValidator.calculate_reliability] has neither the
    guard nor the floor.  On two items constant at 3 it divides zero by zero
    and reports NaN, and on two items that vary against each other it
    reports -48; the validator reports 0 on both. *)
Theorem reliability_without_guard_and_floor :
  dict_get "cronbach_alpha"
    (StatisticalValidator.calculate_reliability StatisticalValidator.default
       constant_items) = Some (VFloat NaN)
  /\ dict_get "cronbach_alpha"
       (StatisticalValidator.calculate_reliability StatisticalValidator.default
          opposed_items) = Some (VFloat (Fin (- (48))))
  /\ PsychometricValidator._calculate_cronbach_alpha constant_items = Fin 0
  /\ PsychometricValidator._calculate_cronbach_alpha opposed_items = Fin 0.
Proof. repeat split; vm_compute; reflexivity. Qed.

(** ** Dimension scores *)

Section DimensionScores.

Import QualityCultureAnalyzer.

Lemma qsum_cons (x : Q) (l : list Q) : qsum (x :: l) = x + qsum l.
Proof. reflexivity. Qed.

Lemma qsum_between (lo hi : Q) (l : list Q) :
  Forall (fun v => lo <= v /\ v <= hi) l ->
  inject_Z (len l) * lo <= qsum l /\ qsum l <= inject_Z (len l) * hi.
Proof.
  induction 1 as [| x l [Hlo Hhi] _ [IHlo IHhi]].
  - change (inject_Z (len (@nil Q))) with 0. change (qsum []) with 0.
    split; lra.
  - rewrite qsum_cons, len_cons, inject_Z_plus.
    change (inject_Z 1) with 1. split; lra.
Qed.

Lemma mean_of_between (lo hi : Q) (l : list Q) :
  l <> [] -> Forall (fun v => lo <= v /\ v <= hi) l ->
  exists m, mean_of l = Fin m /\ lo <= m /\ m <= hi.
Proof.
  intros Hne Hall.
  destruct (qsum_between lo hi l Hall) as [Hlo Hhi].
  assert (Hpos : 0 < inject_Z (len l)).
  { change 0 with (inject_Z 0). rewrite <- Zlt_Qlt.
    destruct l; [contradiction |]. rewrite len_cons.
    pose proof (len_nonneg l). lia. }
  destruct l as [| x l]; [contradiction |].
  eexists. split; [reflexivity |]. split.
  - apply Qle_shift_div_l; [exact Hpos | lra].
  - apply Qle_shift_div_r; [exact Hpos | lra].
Qed.

Lemma mean_of_nil_iff (l : list Q) : mean_of l = NaN <-> l = [].
Proof. destruct l; split; intros; try easy. Qed.

Lemma dropna_on_scale (lo hi : Q) (r : list cell) :
  Forall (on_scale lo hi) r -> Forall (fun v => lo <= v /\ v <= hi) (dropna r).
Proof.
  induction 1 as [| c r Hc _ IH]; [constructor |].
  rewrite dropna_cons. destruct c as [v |]; [| exact IH].
  constructor; [now apply Hc | exact IH].
Qed.

(** A selected cell is a cell of the row, or missing. *)
Lemma row_get_on_scale (lo hi : Q) (cs : list string) (r : list cell) (c : string) :
  Forall (on_scale lo hi) r -> on_scale lo hi (row_get cs r c).
Proof.
  intros Hr. unfold row_get.
  destruct (index_of c cs) as [i |]; [| intros v; discriminate].
  destruct (r !! i) as [x |] eqn:E; [| intros v; discriminate].
  cbn [default]. rewrite Forall_forall in Hr. apply Hr.
  eapply list_elem_of_lookup_2. exact E.
Qed.

Lemma df_select_in_scale (lo hi : Q) (data : DataFrame) (items : list string) :
  in_scale lo hi data -> in_scale lo hi (df_select data items).
Proof.
  unfold in_scale, df_select. cbn [rows].
  intros H. rewrite Forall_fmap. eapply Forall_impl; [exact H |].
  intros r Hr. cbn. rewrite Forall_fmap.
  apply Forall_forall. intros c _. cbn. now apply row_get_on_scale.
Qed.

(** The mean of a respondent's answers is on the scale of the answers. *)
Lemma row_means_in_scale (lo hi : Q) (data : DataFrame) :
  in_scale lo hi data -> Forall (on_scale lo hi) (row_means data).
Proof.
  unfold in_scale, row_means. intros H.
  rewrite Forall_fmap. eapply Forall_impl; [exact H |].
  intros r Hr. cbn. intros m Hm.
  destruct (dropna r) as [| x l] eqn:E; [discriminate |].
  destruct (mean_of_between lo hi (x :: l)) as (m' & Hm' & Hb); [easy | |].
  - rewrite <- E. now apply dropna_on_scale.
  - rewrite Hm' in Hm. cbn in Hm. now injection Hm as <-.
Qed.

(** Scaling a series multiplies what is present. *)
Lemma ser_scale_map (s : Series) (c : Q) :
  ser_scale s c = map (option_map (fun m => m * c)) s.
Proof. unfold ser_scale. apply map_ext. intros [m |]; reflexivity. Qed.

(** A mean over a series on a scale is on the scale, or NaN when nothing
    is present. *)
Lemma ser_mean_on_scale (lo hi : Q) (s : Series) :
  Forall (on_scale lo hi) s -> on_scale lo hi (to_cell (ser_mean s)).
Proof.
  intros H m Hm. unfold ser_mean in Hm.
  destruct (dropna s) as [| x l] eqn:E; [discriminate |].
  destruct (mean_of_between lo hi (x :: l)) as (m' & Hm' & Hb); [easy | |].
  - rewrite <- E. now apply dropna_on_scale.
  - rewrite Hm' in Hm. cbn in Hm. now injection Hm as <-.
Qed.

End DimensionScores.

(** C4, as the specification words it, fails: on a matrix whose answers are
    all on the 1-5 scale, a dimension whose item nobody answered is scored,
    and its scores, the respondents' and the dimension's, are NaN. *)
Lemma unanswered_dimension_has_no_score :
  in_scale 1 5 unanswered_item
  /\ (exists e,
        ("B"%string, e)
          ∈ QualityCultureAnalyzer.calculate_dimension_scores
              unanswered_item item_per_dimension
        /\ dict_get "mean_score" e = Some (VFloat NaN)
        /\ dict_get "individual_scores" e = Some (VList [VFloat NaN; VFloat NaN]))
  /\ ~ scores_as_specified unanswered_item item_per_dimension.
Proof.
  assert (Hin : ("B"%string,
                 QualityCultureAnalyzer.dimension_entry unanswered_item ["b"]%string)
                ∈ QualityCultureAnalyzer.calculate_dimension_scores
                    unanswered_item item_per_dimension).
  { apply elem_of_cons. right. apply elem_of_cons. left. reflexivity. }
  split; [| split].
  - unfold in_scale, unanswered_item. cbn [rows].
    repeat match goal with |- Forall _ _ => constructor end;
      intros v [= <-]; split; lra.
  - eexists. split; [exact Hin |]. split; vm_compute; reflexivity.
  - intros H. destruct (H _ _ Hin) as [(x & Hx & s & -> & _) _].
    vm_compute in Hx. discriminate Hx.
Qed.

Lemma lookup_map {A B : Type} (f : A -> B) (l : list A) (i : nat) :
  map f l !! i = option_map f (l !! i).
Proof. exact (list_lookup_fmap f l i). Qed.

Lemma lookup_map_Some {A B : Type} (f : A -> B) (l : list A) (i : nat) (x : A) :
  l !! i = Some x -> map f l !! i = Some (f x).
Proof. intros H. rewrite lookup_map, H. reflexivity. Qed.

Lemma row_means_lookup (d : DataFrame) (i : nat) (r : list cell) :
  rows d !! i = Some r ->
  row_means d !! i = Some (to_cell (mean_of (dropna r))).
Proof.
  intros H. unfold row_means.
  exact (lookup_map_Some (fun r0 => to_cell (mean_of (dropna r0))) _ _ _ H).
Qed.

Lemma ser_scale_lookup (s : Series) (c : Q) (i : nat) (x : cell) :
  s !! i = Some x ->
  ser_scale s c !! i = Some (option_map (fun m => m * c) x).
Proof.
  intros H. rewrite ser_scale_map.
  exact (lookup_map_Some (option_map (fun m => m * c)) _ _ _ H).
Qed.

Lemma individual_scores_lookup (data : DataFrame) (items : list string)
    (i : nat) (r : list cell) :
  rows (df_select data items) !! i = Some r ->
  QualityCultureAnalyzer.individual_scores data items !! i
  = Some (option_map (fun m => m * 20) (to_cell (mean_of (dropna r)))).
Proof.
  intros Hr. apply ser_scale_lookup, row_means_lookup, Hr.
Qed.

Lemma dropna_scale (s : Series) (c : Q) :
  dropna (ser_scale s c) = map (fun m => m * c) (dropna s).
Proof.
  rewrite ser_scale_map. induction s as [| [m |] s IH]; [reflexivity | |].
  - cbn [map option_map]. rewrite !dropna_cons. cbn [map]. now rewrite IH.
  - cbn [map option_map]. rewrite !dropna_cons. exact IH.
Qed.

Lemma qsum_scale (l : list Q) (c : Q) :
  qsum (map (fun m => m * c) l) == qsum l * c.
Proof.
  induction l as [| x l IH]; [cbn; ring |].
  cbn [map]. rewrite !qsum_cons, IH. ring.
Qed.

(** The mean of the scaled series is the scaled mean. *)
Lemma ser_mean_scale (s : Series) (c m : Q) :
  ser_mean s = Fin m ->
  exists q, ser_mean (ser_scale s c) = Fin q /\ q == m * c.
Proof.
  unfold ser_mean. rewrite dropna_scale.
  destruct (dropna s) as [| x l] eqn:E; [discriminate |].
  intros [= <-]. eexists. split; [reflexivity |].
  assert (Hn : 0 < inject_Z (len (x :: l))).
  { rewrite len_cons. pose proof (len_nonneg l).
    change 0 with (inject_Z 0). rewrite <- Zlt_Qlt. lia. }
  assert (El : len (map (fun m => m * c) (x :: l)) = len (x :: l))
    by (unfold len; now rewrite length_map).
  rewrite qsum_scale, El, qsum_cons. field. lra.
Qed.

(** C4 (amended).  On a response matrix whose answers are all on the 1-5
    scale, every entry of [calculate_dimension_scores] belongs to a
    dimension of the structure whose items are all columns, and holds one
    score per respondent: NaN for a respondent who answered none of the
    items, and otherwise the mean of the answered items, which lies in
    [1, 5], multiplied by 20 (= 100 / 5), which lies in [20, 100].  Of two
    respondents the one with the greater item mean has at least as great a
    score.
    The dimension's mean score is NaN when no respondent has a score, and
    otherwise lies in [20, 100], within 0.005 (it is rounded to two decimals)
    of 20 times the mean of the respondents' item means. *)
Theorem scores_on_report_scale (data : DataFrame) (structure : Structure)
    (name : string) (e : dict) :
  in_scale 1 5 data ->
  (name, e) ∈ QualityCultureAnalyzer.calculate_dimension_scores data structure ->
  exists items,
    (name, items) ∈ structure
    /\ all_in_columns data items = true
    /\ dict_get "individual_scores" e
       = Some (VList (map (fun c => VFloat (of_cell c))
                          (QualityCultureAnalyzer.individual_scores data items)))
    /\ length (QualityCultureAnalyzer.individual_scores data items)
       = length (rows data)
    /\ (forall (i : nat) (r : list cell),
         rows (df_select data items) !! i = Some r ->
         (dropna r = []
          /\ QualityCultureAnalyzer.individual_scores data items !! i = Some None)
         \/ (exists m,
               mean_of (dropna r) = Fin m /\ 1 <= m /\ m <= 5
               /\ QualityCultureAnalyzer.individual_scores data items !! i
                  = Some (Some (m * 20))
               /\ m * 20 == m * (100 / 5)
               /\ 20 <= m * 20 /\ m * 20 <= 100))
    /\ (forall (i j : nat) (m1 m2 : Q),
         row_means (df_select data items) !! i = Some (Some m1) ->
         row_means (df_select data items) !! j = Some (Some m2) ->
         m1 <= m2 ->
         exists s1 s2,
           QualityCultureAnalyzer.individual_scores data items !! i = Some (Some s1)
           /\ QualityCultureAnalyzer.individual_scores data items !! j
              = Some (Some s2)
           /\ s1 <= s2)
    /\ ((dropna (QualityCultureAnalyzer.individual_scores data items) = []
         /\ dict_get "mean_score" e = Some (VFloat NaN))
        \/ (exists m q,
              ser_mean (row_means (df_select data items)) = Fin m
              /\ 1 <= m /\ m <= 5
              /\ dict_get "mean_score" e = Some (VFloat (Fin q))
              /\ Qabs (q - m * 20) <= 5 # 1000
              /\ 20 <= q /\ q <= 100)).
Proof.
  intros Hscale He.
  unfold QualityCultureAnalyzer.calculate_dimension_scores in He.
  apply list_elem_of_omap in He as ([n items] & Hd & He).
  cbn [fst snd] in He.
  destruct (all_in_columns data items) eqn:Hcols; [| discriminate].
  injection He as -> <-.
  exists items.
  assert (Hsel : in_scale 1 5 (df_select data items))
    by (apply df_select_in_scale, Hscale).
  assert (Hmeans : Forall (on_scale 1 5) (row_means (df_select data items)))
    by (apply row_means_in_scale, Hsel).
  split; [exact Hd |]. split; [exact Hcols |]. split; [reflexivity |].
  split.
  { unfold QualityCultureAnalyzer.individual_scores, ser_scale, row_means,
           df_select.
    cbn [rows]. rewrite !length_map. reflexivity. }
  split.
  { intros i r Hr.
    pose proof (individual_scores_lookup data items i r Hr) as Hs.
    destruct (dropna r) as [| x l] eqn:E.
    - left. split; [reflexivity | exact Hs].
    - right.
      assert (Hr' : Forall (on_scale 1 5) r).
      { unfold in_scale in Hsel. rewrite Forall_forall in Hsel.
        apply Hsel. eapply list_elem_of_lookup_2. exact Hr. }
      destruct (mean_of_between 1 5 (x :: l)) as (m & Hm & Hlo & Hhi);
        [easy | rewrite <- E; now apply dropna_on_scale |].
      exists m. rewrite Hm in Hs. cbn [to_cell option_map] in Hs.
      split; [exact Hm |]. split; [exact Hlo |]. split; [exact Hhi |].
      split; [exact Hs |]. split; [field |]. split; lra. }
  split.
  { intros i j m1 m2 H1 H2 Hle.
    exists (m1 * 20), (m2 * 20).
    split; [exact (ser_scale_lookup _ 20 i _ H1) |].
    split; [exact (ser_scale_lookup _ 20 j _ H2) |]. lra. }
  unfold QualityCultureAnalyzer.dimension_entry.
  cbn [dict_get String.eqb Ascii.eqb Bool.eqb].
  unfold QualityCultureAnalyzer.individual_scores.
  destruct (ser_mean (row_means (df_select data items))) as [m | | |] eqn:Em.
  - right.
    destruct (ser_mean_scale _ 20 m Em) as (q & Hq & Eq).
    pose proof (ser_mean_on_scale 1 5 _ Hmeans m) as Hb.
    rewrite Em in Hb. destruct (Hb eq_refl) as [Hlo Hhi].
    exists m, (round_nd 2 q). rewrite Hq. cbn [fround].
    split; [reflexivity |]. split; [exact Hlo |]. split; [exact Hhi |].
    split; [reflexivity |].
    destruct (round_2_near q) as [Hn1 Hn2].
    destruct (round_nd_between 2 20 100 q) as [Hb1 Hb2];
      [change (inject_Z 20) with 20; lra | change (inject_Z 100) with 100; lra |].
    change (inject_Z 20) with 20 in Hb1. change (inject_Z 100) with 100 in Hb2.
    split; [apply Qabs_Qle_condition; split; lra |].
    split; assumption.
  - left. unfold ser_mean in Em. apply mean_of_nil_iff in Em.
    rewrite dropna_scale, Em. split; [reflexivity |].
    unfold ser_mean. rewrite dropna_scale, Em. reflexivity.
  - exfalso. unfold ser_mean in Em.
    destruct (dropna (row_means (df_select data items))); discriminate.
  - exfalso. unfold ser_mean in Em.
    destruct (dropna (row_means (df_select data items))); discriminate.
Qed.

Lemma scores_on_report_scale_witness :
  in_scale 1 5 three_respondents
  /\ ("D"%string,
      QualityCultureAnalyzer.dimension_entry three_respondents ["a"; "b"]%string)
       ∈ QualityCultureAnalyzer.calculate_dimension_scores
           three_respondents both_items
  /\ exists items,
       ("D"%string, items) ∈ both_items
       /\ all_in_columns three_respondents items = true.
Proof.
  assert (Hc : forall v : Q, 1 <= v /\ v <= 5 -> on_scale 1 5 (Some v))
    by (intros v H w [= <-]; exact H).
  assert (Hn : on_scale 1 5 None) by (intros w; discriminate).
  assert (Hs : in_scale 1 5 three_respondents).
  { unfold in_scale, three_respondents. cbn [rows].
    repeat match goal with |- Forall _ _ => constructor end;
      try exact Hn; apply Hc; split; lra. }
  assert (He : ("D"%string,
                QualityCultureAnalyzer.dimension_entry three_respondents
                  ["a"; "b"]%string)
               ∈ QualityCultureAnalyzer.calculate_dimension_scores
                   three_respondents both_items).
  { apply elem_of_cons. left. reflexivity. }
  split; [exact Hs |]. split; [exact He |].
  destruct (scores_on_report_scale three_respondents both_items _ _ Hs He)
    as (items & Hi & Hcols & _).
  exists items. split; assumption.
Defined.

(** ** The weighted maturity aggregate *)

Section WeightedMaturity.

Import MaturityScorer.

Variable responses : DataFrame.
Variable weights : gmap string Q.

Lemma score_dimension_weight (c : string) :
  (fun e : string * value * pyfloat * Q => (e.1.1.1, e.2))
    <$> score_dimension responses weights c
  = (w ← weights !! c; Some (c, w)).
Proof. unfold score_dimension. destruct (weights !! c); reflexivity. Qed.

Lemma scored_names_weights :
  map (fun e : string * value * pyfloat * Q => (e.1.1.1, e.2))
    (score_columns responses weights)
  = scored_dimensions responses weights.
Proof.
  unfold score_columns, scored_dimensions.
  induction (columns responses) as [| c cs IH]; [reflexivity |].
  cbn [omap list_omap]. rewrite <- (score_dimension_weight c), <- IH.
  destruct (score_dimension responses weights c); reflexivity.
Qed.

Lemma scored_weighted_scores :
  map (fun e : string * value * pyfloat * Q => e.1.2)
    (score_columns responses weights)
  = map (weighted_score responses) (scored_dimensions responses weights).
Proof.
  unfold score_columns, scored_dimensions.
  induction (columns responses) as [| c cs IH]; [reflexivity |].
  cbn [omap list_omap]. unfold score_dimension at 1.
  destruct (weights !! c) as [w |]; cbn; [f_equal |]; exact IH.
Qed.

Lemma scored_total_weight :
  qsum (map snd (score_columns responses weights))
  = total_weight responses weights.
Proof.
  unfold total_weight. rewrite <- scored_names_weights, map_map. reflexivity.
Qed.

Lemma scored_nil_iff :
  score_columns responses weights = []
  <-> scored_dimensions responses weights = [].
Proof.
  rewrite <- scored_names_weights.
  destruct (score_columns responses weights); split; intros; easy.
Qed.

(** A division by a zero total is never a finite number. *)
Lemma fdiv_zero_not_finite (x : pyfloat) (w : Q) :
  w == 0 -> ~ finite (fround 2 (fdiv x (Fin w))).
Proof.
  intros Hw [q Hq]. apply Qeq_bool_iff in Hw as Hb.
  assert (Hle : Qle_bool 0 w = true) by (apply Qle_bool_iff; lra).
  destruct x as [a | | |]; cbn [fdiv] in Hq; rewrite ?Hb, ?Hle in Hq;
    try discriminate.
  unfold inf_times in Hq. destruct (a ?= 0); discriminate.
Qed.

Lemma calculate_maturity_unscored :
  df_empty responses = false ->
  scored_dimensions responses weights = [] ->
  calculate_maturity responses (Some weights) = Raise ZeroDivisionError.
Proof.
  intros Hne H. apply scored_nil_iff in H.
  unfold calculate_maturity. rewrite Hne. cbv beta iota zeta.
  rewrite H. reflexivity.
Qed.

Lemma calculate_maturity_scored :
  df_empty responses = false ->
  scored_dimensions responses weights <> [] ->
  exists d, calculate_maturity responses (Some weights) = Ok d
    /\ dict_get "overall_maturity" d
       = Some (VFloat (fround 2 (weighted_average responses weights))).
Proof.
  intros Hne H.
  assert (Hs : score_columns responses weights <> [])
    by (intros E; apply H, scored_nil_iff, E).
  unfold calculate_maturity. rewrite Hne. cbv beta iota zeta.
  unfold weighted_average.
  rewrite <- scored_weighted_scores, <- scored_total_weight.
  destruct (score_columns responses weights) as [| e es]; [contradiction |].
  eexists. split; reflexivity.
Qed.

End WeightedMaturity.

(** C8, as the specification words it, fails: with one scored dimension of
    weight zero the total weight is zero and the call returns normally, the
    overall score being NaN. *)
Lemma zero_total_weight_is_not_an_error :
  total_weight one_answer zero_weight == 0
  /\ exists d,
      MaturityScorer.calculate_maturity one_answer (Some zero_weight) = Ok d
      /\ dict_get "overall_maturity" d = Some (VFloat NaN)
      /\ dict_get "overall_level" d = Some (VStr "Initial/Ad-hoc").
Proof.
  split; [reflexivity |].
  eexists. split; [vm_compute; reflexivity |].
  split; reflexivity.
Qed.

(** C8 (amended).  When a weights mapping is supplied and the responses are
    not empty: if some column has a weight, the call returns and the overall
    maturity score is the sum of the reported per-dimension weighted scores
    divided by the total weight of the scored dimensions, rounded to two
    decimals; a total weight of zero is not checked, and the score is then
    NaN or an infinity, never a finite number and so never zero; if no column
    has a weight, the division of the two integer zeros raises
    [ZeroDivisionError]. *)
Theorem weighted_maturity (responses : DataFrame) (weights : gmap string Q) :
  df_empty responses = false ->
  (scored_dimensions responses weights <> [] ->
   exists d,
     MaturityScorer.calculate_maturity responses (Some weights) = Ok d
     /\ dict_get "overall_maturity" d
        = Some (VFloat (fround 2 (weighted_average responses weights)))
     /\ (total_weight responses weights == 0 ->
         ~ finite (fround 2 (weighted_average responses weights))))
  /\ (scored_dimensions responses weights = [] ->
      MaturityScorer.calculate_maturity responses (Some weights)
      = Raise ZeroDivisionError).
Proof.
  intros Hne. split.
  - intros H.
    destruct (calculate_maturity_scored responses weights Hne H) as (d & Hd & Ho).
    exists d. repeat split; try assumption.
    intros Hw. unfold weighted_average. now apply fdiv_zero_not_finite.
  - now apply calculate_maturity_unscored.
Qed.

Lemma weighted_maturity_witness :
  df_empty one_answer = false
  /\ scored_dimensions one_answer unit_weight <> []
  /\ exists d,
      MaturityScorer.calculate_maturity one_answer (Some unit_weight) = Ok d
      /\ dict_get "overall_maturity" d
         = Some (VFloat (fround 2 (weighted_average one_answer unit_weight))).
Proof.
  assert (H : scored_dimensions one_answer unit_weight <> []) by (vm_compute; discriminate).
  split; [reflexivity |]. split; [exact H |].
  destruct (proj1 (weighted_maturity one_answer unit_weight eq_refl) H)
    as (d & Hd & Ho & _).
  exists d. split; assumption.
Defined.

(** ** Clustering *)

Section ClusteringRuns.

Import QualityCultureAnalyzer.

Variable ndarray : Type.
Variable scaler_state : Type.
Variable scaler_fit : DataFrame -> result scaler_state.
Variable scaler_transform : scaler_state -> DataFrame -> ndarray.
Variable rng : Type.
Variable RandomState : Z -> rng.
Variable kmeans_fit_predict : nat -> rng -> ndarray -> result (list nat) * rng.

(** The labels depend on the data and the structure only: not on the
    scaler the analyzer holds from an earlier run, not on the state of
    numpy's global generator. *)
Lemma labels_independent (self1 self2 : t scaler_state) (g1 g2 : rng)
    (data : DataFrame) (structure : Structure) :
  (fit_clusters scaler_fit scaler_transform RandomState kmeans_fit_predict
     self1 g1 data structure).1.1
  = (fit_clusters scaler_fit scaler_transform RandomState kmeans_fit_predict
       self2 g2 data structure).1.1.
Proof.
  unfold fit_clusters, fit_transform, seeded_fit_predict.
  destruct (cluster_frame data structure) as [cluster_data | e]; [| reflexivity].
  destruct (scaler_fit cluster_data) as [st | e]; [| reflexivity].
  destruct (kmeans_fit_predict _ _ _) as [[clusters | e] g]; reflexivity.
Qed.

Lemma run_independent (self1 self2 : t scaler_state) (g1 g2 : rng)
    (data : DataFrame) (structure : Structure) :
  (perform_clustering_analysis scaler_fit scaler_transform RandomState
     kmeans_fit_predict self1 g1 data structure).1.1
  = (perform_clustering_analysis scaler_fit scaler_transform RandomState
       kmeans_fit_predict self2 g2 data structure).1.1.
Proof.
  unfold perform_clustering_analysis.
  destruct (dimension_means data structure) as [| m ms]; [reflexivity |].
  pose proof (labels_independent self1 self2 g1 g2 data structure) as H.
  destruct (fit_clusters _ _ _ _ self1 g1 data structure)
    as [[[[cd1 cl1] | e1] s1] h1];
    destruct (fit_clusters _ _ _ _ self2 g2 data structure)
      as [[[[cd2 cl2] | e2] s2] h2];
    cbn in H; try discriminate; injection H as ?; subst; reflexivity.
Qed.

(** A run leaves numpy's global generator as it found it. *)
Lemma run_keeps_global_generator (self : t scaler_state) (g : rng)
    (data : DataFrame) (structure : Structure) :
  (perform_clustering_analysis scaler_fit scaler_transform RandomState
     kmeans_fit_predict self g data structure).2 = g.
Proof.
  unfold perform_clustering_analysis, fit_clusters, fit_transform,
    seeded_fit_predict.
  destruct (dimension_means data structure) as [| m ms]; [reflexivity |].
  destruct (cluster_frame data structure) as [cluster_data | e]; [| reflexivity].
  destruct (scaler_fit cluster_data) as [st | e]; [| reflexivity].
  destruct (kmeans_fit_predict _ _ _) as [[clusters | e] g']; reflexivity.
Qed.

(** C9.  With the seed fixed at 42, a run of the clustering analysis is
    determined by the data and the dimension structure: whatever scaler
    the analyzer holds from an earlier run and whatever the state of the
    global random generator, two runs on the same input produce the same
    labels (cluster assignments) and the same result, cluster sizes and
    centroids included; in particular a second run after a first. *)
Theorem clustering_is_deterministic (self1 self2 : t scaler_state)
    (g1 g2 : rng) (data : DataFrame) (structure : Structure) :
  (fit_clusters scaler_fit scaler_transform RandomState kmeans_fit_predict
     self1 g1 data structure).1.1
  = (fit_clusters scaler_fit scaler_transform RandomState kmeans_fit_predict
       self2 g2 data structure).1.1
  /\ (perform_clustering_analysis scaler_fit scaler_transform RandomState
        kmeans_fit_predict self1 g1 data structure).1.1
     = (perform_clustering_analysis scaler_fit scaler_transform RandomState
          kmeans_fit_predict self2 g2 data structure).1.1
  /\ (perform_clustering_analysis scaler_fit scaler_transform RandomState
        kmeans_fit_predict
        (perform_clustering_analysis scaler_fit scaler_transform RandomState
           kmeans_fit_predict self1 g1 data structure).1.2
        (perform_clustering_analysis scaler_fit scaler_transform RandomState
           kmeans_fit_predict self1 g1 data structure).2
        data structure).1.1
     = (perform_clustering_analysis scaler_fit scaler_transform RandomState
          kmeans_fit_predict self1 g1 data structure).1.1.
Proof.
  split; [apply labels_independent |].
  split; apply run_independent.
Qed.

End ClusteringRuns.

(** ** Rounding a square root *)

Section RoundSqrt.



Variable t : Q.
Hypothesis t_nonneg : 0 <= t.





End RoundSqrt.

(** ** Correlations and the discriminant ceiling *)

Section Ceiling.

Import PsychometricValidator.

Lemma square_nonneg (q : Q) : 0 <= q * q.
Proof.
  destruct (Qlt_le_dec q 0) as [H | H].
  - assert (Esq : q * q == (- q) * (- q)) by ring.
    rewrite Esq.
    apply Qmult_le_0_compat; lra.
  - apply Qmult_le_0_compat; assumption.
Qed.

Lemma sum_sq_dev_nonneg (l : list Q) : 0 <= sum_sq_dev l.
Proof.
  unfold sum_sq_dev. generalize (qsum l / inject_Z (len l)). intros m.
  induction l as [| x l IH]; [cbn; lra |].
  cbn [map]. rewrite qsum_cons. pose proof (square_nonneg (x - m)). lra.
Qed.

Lemma ser_corr_positive (a b : Series) (sxy d : Q) :
  ser_corr a b = Corr sxy d -> 0 < d.
Proof.
  unfold ser_corr.
  destruct (len (complete_pairs a b) <? 2)%Z; [discriminate |].
  set (xs := map fst (complete_pairs a b)).
  set (ys := map snd (complete_pairs a b)).
  destruct (Qeq_bool (sum_sq_dev xs * sum_sq_dev ys) 0) eqn:E; [discriminate |].
  intros [= _ <-].
  apply Qeq_bool_neq in E.
  pose proof (sum_sq_dev_nonneg xs). pose proof (sum_sq_dev_nonneg ys).
  assert (0 <= sum_sq_dev xs * sum_sq_dev ys) by (apply Qmult_le_0_compat; assumption).
  destruct (Qle_lt_or_eq _ _ H1) as [L | Eq]; [exact L |].
  exfalso. apply E. symmetry. exact Eq.
Qed.




End Ceiling.

(** ** Discriminant validity *)

Section Discriminant.

Import PsychometricValidator.




Variable data : DataFrame.
Variable structure : Structure.






End Discriminant.




(** * Further properties of the code *)

(** ** More on rounding *)

Lemma round_nd_mono (d : nat) (q q' : Q) : q <= q' -> round_nd d q <= round_nd d q'.
Proof.
  intros H. rewrite !round_nd_eq.
  pose proof (pow10_pos d) as Hp.
  assert (Hm : (round_half_even (q * pow10 d) <= round_half_even (q' * pow10 d))%Z).
  { apply round_half_even_mono. apply Qmult_le_compat_r; lra. }
  rewrite Zle_Qle in Hm.
  unfold Qdiv. apply Qmult_le_compat_r; [exact Hm |].
  apply Qlt_le_weak, Qinv_lt_0_compat, Hp.
Qed.

Lemma round_nd_ge (d : nat) (a : Z) (q : Q) :
  inject_Z a <= q -> inject_Z a <= round_nd d q.
Proof.
  intros H. rewrite <- (round_nd_inject d a). now apply round_nd_mono.
Qed.

Lemma round_nd_le (d : nat) (b : Z) (q : Q) :
  q <= inject_Z b -> round_nd d q <= inject_Z b.
Proof.
  intros H. rewrite <- (round_nd_inject d b). now apply round_nd_mono.
Qed.

(** A value with two decimals is its own rounding. *)
Lemma round_2_exact (k : Z) : round_nd 2 (inject_Z k / 100) == inject_Z k / 100.
Proof.
  rewrite round_nd_eq. change (pow10 2) with 100.
  rewrite (round_half_even_comp (inject_Z k / 100 * 100) (inject_Z k)) by (field; lra).
  rewrite round_half_even_inject. reflexivity.
Qed.

(** ** The three NPQS percentages *)

Lemma percent_sum (a b c n : Z) :
  (0 < n)%Z -> (a + b + c = n)%Z ->
  inject_Z a / inject_Z n * 100 + inject_Z b / inject_Z n * 100
  + inject_Z c / inject_Z n * 100 == 100.
Proof.
  intros Hn <-. pose proof (inject_pos _ Hn) as Hp.
  rewrite !inject_Z_plus in *. field. lra.
Qed.

Lemma percent_difference (a b n : Z) :
  (0 < n)%Z ->
  inject_Z (a - b) / inject_Z n * 100
  == inject_Z a / inject_Z n * 100 - inject_Z b / inject_Z n * 100.
Proof.
  intros Hn. pose proof (inject_pos _ Hn) as Hp.
  unfold Z.sub. rewrite inject_Z_plus, inject_Z_opp. field. lra.
Qed.

(** X1.  In the result of [calculate_npqs_score] the three percentages lie
    in [0, 100]; they are all zero when no response is valid and otherwise
    add up to 100 within the rounding tolerance 0.015; and the score differs
    from promoters minus detractors by at most 0.015. *)
Theorem pipeline_percentages_add_up (col : Series) :
  exists N P D S : Q,
    let r := QualityCultureAnalyzer.npqs_of_recommendations col in
    reported "npqs_score" r N /\ reported "promoters_pct" r P
    /\ reported "detractors_pct" r D /\ reported "passives_pct" r S
    /\ (0 <= P /\ P <= 100) /\ (0 <= D /\ D <= 100) /\ (0 <= S /\ S <= 100)
    /\ (dropna col = [] -> P == 0 /\ D == 0 /\ S == 0)
    /\ (dropna col <> [] -> Qabs (P + D + S - 100) <= 15 # 1000)
    /\ Qabs (N - (P - D)) <= 15 # 1000.
Proof.
  unfold QualityCultureAnalyzer.npqs_of_recommendations, reported.
  cbn [dict_get String.eqb Ascii.eqb Bool.eqb].
  pose proof (promoters_detractors_le_valid col) as Hsum.
  pose proof (bsum_nonneg (ser_ge col 9)) as Hp.
  pose proof (bsum_nonneg (ser_le col 6)) as Hd.
  set (p := bsum (ser_ge col 9)) in *. set (d := bsum (ser_le col 6)) in *.
  set (n := len (dropna col)) in *.
  destruct (0 <? n)%Z eqn:E.
  - apply Z.ltb_lt in E. rewrite !(percent_float _ _ E).
    do 4 eexists. cbv zeta.
    do 4 (split; [eexists; split; reflexivity |]).
    destruct (percent_between p n E ltac:(lia)) as [_ HP].
    destruct (percent_between d n E ltac:(lia)) as [_ HD].
    destruct (percent_between (n - p - d) n E ltac:(lia)) as [_ HS].
    assert (HP0 : 0 <= inject_Z p / inject_Z n * 100)
      by (apply (percent_ge p n E 0); rewrite Zle_Qle in Hp; change (inject_Z 0) with 0 in Hp; lra).
    assert (HD0 : 0 <= inject_Z d / inject_Z n * 100)
      by (apply (percent_ge d n E 0); rewrite Zle_Qle in Hd; change (inject_Z 0) with 0 in Hd; lra).
    assert (HS0 : 0 <= inject_Z (n - p - d) / inject_Z n * 100).
    { apply (percent_ge (n - p - d) n E 0).
      assert (H : (0 <= n - p - d)%Z) by lia.
      rewrite Zle_Qle in H. change (inject_Z 0) with 0 in H. lra. }
    pose proof (percent_sum p d (n - p - d) n E ltac:(lia)) as Hall.
    pose proof (percent_difference p d n E) as Hdiff.
    destruct (round_2_near (inject_Z p / inject_Z n * 100)) as [P1 P2].
    destruct (round_2_near (inject_Z d / inject_Z n * 100)) as [D1 D2].
    destruct (round_2_near (inject_Z (n - p - d) / inject_Z n * 100)) as [S1 S2].
    destruct (round_2_near (inject_Z (p - d) / inject_Z n * 100)) as [N1 N2].
    split; [split; [apply (round_nd_ge 2 0) | apply (round_nd_le 2 100)]; assumption |].
    split; [split; [apply (round_nd_ge 2 0) | apply (round_nd_le 2 100)]; assumption |].
    split; [split; [apply (round_nd_ge 2 0) | apply (round_nd_le 2 100)]; assumption |].
    split; [| split].
    + intros H0. apply len_nil_iff in H0. fold n in H0. lia.
    + intros _. apply Qabs_Qle_condition. split; lra.
    + apply Qabs_Qle_condition. split; lra.
  - exists 0, 0, 0, 0. cbv zeta.
    do 4 (split; [eexists; split; reflexivity |]).
    apply Z.ltb_ge in E.
    split; [split; lra |]. split; [split; lra |]. split; [split; lra |].
    split; [| split].
    + intros _. repeat split; reflexivity.
    + intros H. exfalso. apply H. apply len_nil_iff. fold n.
      pose proof (len_nonneg (dropna col)) as Hn. fold n in Hn. lia.
    + apply Qabs_Qle_condition. split; lra.
Qed.

(** ** The categories of the NPQS scorer *)

Lemma Qle_bool_false_lt (x y : Q) : Qle_bool x y = false -> y < x.
Proof.
  intros H. destruct (Qlt_le_dec y x) as [L | L]; [exact L |].
  apply Qle_bool_iff in L. congruence.
Qed.

Lemma passives_cons (c : cell) (s : Series) :
  bsum (ser_and (ser_ge (c :: s) 7) (ser_le (c :: s) 8))
  = ((match c with
      | Some v => if Qle_bool 7 v && Qle_bool v 8 then 1 else 0
      | None => 0
      end) + bsum (ser_and (ser_ge s 7) (ser_le s 8)))%Z.
Proof.
  unfold ser_and. cbn [ser_ge ser_le map zip_with]. rewrite bsum_cons.
  destruct c as [v |]; [destruct (Qle_bool 7 v), (Qle_bool v 8) |]; reflexivity.
Qed.

(** The three counts never exceed the number of valid responses, and
    reach it exactly when every valid response is in a category. *)
Lemma categories_count (s : Series) :
  let p := bsum (ser_ge s 9) in
  let m := bsum (ser_and (ser_ge s 7) (ser_le s 8)) in
  let d := bsum (ser_le s 6) in
  (0 <= m /\ p + m + d <= len (dropna s))%Z
  /\ ((p + m + d = len (dropna s))%Z <-> every_valid categorised s).
Proof.
  cbv zeta. unfold every_valid.
  induction s as [| [v |] s [[IHm IHle] IHeq]].
  - split; [split; easy |]. split; [constructor | reflexivity].
  - rewrite passives_cons. cbn [ser_ge ser_le map]. rewrite !bsum_cons.
    fold (ser_ge s 9). fold (ser_le s 6).
    rewrite dropna_cons, len_cons, Forall_cons.
    rewrite <- IHeq. unfold categorised.
    destruct (Qle_bool 9 v) eqn:E9;
      [apply Qle_bool_iff in E9 | apply Qle_bool_false_lt in E9];
      (destruct (Qle_bool 7 v) eqn:E7;
       [apply Qle_bool_iff in E7 | apply Qle_bool_false_lt in E7]);
      (destruct (Qle_bool v 8) eqn:E8;
       [apply Qle_bool_iff in E8 | apply Qle_bool_false_lt in E8]);
      (destruct (Qle_bool v 6) eqn:E6;
       [apply Qle_bool_iff in E6 | apply Qle_bool_false_lt in E6]);
      cbn [andb]; try (exfalso; lra);
      (split; [lia |]);
      (split;
       [intros H; split; [first [lra | exfalso; lia] | lia]
       | intros [Hc Hs]; first [lia | exfalso; lra]]).
  - rewrite passives_cons. cbn [ser_ge ser_le map]. rewrite !bsum_cons.
    fold (ser_ge s 9). fold (ser_le s 6). rewrite dropna_cons.
    split; [lia |]. rewrite <- IHeq. lia.
Qed.

(** X2.  [NPQSScorer.calculate_npqs] counts its passives directly, from 7
    to 8: on every series the three counts together never exceed the number
    of valid responses, and they reach it exactly when no valid response lies
    strictly between 6 and 7 or between 8 and 9. *)
Theorem scorer_categories (s : Series) :
  exists p m d : Z,
    let r := NPQSScorer.calculate_npqs s in
    dict_get "promoters" r = Some (VInt p)
    /\ dict_get "passives" r = Some (VInt m)
    /\ dict_get "detractors" r = Some (VInt d)
    /\ (0 <= p /\ 0 <= m /\ 0 <= d)%Z
    /\ (p + m + d <= len (dropna s))%Z
    /\ ((p + m + d = len (dropna s))%Z <-> every_valid categorised s).
Proof.
  destruct s as [| c s].
  - exists 0%Z, 0%Z, 0%Z. cbv zeta.
    do 3 (split; [reflexivity |]). split; [lia |]. split; [easy |].
    split; [constructor | reflexivity].
  - destruct (categories_count (c :: s)) as [[Hm Hle] Heq].
    pose proof (bsum_nonneg (ser_ge (c :: s) 9)).
    pose proof (bsum_nonneg (ser_le (c :: s) 6)).
    do 3 eexists. cbv zeta. unfold NPQSScorer.calculate_npqs.
    destruct (Z.eqb_spec (len (c :: s)) 0) as [E | _].
    { rewrite len_cons in E. pose proof (len_nonneg s). lia. }
    cbn [dict_get String.eqb Ascii.eqb Bool.eqb].
    unfold NPQSScorer.promoter_threshold, NPQSScorer.passive_range,
      NPQSScorer.detractor_max. cbn [fst snd].
    do 3 (split; [reflexivity |]).
    split; [| split]; [lia | exact Hle | exact Heq].
Qed.

(** X3.  On a non-empty column without missing entries whose responses
    all fall in a category (whole numbers do), the scorer and the pipeline
    report the same score and the same three percentages. *)
Theorem npqs_implementations_agree (c : cell) (s : Series) :
  no_missing (c :: s) ->
  every_valid categorised (c :: s) ->
  let scorer := NPQSScorer.calculate_npqs (c :: s) in
  let pipeline := QualityCultureAnalyzer.npqs_of_recommendations (c :: s) in
  dict_get "npqs" scorer = dict_get "npqs_score" pipeline
  /\ dict_get "promoter_pct" scorer = dict_get "promoters_pct" pipeline
  /\ dict_get "passive_pct" scorer = dict_get "passives_pct" pipeline
  /\ dict_get "detractor_pct" scorer = dict_get "detractors_pct" pipeline.
Proof.
  intros Hcol Hcat. cbv zeta.
  assert (Hlen : len (c :: s) = len (dropna (c :: s))).
  { rewrite <- (no_missing_dropna _ Hcol) at 1. unfold len. now rewrite length_map. }
  assert (Hpos : (0 < len (dropna (c :: s)))%Z).
  { rewrite <- Hlen, len_cons. pose proof (len_nonneg s). lia. }
  destruct (categories_count (c :: s)) as [_ Heq]. apply Heq in Hcat.
  unfold NPQSScorer.calculate_npqs, QualityCultureAnalyzer.npqs_of_recommendations.
  rewrite Hlen.
  destruct (Z.eqb_spec (len (dropna (c :: s))) 0) as [E | _]; [lia |].
  apply Z.ltb_lt in Hpos as Hb. rewrite Hb.
  cbn [dict_get String.eqb Ascii.eqb Bool.eqb]. unfold NPQSScorer.pct.
  unfold NPQSScorer.passive_range, NPQSScorer.promoter_threshold,
    NPQSScorer.detractor_max in *. cbn [fst snd] in *.
  repeat split.
  replace (len (dropna (c :: s)) - bsum (ser_ge (c :: s) 9)
           - bsum (ser_le (c :: s) 6))%Z
    with (bsum (ser_and (ser_ge (c :: s) 7) (ser_le (c :: s) 8))) by lia.
  reflexivity.
Qed.

Lemma npqs_implementations_agree_witness :
  no_missing [Some 9; Some 7; Some 3]
  /\ every_valid categorised [Some 9; Some 7; Some 3]
  /\ dict_get "passive_pct" (NPQSScorer.calculate_npqs [Some 9; Some 7; Some 3])
     = dict_get "passives_pct"
         (QualityCultureAnalyzer.npqs_of_recommendations [Some 9; Some 7; Some 3]).
Proof.
  assert (H1 : no_missing [Some 9; Some 7; Some 3])
    by (repeat constructor; eexists; reflexivity).
  assert (H2 : every_valid categorised [Some 9; Some 7; Some 3]).
  { unfold every_valid, categorised. cbn.
    repeat match goal with |- Forall _ _ => constructor end; lra. }
  split; [exact H1 |]. split; [exact H2 |].
  exact (proj1 (proj2 (proj2 (npqs_implementations_agree _ _ H1 H2)))).
Defined.

(** ** The recommendation column *)

Lemma filter_nil_iff {A : Type} (f : A -> bool) (l : list A) :
  List.filter f l = [] <-> Forall (fun x => f x = false) l.
Proof.
  induction l as [| x l IH]; [split; [constructor | reflexivity] |].
  cbn [List.filter]. rewrite Forall_cons. destruct (f x) eqn:E.
  - split; [discriminate | intros [H _]; discriminate].
  - rewrite IH. tauto.
Qed.

(** X4.  [calculate_npqs_score] raises [IndexError] exactly when no column
    label contains the word "recommend"; otherwise it scores the last column
    whose label does. *)
Theorem recommendation_column_choice (data : DataFrame) :
  (QualityCultureAnalyzer.calculate_npqs_score data = Raise IndexError
   <-> Forall (fun c => QualityCultureAnalyzer.contains "recommend" c = false)
              (columns data))
  /\ (forall (before after : list string) (c : string),
       columns data = before ++ c :: after ->
       QualityCultureAnalyzer.contains "recommend" c = true ->
       Forall (fun c' => QualityCultureAnalyzer.contains "recommend" c' = false)
              after ->
       QualityCultureAnalyzer.calculate_npqs_score data
       = Ok (QualityCultureAnalyzer.npqs_of_recommendations (df_column data c))).
Proof.
  unfold QualityCultureAnalyzer.calculate_npqs_score. split.
  - rewrite <- filter_nil_iff, <- last_None.
    destruct (last _); split; intros H; try discriminate; reflexivity.
  - intros before after c Hcols Hc Hafter.
    rewrite Hcols, List.filter_app. cbn [List.filter]. rewrite Hc.
    apply filter_nil_iff in Hafter. rewrite Hafter.
    rewrite last_snoc. reflexivity.
Qed.

Lemma recommendation_column_choice_witness :
  QualityCultureAnalyzer.calculate_npqs_score two_recommendations
  = Ok (QualityCultureAnalyzer.npqs_of_recommendations
          (df_column two_recommendations "recommend_b")).
Proof.
  refine (proj2 (recommendation_column_choice two_recommendations)
            ["recommend_a"]%string ["age"]%string "recommend_b"%string
            eq_refl eq_refl _).
  repeat constructor.
Defined.

(** ** Dimension entries *)

(** X5.  In a dimension's entry the maturity level is read off the
    unrounded mean and the mean score is that mean rounded: whenever the mean
    score is a number it is on the side of the thresholds that the level
    says, the thresholds themselves included on both sides. *)
Theorem level_agrees_with_mean_score (data : DataFrame) (items : list string) :
  exists (lvl : dict) (name : string),
    let e := QualityCultureAnalyzer.dimension_entry data items in
    dict_get "maturity_level" e = Some (VDict lvl)
    /\ dict_get "level" lvl = Some (VStr name)
    /\ forall q : Q,
        dict_get "mean_score" e = Some (VFloat (Fin q)) ->
        (name = "Excellence"%string /\ 80 <= q)
        \/ (name = "Amélioration"%string /\ 60 <= q /\ q <= 80)
        \/ (name = "Développement"%string /\ 40 <= q /\ q <= 60)
        \/ (name = "Initial"%string /\ q <= 40).
Proof.
  unfold QualityCultureAnalyzer.dimension_entry.
  cbn [dict_get String.eqb Ascii.eqb Bool.eqb].
  set (scores := QualityCultureAnalyzer.individual_scores data items).
  unfold QualityCultureAnalyzer._calculate_maturity_level.
  destruct (ser_mean scores) as [m | | |].
  - split_threshold 80; [| split_threshold 60; [| split_threshold 40]];
      do 2 eexists; cbv zeta;
      (split; [reflexivity |]); (split; [reflexivity |]);
      intros q [= <-].
    + left. split; [reflexivity |]. now apply (round_nd_ge 2 80).
    + right. left. split; [reflexivity |].
      split; [apply (round_nd_ge 2 60) | apply (round_nd_le 2 80)];
        change (inject_Z 60) with 60; change (inject_Z 80) with 80; lra.
    + right. right. left. split; [reflexivity |].
      split; [apply (round_nd_ge 2 40) | apply (round_nd_le 2 60)];
        change (inject_Z 40) with 40; change (inject_Z 60) with 60; lra.
    + right. right. right. split; [reflexivity |].
      apply (round_nd_le 2 40). change (inject_Z 40) with 40. lra.
  - do 2 eexists. cbv zeta. do 2 (split; [reflexivity |]). intros q. discriminate.
  - do 2 eexists. cbv zeta. do 2 (split; [reflexivity |]). intros q. discriminate.
  - do 2 eexists. cbv zeta. do 2 (split; [reflexivity |]). intros q. discriminate.
Qed.

(** X6.  [calculate_dimension_scores] has an entry for exactly the
    dimensions whose items are all columns of the data, in the order of the
    structure, and the entry is the one computed from those items: a
    dimension with an item missing from the matrix is left out. *)
Theorem scored_dimensions_only (data : DataFrame) (structure : Structure) :
  QualityCultureAnalyzer.calculate_dimension_scores data structure
  = map (fun d => (d.1, QualityCultureAnalyzer.dimension_entry data d.2))
        (List.filter (fun d => all_in_columns data d.2) structure).
Proof.
  unfold QualityCultureAnalyzer.calculate_dimension_scores.
  induction structure as [| d structure IH]; [reflexivity |].
  cbn [omap list_omap List.filter].
  destruct (all_in_columns data d.2); cbn [map]; rewrite <- IH; reflexivity.
Qed.

(** ** Maturity with the default weights *)

(** A float that is NaN or a number between two bounds. *)
Lemma df_column_on_scale (lo hi : Q) (data : DataFrame) (c : string) :
  in_scale lo hi data -> Forall (on_scale lo hi) (df_column data c).
Proof.
  unfold in_scale, df_column. intros H. rewrite Forall_fmap.
  eapply Forall_impl; [exact H |]. intros r Hr. cbn.
  now apply row_get_on_scale.
Qed.

Lemma sum_of_bounded (lo hi : Q) (l : list pyfloat) :
  Forall (fun x => on_scale lo hi (to_cell x) /\ (x = NaN \/ exists q, x = Fin q)) l ->
  forall a : Q,
  foldl fadd (Fin a) l = NaN
  \/ exists s, foldl fadd (Fin a) l = Fin s
               /\ a + inject_Z (len l) * lo <= s
               /\ s <= a + inject_Z (len l) * hi.
Proof.
  induction 1 as [| x l [Hx Hkind] _ IH]; intros a.
  - right. exists a. split; [reflexivity |].
    change (inject_Z (len (@nil pyfloat))) with 0. split; lra.
  - cbn [foldl]. destruct Hkind as [-> | [q ->]].
    + left. cbn [fadd]. clear. induction l as [| y l IH]; [reflexivity | exact IH].
    + cbn [fadd]. destruct (Hx q eq_refl) as [Hlo Hhi].
      destruct (IH (a + q)) as [-> | (s & -> & H1 & H2)]; [now left | right].
      exists s. split; [reflexivity |].
      rewrite len_cons, inject_Z_plus. change (inject_Z 1) with 1. split; lra.
Qed.

Lemma default_weight (cols : list string) (c : string) :
  c ∈ cols ->
  (list_to_map (map (fun col : string => (col, 1)) cols) : gmap string Q) !! c
  = Some 1.
Proof.
  intros Hc. apply elem_of_list_to_map_1'.
  - intros y Hy. apply list_elem_of_fmap in Hy as (c' & [= _ ->] & _). reflexivity.
  - apply list_elem_of_fmap. exists c. split; [reflexivity | exact Hc].
Qed.

Lemma omap_all_Some {A B : Type} (f : A -> option B) (g : A -> B) (l : list A) :
  (forall x, x ∈ l -> f x = Some (g x)) -> omap f l = map g l.
Proof.
  induction l as [| x l IH]; intros H; [reflexivity |].
  cbn [omap list_omap map]. rewrite (H x) by (apply elem_of_cons; now left).
  rewrite IH; [reflexivity |]. intros y Hy. apply H, elem_of_cons. now right.
Qed.

Lemma length_map_len {A B : Type} (f : A -> B) (l : list A) : len (map f l) = len l.
Proof. unfold len. now rewrite length_map. Qed.

Lemma qsum_ones {A : Type} (l : list A) :
  qsum (map (fun _ => 1) l) == inject_Z (len l).
Proof.
  induction l as [| x l IH]; [reflexivity |].
  cbn [map]. rewrite qsum_cons, len_cons, inject_Z_plus, IH. reflexivity.
Qed.

(** X7.  Without a weights mapping every column weighs 1: on a non-empty
    frame [calculate_maturity] never raises, and when the responses are on a
    scale with whole-number ends and the overall maturity is a number, that
    number is on the scale too. *)
Theorem equal_weights_maturity (responses : DataFrame) :
  df_empty responses = false ->
  exists d,
    MaturityScorer.calculate_maturity responses None = Ok d
    /\ forall (lo hi : Z) (q : Q),
        in_scale (inject_Z lo) (inject_Z hi) responses ->
        reported "overall_maturity" d q ->
        inject_Z lo <= q /\ q <= inject_Z hi.
Proof.
  intros Hne. unfold MaturityScorer.calculate_maturity. rewrite Hne.
  cbv beta iota zeta.
  set (w := list_to_map (map (fun col : string => (col, 1)) (columns responses))
            : gmap string Q).
  set (entry := fun c : string =>
         (c,
          VDict [("score", VFloat (fround 2 (ser_mean (df_column responses c))));
                 ("weighted_score",
                  VFloat (fround 2 (fmul (ser_mean (df_column responses c)) (Fin 1))));
                 ("level",
                  VStr (MaturityScorer._get_maturity_level
                          (ser_mean (df_column responses c))));
                 ("std", VFloat (ser_std_round 2 (df_column responses c)))]%string,
          fround 2 (fmul (ser_mean (df_column responses c)) (Fin 1)),
          (1 : Q))).
  assert (Hscored : MaturityScorer.score_columns responses w
                    = map entry (columns responses)).
  { apply omap_all_Some. intros c Hc. unfold MaturityScorer.score_dimension.
    unfold w. rewrite (default_weight _ _ Hc). reflexivity. }
  rewrite Hscored.
  assert (Hcols : columns responses <> []).
  { unfold df_empty in Hne. destruct (columns responses); [discriminate | easy]. }
  set (cols := columns responses) in *. clearbody cols.
  assert (Hpos : 0 < inject_Z (len cols)).
  { destruct cols as [| c0 cs]; [contradiction |].
    rewrite len_cons. pose proof (len_nonneg cs).
    change 0 with (inject_Z 0). rewrite <- Zlt_Qlt. lia. }
  assert (Htw : qsum (map snd (map entry cols)) == inject_Z (len cols)).
  { rewrite map_map. cbn [snd entry]. apply qsum_ones. }
  assert (Hcons : map entry cols <> []).
  { destruct cols; [contradiction | discriminate]. }
  destruct (map entry cols) as [| e0 es] eqn:Eentries; [contradiction |].
  rewrite <- Eentries in *. clear Hcons.
  eexists. split; [reflexivity |].
  intros lo hi q Hscale [v [Hv Hq]].
  cbn [dict_get String.eqb Ascii.eqb Bool.eqb] in Hv. injection Hv as <-.
  rewrite map_map in Hq.
  assert (Hall : Forall (fun x => on_scale (inject_Z lo) (inject_Z hi) (to_cell x)
                                  /\ (x = NaN \/ exists q, x = Fin q))
                        (map (fun c => (entry c).1.2) cols)).
  { rewrite Forall_fmap. apply Forall_forall. intros c _. cbn.
    pose proof (ser_mean_on_scale _ _ _ (df_column_on_scale _ _ _ c Hscale)) as Hm.
    unfold ser_mean in *. destruct (mean_of (dropna (df_column responses c))) as [m | | |] eqn:Em.
    - split; [| right; eexists; reflexivity].
      intros x [= <-]. destruct (Hm m eq_refl) as [H1 H2].
      apply round_nd_between; lra.
    - split; [intros x; discriminate | now left].
    - unfold mean_of in Em. destruct (dropna _); discriminate.
    - unfold mean_of in Em. destruct (dropna _); discriminate. }
  destruct (sum_of_bounded _ _ _ Hall 0) as [Hs | (s & Hs & H1 & H2)];
    rewrite Hs in Hq; [discriminate |].
  rewrite length_map_len in H1, H2.
  unfold fdiv in Hq.
  destruct (Qeq_bool _ 0) eqn:E0.
  { apply Qeq_bool_iff in E0. rewrite Htw in E0. lra. }
  cbn [fround value_num] in Hq. injection Hq as <-.
  apply round_nd_between.
  - apply Qle_shift_div_l; [rewrite Htw; exact Hpos |]. rewrite Htw. lra.
  - apply Qle_shift_div_r; [rewrite Htw; exact Hpos |]. rewrite Htw. lra.
Qed.

Lemma equal_weights_maturity_witness :
  df_empty one_answer = false
  /\ exists d, MaturityScorer.calculate_maturity one_answer None = Ok d.
Proof.
  split; [reflexivity |].
  destruct (equal_weights_maturity one_answer eq_refl) as (d & Hd & _).
  exists d. exact Hd.
Defined.

(** ** The distribution of maturity levels *)

Lemma level_count_cons (l x : string) (ls : list string) :
  len (List.filter (String.eqb l) (x :: ls))
  = ((if String.eqb l x then 1 else 0) + len (List.filter (String.eqb l) ls))%Z.
Proof. cbn [List.filter]. destruct (String.eqb l x); rewrite ?len_cons; lia. Qed.

(** Every cell, a missing one included, is counted under exactly one
    level. *)
Lemma level_counts_total (s : Series) :
  counts_total (MaturityScorer.level_counts s) = len s.
Proof.
  unfold MaturityScorer.level_counts.
  set (ls := map (fun c => MaturityScorer._get_maturity_level (of_cell c)) s).
  change (rev (map snd MaturityScorer.levels))
    with ["Optimizing"; "Quantitatively Managed"; "Defined"; "Managed";
          "Initial/Ad-hoc"]%string.
  assert (Hsum :
    (len (List.filter (String.eqb "Optimizing") ls)
     + len (List.filter (String.eqb "Quantitatively Managed") ls)
     + len (List.filter (String.eqb "Defined") ls)
     + len (List.filter (String.eqb "Managed") ls)
     + len (List.filter (String.eqb "Initial/Ad-hoc") ls) = len s)%Z).
  { unfold ls. clear ls. induction s as [| c s IH]; [reflexivity |].
    cbn [map]. rewrite !level_count_cons, len_cons.
    set (x := MaturityScorer._get_maturity_level (of_cell c)).
    assert (Hx : x = "Optimizing"%string \/ x = "Quantitatively Managed"%string
                 \/ x = "Defined"%string \/ x = "Managed"%string
                 \/ x = "Initial/Ad-hoc"%string).
    { unfold x, MaturityScorer._get_maturity_level.
      repeat (destruct (fge _ _); [tauto |]). tauto. }
    clearbody x.
    destruct Hx as [-> | [-> | [-> | [-> | ->]]]];
      repeat match goal with
             | |- context [if String.eqb ?a ?b then _ else _] =>
                 let v := eval vm_compute in (String.eqb a b) in
                 change (String.eqb a b) with v
             end;
      cbv iota; lia. }
  cbn [omap list_omap]. cbv beta zeta.
  pose proof (len_nonneg (List.filter (String.eqb "Optimizing") ls)) as H1.
  pose proof (len_nonneg (List.filter (String.eqb "Quantitatively Managed") ls)) as H2.
  pose proof (len_nonneg (List.filter (String.eqb "Defined") ls)) as H3.
  pose proof (len_nonneg (List.filter (String.eqb "Managed") ls)) as H4.
  pose proof (len_nonneg (List.filter (String.eqb "Initial/Ad-hoc") ls)) as H5.
  set (n1 := len (List.filter (String.eqb "Optimizing") ls)) in *.
  set (n2 := len (List.filter (String.eqb "Quantitatively Managed") ls)) in *.
  set (n3 := len (List.filter (String.eqb "Defined") ls)) in *.
  set (n4 := len (List.filter (String.eqb "Managed") ls)) in *.
  set (n5 := len (List.filter (String.eqb "Initial/Ad-hoc") ls)) in *.
  clearbody n1 n2 n3 n4 n5.
  destruct (Z.ltb_spec 0 n1), (Z.ltb_spec 0 n2), (Z.ltb_spec 0 n3),
    (Z.ltb_spec 0 n4), (Z.ltb_spec 0 n5);
    cbn [counts_total foldr snd]; lia.
Qed.

(** X8.  In the maturity distribution the counts of each column add up to
    the number of respondents: every response, a missing one included, is
    counted under exactly one level. *)
Theorem maturity_distribution_total (responses : DataFrame) :
  Forall (fun e => exists d, e.2 = VDict d /\ counts_total d = df_len responses)
         (MaturityScorer._get_maturity_distribution responses).
Proof.
  unfold MaturityScorer._get_maturity_distribution.
  rewrite Forall_fmap. apply Forall_forall. intros col _.
  exists (MaturityScorer.level_counts (df_column responses col)).
  split; [reflexivity |].
  rewrite level_counts_total. unfold df_column, df_len. apply length_map_len.
Qed.

(** ** EFQM RADAR *)

Lemma omap_length_le {A B : Type} (f : A -> option B) (l : list A) :
  (len (omap f l) <= len l)%Z.
Proof.
  induction l as [| x l IH]; [reflexivity |].
  cbn [omap list_omap]. destruct (f x); rewrite ?len_cons; lia.
Qed.

(** X9.  The four RADAR criteria weigh a quarter each: when the responses
    lie between 0 and a whole number [h], a total score that is a number
    lies between 0 and [h] as well, whichever of the criteria are columns of
    the frame. *)
Theorem radar_total_on_scale (responses : DataFrame) (h : Z) (q : Q) :
  (0 <= h)%Z ->
  in_scale 0 (inject_Z h) responses ->
  reported "total_score" (EFQMRADARScorer.calculate_radar_score responses) q ->
  0 <= q /\ q <= inject_Z h.
Proof.
  intros Hh Hscale [v [Hv Hq]].
  rewrite Zle_Qle in Hh. change (inject_Z 0) with 0 in Hh.
  unfold EFQMRADARScorer.calculate_radar_score in Hv.
  set (scored := omap (EFQMRADARScorer.score_criterion responses)
                      EFQMRADARScorer.radar_weights) in *.
  assert (Hall : Forall (fun x => on_scale 0 (inject_Z h / 4) (to_cell x)
                                  /\ (x = NaN \/ exists q, x = Fin q))
                        (map snd scored)).
  { rewrite Forall_fmap. apply Forall_forall. intros e He.
    unfold scored in He. apply list_elem_of_omap in He as (cw & Hcw & Hsc).
    unfold EFQMRADARScorer.score_criterion in Hsc.
    destruct (has_column responses cw.1); [| discriminate].
    injection Hsc as <-. cbn [snd].
    assert (Hw : cw.2 = 25 # 100).
    { unfold EFQMRADARScorer.radar_weights in Hcw.
      repeat (apply elem_of_cons in Hcw as [-> | Hcw]; [reflexivity |]).
      now apply elem_of_nil in Hcw. }
    rewrite Hw.
    pose proof (ser_mean_on_scale _ _ _ (df_column_on_scale _ _ _ cw.1 Hscale)) as Hm.
    unfold ser_mean in *.
    destruct (mean_of (dropna (df_column responses cw.1))) as [m | | |] eqn:Em.
    - split; [| right; eexists; reflexivity].
      intros x [= <-]. destruct (Hm m eq_refl) as [H1 H2]. split.
      + apply (round_nd_ge 2 0). change (inject_Z 0) with 0. lra.
      + assert (E : inject_Z h / 4 == inject_Z (25 * h) / 100).
        { rewrite inject_Z_mult. change (inject_Z 25) with 25. field. }
        rewrite E, <- (round_2_exact (25 * h)). apply round_nd_mono.
        rewrite <- E. unfold Qdiv. change (/ 4) with (1 # 4). lra.
    - split; [intros x; discriminate | now left].
    - unfold mean_of in Em. destruct (dropna _); discriminate.
    - unfold mean_of in Em. destruct (dropna _); discriminate. }
  pose proof (omap_length_le (EFQMRADARScorer.score_criterion responses)
                EFQMRADARScorer.radar_weights) as Hlen.
  fold scored in Hlen. change (len EFQMRADARScorer.radar_weights) with 4%Z in Hlen.
  destruct (df_empty responses).
  { cbn [dict_get String.eqb Ascii.eqb Bool.eqb] in Hv. injection Hv as <-.
    cbn in Hq. injection Hq as <-. change (inject_Z 0) with 0. split; lra. }
  cbn [dict_get String.eqb Ascii.eqb Bool.eqb] in Hv. injection Hv as <-.
  destruct scored as [| e es] eqn:Esc.
  { cbn in Hq. injection Hq as <-. change (inject_Z 0) with 0. split; lra. }
  rewrite <- Esc in *. clear Esc e es.
  cbn [py_round] in Hq.
  destruct (sum_of_bounded _ _ _ Hall 0) as [Hs | (s & Hs & H1 & H2)];
    rewrite Hs in Hq; [discriminate |].
  cbn [fround value_num] in Hq. injection Hq as <-.
  rewrite length_map_len in H1, H2.
  pose proof (len_nonneg scored) as Hn.
  rewrite Zle_Qle in Hlen, Hn.
  change (inject_Z 4) with 4 in Hlen. change (inject_Z 0) with 0 in Hn.
  unfold Qdiv in H2. change (/ 4) with (1 # 4) in H2.
  apply round_nd_between; change (inject_Z 0) with 0; [lra |].
  assert (inject_Z (len scored) * inject_Z h <= 4 * inject_Z h)
    by (apply Qmult_le_compat_r; lra).
  lra.
Qed.

Lemma radar_total_on_scale_witness :
  (0 <= 100)%Z
  /\ in_scale 0 (inject_Z 100) radar_answers
  /\ reported "total_score" (EFQMRADARScorer.calculate_radar_score radar_answers)
       (75 # 2)
  /\ 75 # 2 <= inject_Z 100.
Proof.
  assert (H0 : (0 <= 100)%Z) by lia.
  assert (Hs : in_scale 0 (inject_Z 100) radar_answers).
  { unfold in_scale, radar_answers. cbn [rows].
    repeat match goal with |- Forall _ _ => constructor end;
      intros v [= <-]; split; (apply Qle_bool_iff; reflexivity). }
  assert (Hr : reported "total_score"
                 (EFQMRADARScorer.calculate_radar_score radar_answers) (75 # 2)).
  { eexists. split; vm_compute; reflexivity. }
  split; [exact H0 |]. split; [exact Hs |]. split; [exact Hr |].
  exact (proj2 (radar_total_on_scale radar_answers 100 (75 # 2) H0 Hs Hr)).
Defined.

(** ** Benchmark positions *)

(** X10.  The thresholds of [_calculate_percentile] are the values of the
    percentile table: for each tabulated percentile above the lowest, a score
    reaches that percentile exactly when it reaches the value the table gives
    for the metric. *)
Theorem percentile_follows_table (p : Z) (table : list (string * Q))
    (metric : string) (v q : Q) :
  (p, table) ∈ BenchmarkAnalyzer.percentiles ->
  (metric, v) ∈ table ->
  (25 < p)%Z ->
  (p <= BenchmarkAnalyzer._calculate_percentile metric (Fin q))%Z <-> v <= q.
Proof.
  intros Hp Hm Hlow. unfold BenchmarkAnalyzer.percentiles in Hp.
  repeat (apply elem_of_cons in Hp as [[= -> ->] | Hp];
          [repeat (apply elem_of_cons in Hm as [[= -> ->] | Hm];
                   [| try (now apply elem_of_nil in Hm)]) |]);
    try (now apply elem_of_nil in Hp); try lia;
    unfold BenchmarkAnalyzer._calculate_percentile;
    cbn [String.eqb Ascii.eqb Bool.eqb];
    repeat match goal with
           | |- context [fge (Fin q) (Fin ?c)] => split_threshold c
           end;
    split; intros; try lia; try lra.
Qed.

Lemma percentile_follows_table_witness :
  (75%Z, [("npqs", 40); ("maturity", 38 # 10)]%string)
    ∈ BenchmarkAnalyzer.percentiles
  /\ (75 <= BenchmarkAnalyzer._calculate_percentile "npqs" (Fin 41))%Z.
Proof.
  assert (Hp : (75%Z, [("npqs", 40); ("maturity", 38 # 10)]%string)
                 ∈ BenchmarkAnalyzer.percentiles).
  { unfold BenchmarkAnalyzer.percentiles.
    apply elem_of_cons; right. apply elem_of_cons; right.
    apply elem_of_cons; left. reflexivity. }
  split; [exact Hp |].
  apply (proj2 (percentile_follows_table 75 _ "npqs" 40 41 Hp
                  ltac:(apply elem_of_cons; left; reflexivity) ltac:(lia))).
  apply Qle_bool_iff. reflexivity.
Defined.

(** X11.  A metric is positioned only when it has an industry average,
    and for every metric other than "npqs" and "maturity" the position does
    not look at the score: the percentile is 50 and the performance level
    "Average". *)
Theorem unranked_metrics_are_average (metric : string) (score : pyfloat) :
  (is_Some (BenchmarkAnalyzer.benchmark_entry (metric, score))
   <-> metric ∈ ["npqs"; "maturity"; "leadership"; "engagement"; "process"]%string)
  /\ (metric <> "npqs"%string -> metric <> "maturity"%string ->
      forall e, BenchmarkAnalyzer.benchmark_entry (metric, score) = Some e ->
                dict_get "percentile" e.2 = Some (VInt 50)
                /\ dict_get "performance_level" e.2 = Some (VStr "Average")).
Proof.
  split.
  - assert (Hlk : is_Some (BenchmarkAnalyzer.lookup_metric metric
                             BenchmarkAnalyzer.industry_averages)
                  <-> metric ∈ ["npqs"; "maturity"; "leadership"; "engagement";
                                "process"]%string).
    { unfold BenchmarkAnalyzer.industry_averages.
      cbn [BenchmarkAnalyzer.lookup_metric].
      repeat match goal with
             | |- context [String.eqb metric ?s] =>
                 destruct (String.eqb_spec metric s) as [-> | ?];
                 [split; [intros _; set_solver | intros _; eexists; reflexivity] |]
             end.
      split; [intros [? H]; discriminate H | intros H].
      repeat (apply elem_of_cons in H as [-> | H]; [congruence |]).
      now apply elem_of_nil in H. }
    rewrite <- Hlk. unfold BenchmarkAnalyzer.benchmark_entry. cbn [fst snd].
    destruct (BenchmarkAnalyzer.lookup_metric metric _); cbn.
    + split; intros _; eexists; reflexivity.
    + split; intros [? H]; discriminate H.
  - intros H1 H2 e He. unfold BenchmarkAnalyzer.benchmark_entry in He.
    cbn [fst snd] in He.
    destruct (BenchmarkAnalyzer.lookup_metric metric _); [| discriminate].
    injection He as <-. cbn [snd dict_get String.eqb Ascii.eqb Bool.eqb].
    unfold BenchmarkAnalyzer._calculate_percentile.
    apply String.eqb_neq in H1, H2. rewrite H1, H2. split; reflexivity.
Qed.

Lemma unranked_metrics_are_average_witness :
  exists e,
    BenchmarkAnalyzer.benchmark_entry ("leadership"%string, Fin 5) = Some e
    /\ dict_get "performance_level" e.2 = Some (VStr "Average").
Proof.
  eexists. split; [reflexivity |].
  refine (proj2 (proj2 (unranked_metrics_are_average "leadership" (Fin 5))
                   _ _ _ eq_refl)); discriminate.
Defined.

(** X12.  For the two ranked metrics the performance level is decided by
    the score alone, through closed-above thresholds: 55 / 40 / 25 for
    "npqs" and 4.3 / 3.8 / 3.2 for "maturity". *)
Theorem performance_level_thresholds (q : Q) :
  let level metric :=
    BenchmarkAnalyzer._get_performance_level
      (BenchmarkAnalyzer._calculate_percentile metric (Fin q)) in
  (level "npqs"%string = "Excellent"%string <-> 55 <= q)
  /\ (level "npqs"%string = "Good"%string <-> 40 <= q /\ q < 55)
  /\ (level "npqs"%string = "Average"%string <-> 25 <= q /\ q < 40)
  /\ (level "npqs"%string = "Needs Improvement"%string <-> q < 25)
  /\ (level "maturity"%string = "Excellent"%string <-> 43 # 10 <= q)
  /\ (level "maturity"%string = "Good"%string <-> 38 # 10 <= q /\ q < 43 # 10)
  /\ (level "maturity"%string = "Average"%string <-> 32 # 10 <= q /\ q < 38 # 10)
  /\ (level "maturity"%string = "Needs Improvement"%string <-> q < 32 # 10).
Proof.
  cbv zeta. unfold BenchmarkAnalyzer._calculate_percentile.
  cbn [String.eqb Ascii.eqb Bool.eqb].
  repeat split_threshold 55; repeat split_threshold 40; repeat split_threshold 25;
    repeat split_threshold (43 # 10); repeat split_threshold (38 # 10);
    repeat split_threshold (32 # 10);
    cbn [BenchmarkAnalyzer._get_performance_level Z.leb Z.compare Pos.compare
         Pos.compare_cont];
    repeat split; intros; try reflexivity; try discriminate; try lra.
Qed.

(** ** More on reliability *)

Lemma round_nd_exact (d : nat) (k : Z) :
  round_nd d (inject_Z k / pow10 d) == inject_Z k / pow10 d.
Proof.
  pose proof (pow10_pos d) as Hp. rewrite round_nd_eq.
  rewrite (round_half_even_comp (inject_Z k / pow10 d * pow10 d) (inject_Z k))
    by (field; lra).
  rewrite round_half_even_inject. reflexivity.
Qed.

(** Rounding to three decimals moves a value by at most 0.0005. *)
Lemma round_3_near (q : Q) :
  q - (5 # 10000) <= round_nd 3 q /\ round_nd 3 q <= q + (5 # 10000).
Proof.
  rewrite round_nd_eq. change (pow10 3) with 1000.
  destruct (round_half_even_near (q * 1000)) as [Hlo Hhi].
  unfold Qdiv. change (/ 1000) with (1 # 1000). split; lra.
Qed.

Lemma all_alphas_scored (self : PsychometricValidator.t) (data : DataFrame)
    (structure : Structure) :
  PsychometricValidator.all_alphas self data structure
  = map (fun d => fround 3 (PsychometricValidator._calculate_cronbach_alpha
                              (df_select data d.2)))
        (List.filter (fun d => all_in_columns data d.2) structure).
Proof.
  unfold PsychometricValidator.all_alphas,
    PsychometricValidator.assess_reliability_cronbach.
  induction structure as [| d structure IH]; [reflexivity |].
  cbn [omap list_omap List.filter].
  destruct (all_in_columns data d.2); [| exact IH].
  cbn [omap list_omap map]. rewrite <- IH. reflexivity.
Qed.

(** X13.  [assess_reliability] judges each dimension on the unrounded
    alpha and the whole instrument on the alphas rounded to three decimals.
    With a threshold of at most three decimals: if every scored dimension is
    acceptable the instrument is reliable, and if the instrument is reliable
    every scored dimension's alpha is at least the threshold less 0.0005. *)
Theorem overall_reliability_rounds (self : PsychometricValidator.t)
    (data : DataFrame) (structure : Structure) (k : Z) :
  PsychometricValidator.alpha_threshold self == inject_Z k / 1000 ->
  (Forall (fun e => dict_get "acceptable" e.2 = Some (VBool true))
          (PsychometricValidator.assess_reliability_cronbach self data structure)
   -> PsychometricValidator.overall_reliability self data structure = true)
  /\ (PsychometricValidator.overall_reliability self data structure = true ->
      forall d, d ∈ structure -> all_in_columns data d.2 = true ->
      exists q,
        PsychometricValidator._calculate_cronbach_alpha (df_select data d.2) = Fin q
        /\ PsychometricValidator.alpha_threshold self - (5 # 10000) <= q).
Proof.
  intros Hthr.
  unfold PsychometricValidator.overall_reliability.
  rewrite all_alphas_scored, forallb_forall.
  split.
  - intros Hacc a Ha. apply list_elem_of_In, list_elem_of_fmap in Ha as (d & -> & Hd).
    apply list_elem_of_In, filter_In in Hd as [Hd Hcols].
    rewrite Forall_forall in Hacc.
    specialize (Hacc (d.1, PsychometricValidator.cronbach_entry self data d.2)).
    assert (Hin : (d.1, PsychometricValidator.cronbach_entry self data d.2)
                    ∈ PsychometricValidator.assess_reliability_cronbach self data structure).
    { unfold PsychometricValidator.assess_reliability_cronbach.
      apply list_elem_of_omap. exists d. split; [now apply list_elem_of_In |].
      now rewrite Hcols. }
    specialize (Hacc Hin). unfold PsychometricValidator.cronbach_entry in Hacc.
    cbn [snd dict_get String.eqb Ascii.eqb Bool.eqb] in Hacc.
    injection Hacc as Hacc.
    destruct (cronbach_alpha_floor (df_select data d.2)) as (q & Hq & _).
    rewrite Hq in *. apply fge_Fin in Hacc. cbn [fround]. apply fge_Fin.
    rewrite Hthr in *. change 1000 with (pow10 3).
    rewrite <- (round_nd_exact 3 k). now apply round_nd_mono.
  - intros Hall d Hd Hcols.
    destruct (cronbach_alpha_floor (df_select data d.2)) as (q & Hq & _).
    exists q. split; [exact Hq |].
    specialize (Hall (fround 3 (PsychometricValidator._calculate_cronbach_alpha
                                  (df_select data d.2)))).
    rewrite Hq in Hall. cbn [fround] in Hall.
    assert (Hin : In (Fin (round_nd 3 q))
                     (map (fun d => fround 3 (PsychometricValidator._calculate_cronbach_alpha
                                                (df_select data d.2)))
                          (List.filter (fun d => all_in_columns data d.2) structure))).
    { apply list_elem_of_In, list_elem_of_fmap. exists d. rewrite Hq. split; [reflexivity |].
      apply list_elem_of_In, filter_In. split; [now apply list_elem_of_In | exact Hcols]. }
    apply Hall, fge_Fin in Hin.
    destruct (round_3_near q). lra.
Qed.

Lemma overall_reliability_rounds_witness :
  PsychometricValidator.alpha_threshold PsychometricValidator.default
    == inject_Z 700 / 1000
  /\ PsychometricValidator.overall_reliability PsychometricValidator.default
       two_dimensions [("A", ["x"; "y"])]%string = true.
Proof.
  assert (H : PsychometricValidator.alpha_threshold PsychometricValidator.default
              == inject_Z 700 / 1000) by reflexivity.
  split; [exact H |].
  apply (proj1 (overall_reliability_rounds PsychometricValidator.default
                  two_dimensions [("A", ["x"; "y"])]%string 700 H)).
  repeat constructor.
Defined.

(** X14.  Where the validator's alpha is positive, the two implementations
    of Cronbach's alpha agree: [StatisticalValidator.calculate_reliability]
    reports that alpha, rounded to three decimals, and judges it against its
    own threshold. *)
Theorem reliability_agrees_when_positive (sv : StatisticalValidator.t)
    (data : DataFrame) (q : Q) :
  PsychometricValidator._calculate_cronbach_alpha data = Fin q ->
  0 < q ->
  StatisticalValidator.calculate_reliability sv data
  = [("cronbach_alpha", VFloat (Fin (round_nd 3 q)));
     ("reliable", VBool (fge (Fin q) (Fin (StatisticalValidator.alpha_threshold sv))));
     ("n_items", VInt (len (columns data)));
     ("n_responses", VInt (df_len data))]%string.
Proof.
  intros Halpha Hq.
  assert (Hzero : Fin 0 = Fin q -> False) by (intros [= <-]; lra).
  unfold PsychometricValidator._calculate_cronbach_alpha in Halpha.
  unfold StatisticalValidator.calculate_reliability.
  destruct (df_empty data || (len (columns data) <? 2)%Z); [now apply Hzero in Halpha |].
  destruct (feq (ser_var (row_sums data)) (Fin 0)); [now apply Hzero in Halpha |].
  unfold PsychometricValidator.max0 in Halpha.
  destruct (fgt _ (Fin 0)); [| now apply Hzero in Halpha].
  rewrite Halpha. reflexivity.
Qed.

Lemma reliability_agrees_when_positive_witness :
  exists q,
    PsychometricValidator._calculate_cronbach_alpha two_dimensions = Fin q
    /\ 0 < q
    /\ dict_get "cronbach_alpha"
         (StatisticalValidator.calculate_reliability StatisticalValidator.default
            two_dimensions)
       = Some (VFloat (Fin (round_nd 3 q))).
Proof.
  eexists. split; [vm_compute; reflexivity |]. split; [reflexivity |].
  rewrite (reliability_agrees_when_positive StatisticalValidator.default
             two_dimensions _ ltac:(vm_compute; reflexivity) ltac:(reflexivity)).
  reflexivity.
Defined.

Lemma var_of_nonneg (l : list Q) (v : Q) : var_of l = Fin v -> 0 <= v.
Proof.
  unfold var_of. destruct (Z.leb_spec (len l) 1) as [H | H]; [discriminate |].
  intros [= <-].
  assert (Hn : 0 < inject_Z (len l - 1)).
  { change 0 with (inject_Z 0). rewrite <- Zlt_Qlt. lia. }
  pose proof (sum_sq_dev_nonneg l).
  apply Qle_shift_div_l; [exact Hn | lra].
Qed.

Lemma nansum_nonneg (l : list pyfloat) :
  Forall (fun x => forall v, x = Fin v -> 0 <= v) l ->
  exists s, nansum l = Fin s /\ 0 <= s.
Proof.
  intros H. unfold nansum. eexists. split; [reflexivity |].
  induction H as [| x l Hx _ IH]; [cbn; lra |].
  cbn [omap list_omap]. destruct x as [v | | |]; cbn [to_cell]; try exact IH.
  rewrite qsum_cons. specialize (Hx v eq_refl). lra.
Qed.

(** X15.  The alpha of the validator never exceeds k / (k - 1) for a
    dimension of k items, and so never exceeds 2. *)
Theorem cronbach_alpha_ceiling (data : DataFrame) :
  exists q,
    PsychometricValidator._calculate_cronbach_alpha data = Fin q
    /\ 0 <= q /\ q <= 2
    /\ q * inject_Z (len (columns data) - 1) <= inject_Z (len (columns data)).
Proof.
  unfold PsychometricValidator._calculate_cronbach_alpha.
  pose proof (len_nonneg (columns data)) as Hk0.
  set (k := len (columns data)) in *.
  assert (Hzero : exists q, Fin 0 = Fin q /\ 0 <= q /\ q <= 2
                            /\ q * inject_Z (k - 1) <= inject_Z k).
  { exists 0. rewrite Zle_Qle in Hk0. change (inject_Z 0) with 0 in Hk0.
    repeat split; lra. }
  destruct (df_empty data); [exact Hzero |]. cbn [orb].
  destruct (Z.ltb_spec k 2) as [Hk | Hk]; [exact Hzero |].
  unfold ser_var.
  destruct (var_of (dropna (row_sums data))) as [V | | |] eqn:EV;
    try (cbn [feq fcmp fdiv fsub fadd fopp fmul];
         unfold var_of in EV; destruct (len _ <=? 1)%Z; discriminate).
  2: { cbn [feq fcmp]. unfold nansum. cbn. exact Hzero. }
  destruct (feq (Fin V) (Fin 0)) eqn:E0; [exact Hzero |].
  assert (HV : 0 < V).
  { pose proof (var_of_nonneg _ _ EV). unfold feq, fcmp in E0.
    destruct (Qcompare_spec V 0); try discriminate; lra. }
  destruct (nansum_nonneg (col_vars data)) as (S & -> & HS).
  { unfold col_vars. rewrite Forall_fmap. apply Forall_forall. intros c _ v Hv.
    cbn in Hv. now apply var_of_nonneg in Hv. }
  unfold fdiv. destruct (Qeq_bool V 0) eqn:E1.
  { apply Qeq_bool_iff in E1. lra. }
  cbn [fsub fopp fadd fmul].
  assert (Hk1 : 0 < inject_Z (k - 1)).
  { change 0 with (inject_Z 0). rewrite <- Zlt_Qlt. lia. }
  assert (Hkk : inject_Z k == inject_Z (k - 1) + 1).
  { replace k with (k - 1 + 1)%Z at 1 by lia.
    rewrite inject_Z_plus. reflexivity. }
  assert (Hratio : 0 <= S / V) by (apply Qle_shift_div_l; lra).
  set (K := inject_Z k / inject_Z (k - 1)).
  assert (HK : K * inject_Z (k - 1) == inject_Z k) by (unfold K; field; lra).
  assert (HK0 : 0 < K).
  { unfold K. apply Qlt_shift_div_l; lra. }
  assert (HK2 : K <= 2).
  { unfold K. apply Qle_shift_div_r; [exact Hk1 |].
    assert (H2 : (k <= 2 * (k - 1))%Z) by lia.
    rewrite Zle_Qle, inject_Z_mult in H2. change (inject_Z 2) with 2 in H2. lra. }
  unfold PsychometricValidator.max0, fgt, fcmp.
  set (a := K * (1 + - (S / V))).
  assert (Ha : a <= K).
  { unfold a. assert (K * (S / V) >= 0) by (apply Qmult_le_0_compat; lra). lra. }
  destruct (Qcompare_spec a 0) as [E | L | G].
  - exact Hzero.
  - exact Hzero.
  - exists a. split; [reflexivity |]. split; [lra |]. split; [lra |].
    rewrite <- HK. apply Qmult_le_compat_r; lra.
Qed.

(** ** Dimensionality and content validity *)

Lemma elem_of_concat {A : Type} (x : A) (ls : list (list A)) :
  x ∈ concat ls <-> exists l, x ∈ l /\ l ∈ ls.
Proof.
  rewrite list_elem_of_In, in_concat. split.
  - intros (l & Hl & Hx). exists l. now rewrite !list_elem_of_In.
  - intros (l & Hx & Hl). exists l. now rewrite <- !list_elem_of_In.
Qed.

Lemma all_in_columns_false (data : DataFrame) (items : list string) :
  all_in_columns data items = false
  <-> exists item, item ∈ items /\ item ∉ columns data.
Proof.
  unfold all_in_columns. split.
  - intros H. induction items as [| i items IH]; [discriminate |].
    cbn [forallb] in H. apply andb_false_iff in H as [H | H].
    + exists i. split; [apply elem_of_cons; now left |].
      unfold has_column in H. now apply bool_decide_eq_false in H.
    + destruct (IH H) as (item & Hi & Hn). exists item.
      split; [apply elem_of_cons; now right | exact Hn].
  - intros (item & Hi & Hn).
    destruct (forallb (has_column data) items) eqn:E; [| reflexivity].
    rewrite forallb_forall in E. apply list_elem_of_In in Hi.
    specialize (E item Hi). unfold has_column in E.
    apply bool_decide_eq_true in E. contradiction.
Qed.

(** X16.  [assess_dimensionality] selects all the items of the structure
    at once: it raises [KeyError] exactly when some item of some dimension is
    not a column, and whenever it returns it reports an adequacy measure of
    0.8, four recommended factors and an adequate dimensionality, whatever
    the data. *)
Theorem dimensionality_is_always_adequate (data : DataFrame)
    (structure : Structure) :
  (PsychometricValidator.assess_dimensionality data structure = Raise KeyError
   <-> exists d item, d ∈ structure /\ item ∈ d.2 /\ item ∉ columns data)
  /\ (forall r,
       PsychometricValidator.assess_dimensionality data structure = Ok r ->
       dict_get "kmo" r = Some (VFloat (Fin (4 # 5)))
       /\ dict_get "recommended_factors" r = Some (VInt 4)
       /\ dict_get "theoretical_factors" r = Some (VInt (len structure))
       /\ dict_get "dimensionality_adequate" r = Some (VBool true)).
Proof.
  unfold PsychometricValidator.assess_dimensionality, df_getitem.
  destruct (all_in_columns data (concat (map snd structure))) eqn:E.
  - split.
    + split; [discriminate |]. intros (d & item & Hd & Hi & Hn).
      assert (Hfalse : all_in_columns data (concat (map snd structure)) = false).
      { apply all_in_columns_false. exists item. split; [| exact Hn].
        apply elem_of_concat. exists d.2. split; [exact Hi |].
        apply list_elem_of_fmap. exists d. easy. }
      congruence.
    + intros r [= <-]. repeat split; reflexivity.
  - split.
    + split; [intros _ | reflexivity].
      apply all_in_columns_false in E as (item & Hi & Hn).
      apply elem_of_concat in Hi as (items & Hi & Hitems).
      apply list_elem_of_fmap in Hitems as (d & -> & Hd).
      exists d, item. easy.
    + intros r H. discriminate H.
Qed.

(** X17.  In the content-validity summary the number of items is the
    total of the items per dimension, and an adequate coverage means at least
    three items for each dimension, hence at least three times as many items
    as dimensions. *)
Theorem content_validity_counts (structure : Structure) :
  exists n k : Z,
    let r := PsychometricValidator._assess_content_validity structure in
    dict_get "n_dimensions" r = Some (VInt n)
    /\ dict_get "n_items" r = Some (VInt k)
    /\ (exists per, dict_get "items_per_dimension" r = Some (VDict per)
                    /\ counts_total per = k)
    /\ (dict_get "adequate_coverage" r = Some (VBool true) ->
        Forall (fun d => (3 <= len d.2)%Z) structure /\ (3 * n <= k)%Z).
Proof.
  do 2 eexists. cbv zeta. unfold PsychometricValidator._assess_content_validity.
  cbn [dict_get String.eqb Ascii.eqb Bool.eqb].
  split; [reflexivity |]. split; [reflexivity |]. split.
  - eexists. split; [reflexivity |].
    unfold counts_total.
    induction structure as [| d structure IH]; [reflexivity |].
    cbn [map foldr snd]. rewrite IH. reflexivity.
  - intros [= H]. rewrite forallb_forall in H.
    assert (HF : Forall (fun d => (3 <= len d.2)%Z) structure).
    { apply Forall_forall. intros d Hd. apply list_elem_of_In in Hd.
      now apply Z.leb_le, H. }
    split; [exact HF |].
    clear H. induction HF as [| d structure Hd _ IH]; [reflexivity |].
    cbn [map foldr]. rewrite len_cons. lia.
Qed.

(** ** The completion rate *)

Lemma filter_len {A : Type} (f : A -> bool) (l : list A) :
  (len (List.filter f l) <= len l)%Z
  /\ (len (List.filter f l) = len l <-> Forall (fun x => f x = true) l).
Proof.
  induction l as [| x l [IHle IHeq]]; [split; [reflexivity | split; [constructor | reflexivity]] |].
  cbn [List.filter]. rewrite Forall_cons. destruct (f x) eqn:E.
  - rewrite !len_cons. split; [lia |]. rewrite <- IHeq. split; [intros; split; [reflexivity | lia] | lia].
  - rewrite len_cons. split; [lia |]. split; [lia | intros [H _]; discriminate].
Qed.

Lemma complete_row_iff (r : list cell) :
  forallb (fun c : cell => bool_decide (is_Some c)) r = true <-> Forall is_Some r.
Proof.
  induction r as [| c r IH]; [split; [constructor | reflexivity] |].
  cbn [forallb]. rewrite andb_true_iff, Forall_cons, IH.
  rewrite (bool_decide_eq_true (is_Some c)). reflexivity.
Qed.

(** X18.  The completion rate lies in [0, 100] and is 0 on a frame without
    respondents; with respondents it is 100 when none of them left a cell
    empty, and with fewer than 20000 respondents it is 100 only then. *)
Theorem completion_rate_law (data : DataFrame) :
  exists q,
    value_num (QualityCultureAnalyzer._calculate_completion_rate data) = Some q
    /\ (0 <= q /\ q <= 100)
    /\ (rows data = [] -> q == 0)
    /\ (rows data <> [] -> all_complete data -> q == 100)
    /\ ((df_len data < 20000)%Z -> q == 100 ->
        rows data <> [] /\ all_complete data).
Proof.
  unfold QualityCultureAnalyzer._calculate_completion_rate, all_complete.
  unfold df_dropna, df_len. cbn [rows].
  set (complete := forallb (fun c : cell => bool_decide (is_Some c))).
  destruct (filter_len complete (rows data)) as [Hle Heq].
  assert (Hall : Forall (fun r => complete r = true) (rows data)
                 <-> Forall (Forall is_Some) (rows data)).
  { split; intros H; (eapply Forall_impl; [exact H |]); intros r; apply complete_row_iff. }
  rewrite Hall in Heq. clear Hall.
  pose proof (len_nonneg (List.filter complete (rows data))) as Ha.
  set (a := len (List.filter complete (rows data))) in *.
  set (n := len (rows data)) in *.
  destruct (Z.ltb_spec 0 n) as [Hn | Hn].
  - rewrite (percent_float a n Hn). eexists. split; [reflexivity |].
    assert (Hne : rows data <> []).
    { intros E. unfold n in Hn. rewrite E in Hn. easy. }
    destruct (percent_between a n Hn ltac:(lia)) as [_ Hhi].
    assert (Hlo : 0 <= inject_Z a / inject_Z n * 100).
    { apply (percent_ge a n Hn 0). rewrite Zle_Qle in Ha.
      change (inject_Z 0) with 0 in Ha. lra. }
    split; [split; [now apply (round_nd_ge 2 0) | now apply (round_nd_le 2 100)] |].
    split; [intros E; contradiction |].
    split.
    + intros _ Hc. apply Heq in Hc.
      rewrite (round_nd_comp 2 _ 100); [apply (round_nd_inject 2 100) |].
      now apply percent_full.
    + intros Hsmall Hq. split; [exact Hne |]. apply Heq.
      apply round_2_is_100 in Hq; [| exact Hhi].
      apply (percent_high a n Hn) in Hq. lia.
  - exists 0. split; [reflexivity |].
    assert (E : rows data = []).
    { apply len_nil_iff. pose proof (len_nonneg (rows data)). fold n in H. lia. }
    split; [split; lra |]. split; [reflexivity |].
    split; [intros H; contradiction |].
    intros _ H. discriminate H.
Qed.

(** ** Trends *)

Lemma qsum_le (hi : Q) (l : list Q) :
  Forall (fun v => v <= hi) l -> qsum l <= inject_Z (len l) * hi.
Proof.
  induction 1 as [| x l Hx _ IH].
  - change (inject_Z (len (@nil Q))) with 0. change (qsum []) with 0. lra.
  - rewrite qsum_cons, len_cons, inject_Z_plus. change (inject_Z 1) with 1. lra.
Qed.

Lemma qsum_ge (lo : Q) (l : list Q) :
  Forall (fun v => lo <= v) l -> inject_Z (len l) * lo <= qsum l.
Proof.
  induction 1 as [| x l Hx _ IH].
  - change (inject_Z (len (@nil Q))) with 0. change (qsum []) with 0. lra.
  - rewrite qsum_cons, len_cons, inject_Z_plus. change (inject_Z 1) with 1. lra.
Qed.

Lemma len_pos {A : Type} (l : list A) : l <> [] -> 0 < inject_Z (len l).
Proof.
  intros H. destruct l as [| x l]; [contradiction |].
  rewrite len_cons. pose proof (len_nonneg l).
  change 0 with (inject_Z 0). rewrite <- Zlt_Qlt. lia.
Qed.

Lemma mean_of_le (hi : Q) (l : list Q) :
  l <> [] -> Forall (fun v => v <= hi) l -> exists m, mean_of l = Fin m /\ m <= hi.
Proof.
  intros Hne H. pose proof (qsum_le hi l H). pose proof (len_pos l Hne).
  destruct l as [| x l]; [contradiction |].
  eexists. split; [reflexivity |]. apply Qle_shift_div_r; [assumption | lra].
Qed.

Lemma mean_of_ge (lo : Q) (l : list Q) :
  l <> [] -> Forall (fun v => lo <= v) l -> exists m, mean_of l = Fin m /\ lo <= m.
Proof.
  intros Hne H. pose proof (qsum_ge lo l H). pose proof (len_pos l Hne).
  destruct l as [| x l]; [contradiction |].
  eexists. split; [reflexivity |]. apply Qle_shift_div_l; [assumption | lra].
Qed.

Lemma elem_of_dropna (x : Q) (s : Series) : x ∈ dropna s <-> Some x ∈ s.
Proof.
  unfold dropna. rewrite list_elem_of_omap. split.
  - intros (c & Hc & E). cbn in E. now subst c.
  - intros H. exists (Some x). easy.
Qed.

(** The two halves of a series of two or more values without gaps: a value
    at the split position separates them. *)
Lemma halves_have_pivot (s : Series) :
  (2 <= length s)%nat -> no_missing s ->
  exists p : Q,
    s !! (length s / 2)%nat = Some (Some p)
    /\ dropna (take (length s / 2) s) <> []
    /\ dropna (drop (length s / 2) s) <> [].
Proof.
  intros Hlen Hs. set (h := (length s / 2)%nat).
  assert (Hh : (1 <= h /\ h < length s)%nat).
  { unfold h. split.
    - apply Nat.div_str_pos. lia.
    - apply Nat.div_lt; lia. }
  destruct (lookup_lt_is_Some_2 s h) as [c Hc]; [lia |].
  destruct (lookup_lt_is_Some_2 s 0) as [c0 Hc0]; [lia |].
  unfold no_missing in Hs. rewrite Forall_forall in Hs.
  destruct (Hs c (list_elem_of_lookup_2 _ _ _ Hc)) as [p ->].
  destruct (Hs c0 (list_elem_of_lookup_2 _ _ _ Hc0)) as [p0 ->].
  exists p. split; [exact Hc |]. split.
  - intros E. assert (Hin : p0 ∈ dropna (take h s)).
    { apply elem_of_dropna. apply (list_elem_of_lookup_2 _ 0).
      rewrite lookup_take_lt by lia. exact Hc0. }
    rewrite E in Hin. now apply elem_of_nil in Hin.
  - intros E. assert (Hin : p ∈ dropna (drop h s)).
    { apply elem_of_dropna. apply (list_elem_of_lookup_2 _ 0).
      rewrite lookup_drop, Nat.add_0_r. exact Hc. }
    rewrite E in Hin. now apply elem_of_nil in Hin.
Qed.

Lemma halves_ordered (s : Series) (p : Q) :
  s !! (length s / 2)%nat = Some (Some p) ->
  (forall (i j : nat) (x y : Q),
      (i <= j)%nat -> s !! i = Some (Some x) -> s !! j = Some (Some y) -> x <= y) ->
  Forall (fun v => v <= p) (dropna (take (length s / 2) s))
  /\ Forall (fun v => p <= v) (dropna (drop (length s / 2) s)).
Proof.
  intros Hp Hmono. split; apply Forall_forall; intros x Hx;
    apply elem_of_dropna, list_elem_of_lookup in Hx as [i Hi].
  - apply lookup_take_Some in Hi as [Hi Hlt].
    apply (Hmono i (length s / 2)%nat x p); [lia | exact Hi | exact Hp].
  - rewrite lookup_drop in Hi.
    apply (Hmono (length s / 2)%nat (length s / 2 + i)%nat p x); [lia | exact Hp | exact Hi].
Qed.

Lemma halves_ordered_down (s : Series) (p : Q) :
  s !! (length s / 2)%nat = Some (Some p) ->
  (forall (i j : nat) (x y : Q),
      (i <= j)%nat -> s !! i = Some (Some x) -> s !! j = Some (Some y) -> y <= x) ->
  Forall (fun v => p <= v) (dropna (take (length s / 2) s))
  /\ Forall (fun v => v <= p) (dropna (drop (length s / 2) s)).
Proof.
  intros Hp Hmono. split; apply Forall_forall; intros x Hx;
    apply elem_of_dropna, list_elem_of_lookup in Hx as [i Hi].
  - apply lookup_take_Some in Hi as [Hi Hlt].
    apply (Hmono i (length s / 2)%nat x p); [lia | exact Hi | exact Hp].
  - rewrite lookup_drop in Hi.
    apply (Hmono (length s / 2)%nat (length s / 2 + i)%nat p x); [lia | exact Hp | exact Hi].
Qed.

Lemma trend_of_monotone (s : Series) :
  (2 <= length s)%nat ->
  (nondecreasing s -> QualityCultureAnalyzer.trend_of s <> "declining"%string)
  /\ (nonincreasing s -> QualityCultureAnalyzer.trend_of s <> "improving"%string).
Proof.
  intros Hlen. split; intros [Hs Hmono];
    destruct (halves_have_pivot s Hlen Hs) as (p & Hp & Hne1 & Hne2).
  - destruct (halves_ordered s p Hp Hmono) as [H1 H2].
    destruct (mean_of_le p _ Hne1 H1) as (m1 & Hm1 & Hle1).
    destruct (mean_of_ge p _ Hne2 H2) as (m2 & Hm2 & Hle2).
    unfold QualityCultureAnalyzer.trend_of, ser_mean. rewrite Hm1, Hm2.
    unfold fgt, flt, fcmp.
    destruct (Qcompare_spec m2 m1); try discriminate. lra.
  - destruct (halves_ordered_down s p Hp Hmono) as [H1 H2].
    destruct (mean_of_ge p _ Hne1 H1) as (m1 & Hm1 & Hle1).
    destruct (mean_of_le p _ Hne2 H2) as (m2 & Hm2 & Hle2).
    unfold QualityCultureAnalyzer.trend_of, ser_mean. rewrite Hm1, Hm2.
    unfold fgt, flt, fcmp.
    destruct (Qcompare_spec m2 m1); try discriminate. lra.
Qed.

Lemma trend_of_labels (s : Series) :
  (QualityCultureAnalyzer.trend_of s = "improving"
   \/ QualityCultureAnalyzer.trend_of s = "declining"
   \/ QualityCultureAnalyzer.trend_of s = "stable")%string.
Proof.
  unfold QualityCultureAnalyzer.trend_of. cbv zeta.
  destruct (fgt _ _); [left; reflexivity |].
  destruct (flt _ _); right; [left | right]; reflexivity.
Qed.

(** A half without a value has no mean, and every comparison with NaN is
    false. *)
Lemma trend_of_empty_half (s : Series) :
  dropna (take (length s / 2) s) = [] \/ dropna (drop (length s / 2) s) = [] ->
  QualityCultureAnalyzer.trend_of s = "stable"%string.
Proof.
  unfold QualityCultureAnalyzer.trend_of, ser_mean. cbv zeta.
  intros [E | E]; rewrite E; cbn [mean_of].
  - destruct (mean_of _); reflexivity.
  - reflexivity.
Qed.

(** X19.  [_calculate_trend_direction] labels a column only when the frame
    has two rows or more, as "improving", "declining" or "stable", by
    comparing the mean of the first half with the mean of the rest.  A column
    one of whose halves holds no value is "stable".  On a column of whole
    numbers without gaps, whose half sums are exact in floating point as
    well, a column that never decreases is never labelled "declining", and
    one that never increases is never labelled "improving". *)
Theorem trend_respects_monotone_columns (data : DataFrame)
    (col label : string) :
  (col, label) ∈ QualityCultureAnalyzer._calculate_trend_direction data ->
  let s := df_column data col in
  (1 < df_len data)%Z
  /\ (label = "improving" \/ label = "declining" \/ label = "stable")%string
  /\ (dropna (take (length s / 2) s) = [] \/ dropna (drop (length s / 2) s) = [] ->
      label = "stable"%string)
  /\ (whole_numbers s -> nondecreasing s -> label <> "declining"%string)
  /\ (whole_numbers s -> nonincreasing s -> label <> "improving"%string).
Proof.
  intros H. unfold QualityCultureAnalyzer._calculate_trend_direction in H.
  apply list_elem_of_omap in H as (c & _ & Hc).
  destruct (Z.ltb_spec 1 (len (df_column data c))) as [Hlen | Hlen]; [| discriminate].
  injection Hc as -> <-. cbv zeta.
  assert (Hrows : len (df_column data col) = df_len data).
  { unfold df_column, df_len. apply length_map_len. }
  split; [lia |]. split; [apply trend_of_labels |].
  split; [apply trend_of_empty_half |].
  assert (H2 : (2 <= length (df_column data col))%nat) by (unfold len in Hlen; lia).
  destruct (trend_of_monotone (df_column data col) H2) as [Hup Hdown].
  split; intros _; assumption.
Qed.

Lemma trend_respects_monotone_columns_witness :
  ("x"%string, "improving"%string)
    ∈ QualityCultureAnalyzer._calculate_trend_direction two_dimensions
  /\ (1 < df_len two_dimensions)%Z.
Proof.
  assert (H : ("x"%string, "improving"%string)
                ∈ QualityCultureAnalyzer._calculate_trend_direction two_dimensions).
  { apply elem_of_cons. left. vm_compute. reflexivity. }
  split; [exact H |].
  exact (proj1 (trend_respects_monotone_columns two_dimensions _ _ H)).
Defined.

(** ** Average variance extracted *)

Lemma cauchy_schwarz_step (A B C a b : Q) :
  0 <= A -> 0 <= B -> C * C <= A * B ->
  (C + a * b) * (C + a * b) <= (A + a * a) * (B + b * b).
Proof.
  intros HA HB HC.
  assert (Hkey : 2 * C * (a * b) <= A * (b * b) + B * (a * a)).
  { destruct (Qlt_le_dec 0 A) as [Hpos | Hzero].
    - assert (E : A * (A * (b * b) + B * (a * a) - 2 * C * (a * b))
                  == (A * b - C * a) * (A * b - C * a) + (a * a) * (A * B - C * C))
        by ring.
      pose proof (square_nonneg (A * b - C * a)) as H1.
      pose proof (square_nonneg a) as H2.
      assert (H3 : 0 <= (a * a) * (A * B - C * C)).
      { apply Qmult_le_0_compat; lra. }
      assert (H4 : 0 <= A * (A * (b * b) + B * (a * a) - 2 * C * (a * b))).
      { rewrite E. lra. }
      destruct (Qlt_le_dec (A * (b * b) + B * (a * a) - 2 * C * (a * b)) 0)
        as [Hneg | Hok]; [| lra].
      exfalso.
      assert (H5 : A * (A * (b * b) + B * (a * a) - 2 * C * (a * b)) < 0).
      { assert (E0 : A * 0 == 0) by ring. rewrite <- E0.
        apply Qmult_lt_l; assumption. }
      lra.
    - assert (EA : A == 0) by lra.
      assert (HCC : C * C == 0).
      { pose proof (square_nonneg C). rewrite EA in HC. lra. }
      assert (EC : C == 0).
      { destruct (Qmult_integral _ _ HCC); assumption. }
      rewrite EA, EC.
      pose proof (square_nonneg a) as H2.
      assert (0 <= B * (a * a)) by (apply Qmult_le_0_compat; lra).
      lra. }
  assert (E1 : (C + a * b) * (C + a * b)
               == C * C + 2 * C * (a * b) + (a * a) * (b * b)) by ring.
  assert (E2 : (A + a * a) * (B + b * b)
               == A * B + (A * (b * b) + B * (a * a)) + (a * a) * (b * b)) by ring.
  rewrite E1, E2. lra.
Qed.

Lemma cauchy_schwarz (mx my : Q) (ps : list (Q * Q)) :
  0 <= qsum (map (fun x => (x - mx) * (x - mx)) (map fst ps))
  /\ 0 <= qsum (map (fun y => (y - my) * (y - my)) (map snd ps))
  /\ qsum (map (fun p : Q * Q => (fst p - mx) * (snd p - my)) ps)
     * qsum (map (fun p : Q * Q => (fst p - mx) * (snd p - my)) ps)
     <= qsum (map (fun x => (x - mx) * (x - mx)) (map fst ps))
        * qsum (map (fun y => (y - my) * (y - my)) (map snd ps)).
Proof.
  induction ps as [| [x y] ps (IHA & IHB & IHC)].
  - cbn. repeat split; lra.
  - cbn [map fst snd]. rewrite !qsum_cons.
    pose proof (square_nonneg (x - mx)). pose proof (square_nonneg (y - my)).
    split; [lra |]. split; [lra |].
    rewrite (Qplus_comm ((x - mx) * (y - my))),
            (Qplus_comm ((x - mx) * (x - mx))),
            (Qplus_comm ((y - my) * (y - my))).
    apply cauchy_schwarz_step; assumption.
Qed.

(** The square of a Pearson correlation lies between 0 and 1. *)
Lemma ser_corr_square (a b : Series) (sxy d : Q) :
  ser_corr a b = Corr sxy d -> 0 < d /\ 0 <= sxy * sxy / d <= 1.
Proof.
  intros H. pose proof (ser_corr_positive a b sxy d H) as Hd.
  split; [exact Hd |].
  unfold ser_corr in H.
  destruct (len (complete_pairs a b) <? 2)%Z; [discriminate |].
  cbv zeta in H.
  destruct (Qeq_bool _ 0); [discriminate |].
  injection H as <- <-.
  unfold sum_sq_dev in *. rewrite !length_map_len in *.
  match goal with
  | |- context [qsum (map (fun p : Q * Q => (fst p - ?mx) * (snd p - ?my)) ?ps)] =>
      destruct (cauchy_schwarz mx my ps) as (HA & HB & HC)
  end.
  split.
  - apply Qle_shift_div_l; [exact Hd |].
    match goal with |- 0 * _ <= ?s * ?s => pose proof (square_nonneg s) end. lra.
  - apply Qle_shift_div_r; [exact Hd |]. lra.
Qed.

Lemma np_mean_fold (l : list pyfloat) (a : Q) :
  Forall (fun x => x = NaN \/ exists q, x = Fin q /\ 0 <= q <= 1) l ->
  (foldl fadd (Fin a) l = NaN /\ NaN ∈ l)
  \/ (exists s, foldl fadd (Fin a) l = Fin s
                /\ a <= s <= a + inject_Z (len l) /\ NaN ∉ l).
Proof.
  intros H. revert a. induction H as [| x l Hx _ IH]; intros a.
  - right. exists a. cbn [foldl]. split; [reflexivity |].
    change (inject_Z (len (@nil pyfloat))) with 0.
    split; [lra |]. intros Hin. inversion Hin.
  - cbn [foldl]. destruct Hx as [-> | (q & -> & Hq)].
    + left. split; [| apply elem_of_cons; left; reflexivity].
      cbn [fadd]. clear. induction l as [| y l IH]; [reflexivity |].
      cbn [foldl]. destruct y; exact IH.
    + cbn [fadd]. destruct (IH (a + q)) as [[E Hin] | (s & E & Hs & Hnin)].
      * left. split; [exact E | apply elem_of_cons; right; exact Hin].
      * right. exists s. split; [exact E |].
        rewrite len_cons, inject_Z_plus. change (inject_Z 1) with 1.
        split; [lra |].
        intros Hin. apply elem_of_cons in Hin as [Hin | Hin];
          [discriminate | contradiction].
Qed.

(** X20.  The average variance extracted of a non-empty frame is the mean of
    the squared correlations of its columns with the row means: a number
    between 0 and 1 when every one of those correlations is defined, and NaN
    exactly when one of them is not.  It is never infinite. *)
Theorem average_variance_extracted_range (data : DataFrame) :
  match PsychometricValidator._calculate_average_variance_extracted data with
  | Fin q =>
      0 <= q <= 1
      /\ (df_empty data = false ->
          forall col, col ∈ columns data ->
            ser_corr (df_column data col) (row_means data) <> CorrNaN)
  | NaN =>
      df_empty data = false
      /\ exists col, col ∈ columns data
           /\ ser_corr (df_column data col) (row_means data) = CorrNaN
  | _ => False
  end.
Proof.
  unfold PsychometricValidator._calculate_average_variance_extracted.
  destruct (df_empty data) eqn:He.
  { split; [lra | discriminate]. }
  cbv zeta. unfold np_mean.
  set (loadings := map (fun col => corr_square
                          (ser_corr (df_column data col) (row_means data)))
                       (columns data)).
  assert (Hall : Forall (fun x => x = NaN \/ exists q, x = Fin q /\ 0 <= q <= 1)
                        loadings).
  { apply Forall_forall. intros x Hx.
    apply list_elem_of_fmap in Hx as (col & -> & _).
    destruct (ser_corr (df_column data col) (row_means data)) as [| sxy d] eqn:Ec.
    - left. reflexivity.
    - right. eexists. split; [reflexivity |].
      exact (proj2 (ser_corr_square _ _ _ _ Ec)). }
  assert (Hn : 0 < inject_Z (len loadings)).
  { apply len_pos. subst loadings. unfold df_empty in He.
    destruct (columns data); [discriminate |]. discriminate. }
  destruct (np_mean_fold loadings 0 Hall) as [[E Hin] | (s & E & Hs & Hnin)];
    rewrite E; cbn [fdiv].
  - split; [reflexivity |].
    apply list_elem_of_fmap in Hin as (col & Hc & Hcol).
    exists col. split; [exact Hcol |].
    destruct (ser_corr (df_column data col) (row_means data)); [reflexivity |].
    discriminate.
  - destruct (Qeq_bool (inject_Z (len loadings)) 0) eqn:Ez.
    { apply Qeq_bool_iff in Ez. lra. }
    split.
    + split.
      * apply Qle_shift_div_l; [exact Hn | lra].
      * apply Qle_shift_div_r; [exact Hn | lra].
    + intros _ col Hcol Ec. apply Hnin.
      apply list_elem_of_fmap. exists col. split; [| exact Hcol].
      rewrite Ec. reflexivity.
Qed.

(** ** A dimension of one item *)

Lemma select_one_column (data : DataFrame) (item : string) :
  df_column (df_select data [item]) item = df_column data item.
Proof.
  unfold df_column, df_select. cbn [columns rows]. rewrite map_map.
  apply map_ext. intros r. cbn [map]. unfold row_get at 1.
  cbn [index_of]. rewrite String.eqb_refl. reflexivity.
Qed.

Lemma select_one_row_means (data : DataFrame) (item : string) :
  row_means (df_select data [item])
  = map (fun c : cell => to_cell (mean_of (dropna [c]))) (df_column data item).
Proof.
  unfold row_means, df_column, df_select. cbn [columns rows].
  rewrite !map_map. reflexivity.
Qed.

Lemma complete_pairs_with_own_mean (s : Series) :
  complete_pairs s (map (fun c : cell => to_cell (mean_of (dropna [c]))) s)
  = map (fun x => (x, qsum [x] / inject_Z (len [x]))) (dropna s).
Proof.
  unfold complete_pairs. induction s as [| c s IH]; [reflexivity |].
  cbn [map zip zip_with omap list_omap]. rewrite dropna_cons.
  destruct c as [x |].
  - cbn [dropna omap list_omap id mean_of to_cell map option_bind mbind].
    cbn -[qsum len inject_Z Qdiv]. f_equal. exact IH.
  - cbn -[qsum len inject_Z Qdiv]. exact IH.
Qed.

Lemma qsum_ext {A : Type} (f g : A -> Q) (l : list A) :
  (forall x, x ∈ l -> f x == g x) -> qsum (map f l) == qsum (map g l).
Proof.
  induction l as [| x l IH]; intros H; [reflexivity |].
  cbn [map]. rewrite !qsum_cons.
  rewrite (H x) by (apply elem_of_cons; left; reflexivity).
  rewrite IH; [reflexivity |].
  intros y Hy. apply H. apply elem_of_cons. right. exact Hy.
Qed.

Lemma qsum_proper_div (a b n : Q) : a == b -> a / n == b / n.
Proof. intros ->. reflexivity. Qed.

Lemma mean_of_one (x : Q) : qsum [x] / inject_Z (len [x]) == x.
Proof.
  change (inject_Z (len [x])) with 1. change (qsum [x]) with (x + 0). field.
Qed.

Lemma copy_sums (g : Q -> Q) (xs : list Q) (n : Q) :
  (forall x, g x == x) ->
  let ps := map (fun x => (x, g x)) xs in
  let mx := qsum (map fst ps) / n in
  let my := qsum (map snd ps) / n in
  let ss := qsum (map (fun x => (x - qsum xs / n) * (x - qsum xs / n)) xs) in
  qsum (map (fun p : Q * Q => (fst p - mx) * (snd p - my)) ps) == ss
  /\ qsum (map (fun x => (x - mx) * (x - mx)) (map fst ps)) == ss
  /\ qsum (map (fun y => (y - my) * (y - my)) (map snd ps)) == ss.
Proof.
  intros Hg ps mx my ss.
  assert (Ex : mx == qsum xs / n).
  { subst mx ps. rewrite map_map. cbn [fst]. rewrite map_id. reflexivity. }
  assert (Ey : my == qsum xs / n).
  { subst my ps. rewrite map_map. cbn [snd]. apply qsum_proper_div.
    rewrite <- (map_id xs) at 2. apply qsum_ext. intros x _. apply Hg. }
  subst ps ss. rewrite !map_map. cbn [fst snd].
  repeat split; apply qsum_ext; intros x _; rewrite ?(Hg x), ?Ex, ?Ey; reflexivity.
Qed.

(** The correlation of a series with a copy of itself has square 1. *)
Lemma ser_corr_with_copy (s : Series) (sxy d : Q) :
  ser_corr s (map (fun c : cell => to_cell (mean_of (dropna [c]))) s) = Corr sxy d ->
  sxy * sxy / d == 1.
Proof.
  intros H.
  pose proof (ser_corr_positive _ _ _ _ H) as Hd.
  unfold ser_corr in H. rewrite complete_pairs_with_own_mean in H.
  destruct (len _ <? 2)%Z; [discriminate |].
  cbv zeta in H. destruct (Qeq_bool _ 0); [discriminate |].
  injection H as Hs Hdd.
  unfold sum_sq_dev in *. rewrite ?length_map_len in *.
  destruct (copy_sums (fun x => qsum [x] / inject_Z (len [x])) (dropna s)
              (inject_Z (len (dropna s))) mean_of_one) as (E1 & E2 & E3).
  cbv zeta in E1, E2, E3.
  set (A := qsum (map (fun x => (x - qsum (dropna s) / inject_Z (len (dropna s)))
                               * (x - qsum (dropna s) / inject_Z (len (dropna s))))
                      (dropna s))) in *.
  assert (F1 : sxy == A) by (rewrite <- Hs; exact E1).
  assert (F2 : d == A * A).
  { rewrite <- Hdd. rewrite E2, E3. reflexivity. }
  rewrite F1. rewrite F2 in Hd |- *.
  apply Qmult_inv_r. lra.
Qed.

(** X21.  A dimension made of one item has, on a frame with rows, an average
    variance extracted that is NaN (and then not acceptable) or is reported
    as 1.0 (the item is correlated with itself): it is then acceptable under
    every threshold up to 0.9995 and under no threshold above 1.  On a frame
    without rows the value is 0. *)
Theorem single_item_dimension_ave (self : PsychometricValidator.t)
    (data : DataFrame) (item : string) :
  let ave := PsychometricValidator._calculate_average_variance_extracted
               (df_select data [item]) in
  let entry := PsychometricValidator.convergent_entry self data [item] in
  (rows data = [] /\ ave = Fin 0)
  \/ (rows data <> []
      /\ entry = [("ave", VFloat NaN); ("acceptable", VBool false)]%string)
  \/ (rows data <> []
      /\ exists b : bool,
           entry = [("ave", VFloat (Fin 1)); ("acceptable", VBool b)]%string
           /\ (PsychometricValidator.ave_threshold self <= 9995 # 10000 -> b = true)
           /\ (1 < PsychometricValidator.ave_threshold self -> b = false)).
Proof.
  cbv zeta.
  unfold PsychometricValidator.convergent_entry.
  unfold PsychometricValidator._calculate_average_variance_extracted.
  destruct (rows data) as [| r0 rs] eqn:Hrows.
  { left. split; [reflexivity |].
    unfold df_empty, df_select. cbn [columns rows]. rewrite Hrows. reflexivity. }
  right.
  assert (He : df_empty (df_select data [item]) = false).
  { unfold df_empty, df_select. cbn [columns rows]. rewrite Hrows. reflexivity. }
  rewrite He. cbv zeta.
  change (columns (df_select data [item])) with [item]. cbn [map].
  rewrite select_one_column, select_one_row_means.
  destruct (ser_corr _ _) as [| sxy d] eqn:Ec.
  - left. split; [discriminate | reflexivity].
  - right. split; [discriminate |].
    pose proof (ser_corr_with_copy _ _ _ Ec) as E1.
    unfold np_mean, corr_square. cbn [foldl fadd].
    change (len [Fin (sxy * sxy / d)]) with 1%Z.
    cbn [fdiv]. change (Qeq_bool (inject_Z 1) 0) with false. cbv iota.
    assert (Eq : (0 + sxy * sxy / d) / inject_Z 1 == 1).
    { rewrite E1. reflexivity. }
    eexists. split; [| split].
    + unfold fround. rewrite (round_nd_comp 3 _ 1 Eq).
      change (round_nd 3 1) with (Qred (inject_Z (round_half_even (1 * pow10 3)) / pow10 3)).
      reflexivity.
    + intros Ht. apply fge_Fin. lra.
    + intros Ht. apply fge_Fin_false. lra.
Qed.

(** ** Significant correlations *)

Lemma complete_pairs_swap (a b : Series) :
  complete_pairs b a = map (fun p : Q * Q => (p.2, p.1)) (complete_pairs a b).
Proof.
  unfold complete_pairs. revert b.
  induction a as [| x a IH]; intros [| y b]; try reflexivity.
  cbn [zip zip_with omap list_omap]. 
  destruct x as [x |], y as [y |]; cbn [map]; rewrite ?IH; reflexivity.
Qed.

Lemma qsum_swap_fst (ps : list (Q * Q)) :
  map fst (map (fun p : Q * Q => (p.2, p.1)) ps) = map snd ps.
Proof. rewrite map_map. reflexivity. Qed.

Lemma qsum_swap_snd (ps : list (Q * Q)) :
  map snd (map (fun p : Q * Q => (p.2, p.1)) ps) = map fst ps.
Proof. rewrite map_map. reflexivity. Qed.

(** A correlation does not depend on the order of its two series. *)
Lemma ser_corr_sym (a b : Series) :
  match ser_corr a b, ser_corr b a with
  | CorrNaN, CorrNaN => True
  | Corr sxy d, Corr sxy' d' => sxy == sxy' /\ d == d'
  | _, _ => False
  end.
Proof.
  unfold ser_corr. rewrite (complete_pairs_swap a b).
  set (ps := complete_pairs a b).
  rewrite qsum_swap_fst, qsum_swap_snd, length_map_len.
  destruct (len ps <? 2)%Z; [exact I |].
  cbv zeta.
  assert (Ed : sum_sq_dev (map fst ps) * sum_sq_dev (map snd ps)
               == sum_sq_dev (map snd ps) * sum_sq_dev (map fst ps)) by ring.
  rewrite (Qeqb_comp _ _ Ed 0 0 (Qeq_refl 0)).
  destruct (Qeq_bool _ 0); [exact I |].
  split; [| exact Ed].
  rewrite map_map. apply qsum_ext. intros p _. cbn [fst snd]. ring.
Qed.

Lemma round_sqrt_comp (t t' : Q) : t == t' -> round_sqrt t = round_sqrt t'.
Proof.
  intros H. unfold round_sqrt.
  assert (E : 4 * t == 4 * t') by (rewrite H; reflexivity).
  rewrite (Qfloor_comp _ _ E).
  rewrite (Qeqb_comp _ _ E _ _ (Qeq_refl _)). reflexivity.
Qed.

Lemma corr_round_comp (n : nat) (sxy d sxy' d' : Q) :
  sxy == sxy' -> d == d' ->
  corr_round n (Corr sxy d) = corr_round n (Corr sxy' d').
Proof.
  intros Hs Hd. unfold corr_round.
  assert (E : sxy * sxy / d * pow10 n * pow10 n
              == sxy' * sxy' / d' * pow10 n * pow10 n).
  { rewrite Hs, Hd. reflexivity. }
  rewrite (round_sqrt_comp _ _ E).
  rewrite (Qleb_comp 0 0 (Qeq_refl 0) _ _ Hs). reflexivity.
Qed.

Lemma corr_abs_gt_comp (t sxy d sxy' d' : Q) :
  sxy == sxy' -> d == d' ->
  corr_abs_gt (Corr sxy d) t = corr_abs_gt (Corr sxy' d') t.
Proof.
  intros Hs Hd. unfold corr_abs_gt. f_equal.
  apply Qleb_comp; [rewrite Hs | rewrite Hd]; reflexivity.
Qed.

Lemma ser_corr_sym_reported (a b : Series) (n : nat) (t : Q) :
  corr_round n (ser_corr b a) = corr_round n (ser_corr a b)
  /\ corr_abs_gt (ser_corr b a) t = corr_abs_gt (ser_corr a b) t.
Proof.
  pose proof (ser_corr_sym a b) as H.
  destruct (ser_corr a b) as [| s d], (ser_corr b a) as [| s' d'];
    try contradiction; [split; reflexivity |].
  destruct H as [Hs Hd]. split.
  - apply corr_round_comp; symmetry; assumption.
  - apply corr_abs_gt_comp; symmetry; assumption.
Qed.

Lemma significant_elem (scores : list (string * Series)) (e : dict) :
  e ∈ QualityCultureAnalyzer._identify_significant_correlations
        (QualityCultureAnalyzer.corr_matrix scores)
  <-> exists a b, a ∈ scores /\ b ∈ scores
        /\ String.eqb a.1 b.1 = false
        /\ corr_abs_gt (ser_corr a.2 b.2) (1 # 2) = true
        /\ e = QualityCultureAnalyzer.significant_entry a.1 b.1
                 (corr_round 3 (ser_corr a.2 b.2))
                 (if corr_abs_gt (ser_corr a.2 b.2) (7 # 10)
                  then "strong" else "moderate")%string.
Proof.
  unfold QualityCultureAnalyzer._identify_significant_correlations,
         QualityCultureAnalyzer.corr_matrix.
  rewrite list_elem_of_bind. split.
  - intros (row & He & Hrow).
    apply list_elem_of_fmap in Hrow as (a & -> & Ha).
    cbn [fst snd] in He.
    apply list_elem_of_omap in He as (c & Hc & He).
    apply list_elem_of_fmap in Hc as (b & -> & Hb).
    cbn [fst snd] in He.
    destruct (String.eqb a.1 b.1) eqn:Eab; [discriminate |].
    destruct (corr_abs_gt (ser_corr a.2 b.2) (1 # 2)) eqn:Eg; [| discriminate].
    cbn [negb andb] in He. injection He as <-.
    exists a, b. repeat split; assumption.
  - intros (a & b & Ha & Hb & Eab & Eg & ->).
    exists (a.1, map (fun b0 : string * Series => (b0.1, ser_corr a.2 b0.2)) scores).
    split.
    + cbn [fst snd]. apply list_elem_of_omap.
      exists (b.1, ser_corr a.2 b.2). split.
      * apply list_elem_of_fmap. exists b. split; [reflexivity | exact Hb].
      * cbn [fst snd]. rewrite Eab, Eg. reflexivity.
    + apply list_elem_of_fmap. exists a. split; [reflexivity | exact Ha].
Qed.

(** X22.  The significant correlations of the correlation analysis never
    pair a dimension with itself, are labelled "strong" or "moderate", and
    come twice: a pair reported as (i, j) is reported as (j, i) as well,
    with the same rounded correlation and the same strength. *)
Theorem significant_pairs_come_twice (data : DataFrame)
    (theoretical_structure : Structure) (i j : string) (c : pyfloat)
    (s : string) :
  QualityCultureAnalyzer.significant_entry i j c s
    ∈ QualityCultureAnalyzer.significant_correlations data theoretical_structure ->
  i <> j
  /\ (s = "strong" \/ s = "moderate")%string
  /\ QualityCultureAnalyzer.significant_entry j i c s
       ∈ QualityCultureAnalyzer.significant_correlations data theoretical_structure.
Proof.
  unfold QualityCultureAnalyzer.significant_correlations.
  intros H. apply significant_elem in H as (a & b & Ha & Hb & Eab & Eg & He).
  unfold QualityCultureAnalyzer.significant_entry in He.
  injection He as -> -> -> ->.
  split; [apply String.eqb_neq; exact Eab |].
  split; [destruct (corr_abs_gt _ (7 # 10)); [left | right]; reflexivity |].
  apply significant_elem. exists b, a.
  destruct (ser_corr_sym_reported a.2 b.2 3 (1 # 2)) as [Er Eg'].
  destruct (ser_corr_sym_reported a.2 b.2 3 (7 # 10)) as [_ Es].
  rewrite Er, Eg', Es.
  repeat split; try assumption.
  rewrite String.eqb_sym. exact Eab.
Qed.

Lemma significant_pairs_come_twice_witness :
  QualityCultureAnalyzer.significant_entry "B" "A" (Fin (17 # 20)) "strong"
    ∈ QualityCultureAnalyzer.significant_correlations two_dimensions two_structure.
Proof.
  refine (proj2 (proj2 (significant_pairs_come_twice two_dimensions two_structure
                          "A" "B" (Fin (17 # 20)) "strong" _))).
  apply elem_of_cons. left. vm_compute. reflexivity.
Defined.
